(** * TeleImageBot: the image enhancement pipeline and its file filter

    A shallow embedding of [src/bot/image_processor.py], [src/config.py] and
    [src/utils/file_utils.py].

    Modelling conventions.
    - A raster image is its width, height and channel layout; pixel values
      are not represented (no property below depends on them).
    - Python [float] arithmetic is idealised as exact rational arithmetic
      ([Q]); [int(x)] truncates towards zero.  The conversion [float(n)] of
      the size formatter is the exception: it rounds to 53 bits and
      overflows as the interpreter's does.
    - Library calls (Pillow, OpenCV, NumPy) are primitives.  Every primitive
      call may raise: a fault oracle [faults : nat -> bool] says whether the
      n-th primitive call of a run raises.  On top of the oracle a primitive
      raises where the library documents it (resize to an empty size, JPEG
      encoding of an alpha image or of a side above 65500 pixels, bilateral
      filter on four channels, ...).
    - Every exception of the model is an instance of Python's [Exception].
    - A run records the primitives it invoked, the strategy routines it
      entered and the errors and warnings it logged (the trace), and the
      files it wrote.
    - Left out, as they neither raise on their own nor change a size, a
      layout or an encoding: [logger.info] calls, the constant sharpening
      kernel of the HD path, [astype('uint8')], and the scheduling of
      [run_in_executor].  [ImageEnhance.Sharpness(img).enhance(f)] is one
      primitive.  Both decoders report the same size for a file. *)

From Stdlib Require Import ZArith QArith Qabs Qround List String Ascii Bool Lia.
From Stdlib Require Import DecimalString.
Import ListNotations.

Open Scope Z_scope.

(** ** Python strings and [os.path] *)

Module PyStr.

(** [s.rfind(c)] for a one-character needle: highest index, or -1. *)
Fixpoint rfind_from (i : Z) (c : ascii) (s : string) : Z :=
  match s with
  | EmptyString => -1
  | String x r =>
      let k := rfind_from (i + 1) c r in
      if 0 <=? k then k else if Ascii.eqb x c then i else -1
  end.

Definition rfind (c : ascii) (s : string) : Z := rfind_from 0 c s.

(** [s[:n]] and [s[n:]] for [0 <= n]. *)
Fixpoint take (n : nat) (s : string) : string :=
  match n, s with
  | S n', String x r => String x (take n' r)
  | _, _ => EmptyString
  end.

Fixpoint drop (n : nat) (s : string) : string :=
  match n, s with
  | S n', String _ r => drop n' r
  | _, _ => s
  end.

Definition char_at (s : string) (i : Z) : option ascii :=
  if i <? 0 then None else String.get (Z.to_nat i) s.

Definition lower_ascii (c : ascii) : ascii :=
  let n := nat_of_ascii c in
  if (65 <=? n)%nat && (n <=? 90)%nat then ascii_of_nat (n + 32) else c.

Definition upper_ascii (c : ascii) : ascii :=
  let n := nat_of_ascii c in
  if (97 <=? n)%nat && (n <=? 122)%nat then ascii_of_nat (n - 32) else c.

(** [s.lower()] and [s.upper()] on ASCII text. *)
Fixpoint lower (s : string) : string :=
  match s with
  | EmptyString => EmptyString
  | String x r => String (lower_ascii x) (lower r)
  end.

Fixpoint upper (s : string) : string :=
  match s with
  | EmptyString => EmptyString
  | String x r => String (upper_ascii x) (upper r)
  end.

(** The scan of [genericpath._splitext] that skips leading dots:
    [filenameIndex] runs from [sepIndex + 1] up to [dotIndex]; the first
    character that is not a dot makes the split happen. *)
Fixpoint splitext_scan (n : nat) (p : string) (filenameIndex dotIndex : Z)
  : string * string :=
  match n with
  | O => (p, EmptyString)
  | S n' =>
      if filenameIndex <? dotIndex then
        match char_at p filenameIndex with
        | Some "."%char =>
            splitext_scan n' p (filenameIndex + 1) dotIndex
        | _ => (take (Z.to_nat dotIndex) p, drop (Z.to_nat dotIndex) p)
        end
      else (p, EmptyString)
  end.

(** [os.path.splitext] (posix: separator [/], no alternative separator). *)
Definition splitext (p : string) : string * string :=
  let sepIndex := rfind "/"%char p in
  let dotIndex := rfind "."%char p in
  if sepIndex <? dotIndex then
    splitext_scan (Z.to_nat (dotIndex - (sepIndex + 1))) p (sepIndex + 1) dotIndex
  else (p, EmptyString).

(** [os.path.basename]. *)
Definition basename (p : string) : string :=
  drop (Z.to_nat (rfind "/"%char p + 1)) p.

(** [path.replace('.jpg', '.png')]: every occurrence, left to right. *)
Fixpoint replace_jpg_png (s : string) : string :=
  match s with
  | EmptyString => EmptyString
  | String "."%char (String "j"%char (String "p"%char (String "g"%char r))) =>
      String "." (String "p" (String "n" (String "g" (replace_jpg_png r))))
  | String x r => String x (replace_jpg_png r)
  end.

(** [str(n)] for an integer. *)
Definition str_of_Z (n : Z) : string :=
  NilZero.string_of_int (Z.to_int n).

Fixpoint mem (x : string) (l : list string) : bool :=
  match l with
  | [] => false
  | y :: r => String.eqb x y || mem x r
  end.

End PyStr.

(** ** [src/config.py] *)

Module Config.

Local Open Scope string_scope.

Definition SUPPORTED_FORMATS : list string :=
  ["JPEG"; "PNG"; "WEBP"; "BMP"; "TIFF"].

Definition HD_SIZE : Z * Z := (1920, 1080).
Definition UHD_4K_SIZE : Z * Z := (3840, 2160).
Definition TEMP_DIR : string := "/tmp/bot_images".
Definition MAX_CONCURRENT_PROCESSES : Z := 3.

End Config.

(** ** [src/utils/file_utils.py] *)

Module FileUtils.

Local Open Scope string_scope.

Definition get_file_extension (filename : string) : string :=
  PyStr.lower (snd (PyStr.splitext filename)).

Definition image_extensions : list string :=
  [".jpg"; ".jpeg"; ".png"; ".webp"; ".bmp"; ".tiff"; ".gif"].

Definition is_image_file (filename : string) : bool :=
  let extension := get_file_extension filename in
  PyStr.mem extension image_extensions.

End FileUtils.

(** ** The effect model: exceptions, fault oracle, trace and written files *)

Inductive pil_mode : Type :=
| Mode1 | ModeL | ModeLA | ModeP | ModeRGB | ModeRGBA | ModeCMYK | ModeI | ModeF.

Definition pil_mode_eqb (a b : pil_mode) : bool :=
  match a, b with
  | Mode1, Mode1 | ModeL, ModeL | ModeLA, ModeLA | ModeP, ModeP
  | ModeRGB, ModeRGB | ModeRGBA, ModeRGBA | ModeCMYK, ModeCMYK
  | ModeI, ModeI | ModeF, ModeF => true
  | _, _ => false
  end.

(** [m in (a, b, ...)] on mode names. *)
Definition mode_in (m : pil_mode) (l : list pil_mode) : bool :=
  existsb (pil_mode_eqb m) l.

(** A decoded Pillow image: [img.size] and [img.mode]. *)
Record image : Type := mkImage
  { im_width : Z; im_height : Z; im_mode : pil_mode }.

(** A NumPy / OpenCV array: [shape = (rows, cols, channels)]. *)
Record ndarray : Type := mkArray
  { arr_rows : Z; arr_cols : Z; arr_channels : Z }.

Inductive format : Type :=
| JPEG | PNG | WEBP | OtherFormat (name : string).

(** What an encoder put on disk. *)
Record encoded : Type := mkEncoded
  { enc_width : Z; enc_height : Z; enc_channels : Z;
    enc_format : format; enc_quality : option Z;
    enc_optimize : bool; enc_progressive : bool }.

(** A file of the collaborator's temp directory: the picture it holds and
    which of the two decoders can read it. *)
Record disk_file : Type := mkDiskFile
  { df_image : image; df_pil : bool; df_cv : bool }.

Inductive exn : Type :=
| LibraryError | ValueError | ZeroDivisionError | OSError | cv2_error | KeyError.

(** What the code cannot see.  [other_encoder name img]: what Pillow does
    when asked to save [img] under a format name other than JPEG, PNG and
    WebP, the three encoders the model knows: the file it writes, or the
    exception it raises (no encoder of that name, a layout or a size the
    encoder refuses). *)
Record world : Type := mkWorld
  { faults : nat -> bool;
    disk : string -> option disk_file;
    imwrite_ok : bool;
    other_encoder : string -> image -> encoded + exn }.

Inductive routine : Type :=
| R_process_to_hd | R_process_to_4k | R_process_to_4k_compressed
| R_optimize_image | R_convert_format | R_custom_upscale
| R_simple_resize | R_smart_resize
| R_standard_upscale_image | R_smart_upscale_image
| R_max_quality_upscale_image.

Inductive call : Type :=
| cv2_imread
| cv2_bilateralFilter (d : Z)
| cv2_resize (w h : Z)
| cv2_filter2D
| cv2_addWeighted (alpha beta : Q)
| cv2_GaussianBlur (sigma : Q)
| cv2_imwrite (quality : Z)
| cv2_cvtColor
| np_array
| np_copy
| Image_fromarray
| Image_open
| Image_new
| Image_convert (m : pil_mode)
| Image_split
| Image_paste
| Image_resize (w h : Z)
| Image_crop (left top right bottom : Z)
| Sharpness_enhance (factor : Q)
| Image_save (fmt : format) (quality : option Z).

Inductive log_level : Type := ERROR | WARNING.

Inductive event : Type :=
| Enter (r : routine)
| Prim (c : call)
| Log (level : log_level) (msg : string).

Record state : Type := mkState
  { calls : nat;
    trace : list event;
    files : list (string * encoded) }.

Definition init_state : state := mkState 0 [] [].

Inductive outcome (A : Type) : Type :=
| Ret (a : A)
| Raise (e : exn).
Arguments Ret {A} a.
Arguments Raise {A} e.

Definition M (A : Type) : Type := state -> outcome A * state.

Definition ret {A} (a : A) : M A := fun s => (Ret a, s).

Definition raise {A} (e : exn) : M A := fun s => (Raise e, s).

Definition bind {A B} (m : M A) (k : A -> M B) : M B :=
  fun s =>
    match m s with
    | (Ret a, s') => k a s'
    | (Raise e, s') => (Raise e, s')
    end.

(** [try: m  except Exception as e: h e] *)
Definition try_except {A} (m : M A) (h : exn -> M A) : M A :=
  fun s =>
    match m s with
    | (Ret a, s') => (Ret a, s')
    | (Raise e, s') => h e s'
    end.

Declare Scope py_scope.
Delimit Scope py_scope with py.
Notation "x <- m ;; k" := (bind m (fun x => k))
  (at level 61, m at next level, right associativity) : py_scope.
Notation "m ;; k" := (bind m (fun _ => k))
  (at level 61, right associativity) : py_scope.
Open Scope py_scope.

(** A strategy routine was entered (not a library call: cannot raise). *)
Definition enter (r : routine) : M unit :=
  fun s => (Ret tt, mkState (calls s) (trace s ++ [Enter r]) (files s)).

(** [logger.error(f"msg: {e}")] and [logger.warning(...)], recorded by the
    constant part of the message ([logger.info] calls are left out). *)
Definition logger_error (msg : string) : M unit :=
  fun s => (Ret tt, mkState (calls s) (trace s ++ [Log ERROR msg]) (files s)).

Definition logger_warning (msg : string) : M unit :=
  fun s => (Ret tt, mkState (calls s) (trace s ++ [Log WARNING msg]) (files s)).

Definition write_file (path : string) (f : encoded) : M unit :=
  fun s => (Ret tt, mkState (calls s) (trace s) ((path, f) :: files s)).

(** The file a path holds after a run: the latest write wins. *)
Fixpoint lookup (path : string) (l : list (string * encoded)) : option encoded :=
  match l with
  | [] => None
  | (p, f) :: r => if String.eqb path p then Some f else lookup path r
  end.

Definition read_file (s : state) (path : string) : option encoded :=
  lookup path (files s).

(** ** Floats as rationals *)

Definition Qltb (a b : Q) : bool := negb (Qle_bool b a).

(** Python's [max(a, b)] and [min(a, b, c)]. *)
Definition py_max (a b : Q) : Q := if Qltb a b then b else a.
Definition py_min (a b : Q) : Q := if Qltb b a then b else a.
Definition py_min3 (a b c : Q) : Q := py_min (py_min a b) c.

(** [int(x)]: truncation towards zero. *)
Definition py_int (x : Q) : Z := Z.quot (Qnum x) (Zpos (Qden x)).

(** [a / b] on two ints. *)
Definition truediv (a b : Z) : M Q :=
  if b =? 0 then raise ZeroDivisionError
  else ret (inject_Z a / inject_Z b)%Q.

(** [x / y] on two floats. *)
Definition fdiv (x y : Q) : M Q :=
  if Qeq_bool y 0 then raise ZeroDivisionError else ret (x / y)%Q.

(** [int(np.log2(x))] for [x >= 1]: the floor of the binary logarithm,
    which is the binary logarithm of the floor. *)
Definition int_log2 (x : Q) : Z := Z.log2 (Qfloor x).

Definition mode_channels (m : pil_mode) : Z :=
  match m with
  | ModeLA => 2
  | ModeRGB => 3
  | ModeRGBA | ModeCMYK => 4
  | _ => 1
  end.

(** ** [src/bot/image_processor.py] *)

Module ImageProcessor.

Section Run.

Variable W : world.

Local Open Scope string_scope.

(** *** Library primitives *)

(** Every library call is logged and counted, and raises when the oracle
    says so. *)
Definition tick (c : call) : M unit :=
  fun s =>
    let s' := mkState (S (calls s)) (trace s ++ [Prim c]) (files s) in
    if faults W (calls s) then (Raise LibraryError, s') else (Ret tt, s').

(** [cv2.imread(path)]: a three-channel array, or [None]. *)
Definition imread (path : string) : M (option ndarray) :=
  tick cv2_imread ;;
  match disk W path with
  | Some f =>
      if df_cv f
      then ret (Some (mkArray (im_height (df_image f)) (im_width (df_image f)) 3))
      else ret None
  | None => ret None
  end.

(** [cv2.bilateralFilter(src, d, ...)]: one or three channels only. *)
Definition bilateralFilter (src : ndarray) (d : Z) : M ndarray :=
  tick (cv2_bilateralFilter d) ;;
  if (arr_channels src =? 1)%Z || (arr_channels src =? 3)%Z
  then ret src else raise cv2_error.

(** [cv2.resize(src, (w, h), ...)]: the size must not be empty. *)
Definition cv_resize (src : ndarray) (dsize : Z * Z) : M ndarray :=
  let (w, h) := dsize in
  tick (cv2_resize w h) ;;
  if (0 <? w)%Z && (0 <? h)%Z
  then ret (mkArray h w (arr_channels src)) else raise cv2_error.

Definition filter2D (src : ndarray) : M ndarray :=
  tick cv2_filter2D ;; ret src.

Definition same_shape (a b : ndarray) : bool :=
  (arr_rows a =? arr_rows b)%Z && (arr_cols a =? arr_cols b)%Z
  && (arr_channels a =? arr_channels b)%Z.

Definition addWeighted (a : ndarray) (alpha : Q) (b : ndarray) (beta : Q)
  : M ndarray :=
  tick (cv2_addWeighted alpha beta) ;;
  if same_shape a b then ret a else raise cv2_error.

Definition GaussianBlur (src : ndarray) (sigma : Q) : M ndarray :=
  tick (cv2_GaussianBlur sigma) ;; ret src.

(** [cv2.imwrite(path, img, [IMWRITE_JPEG_QUALITY, q])] on a [.jpg] path:
    reports failure through its result. *)
Definition imwrite (path : string) (img : ndarray) (quality : Z) : M bool :=
  tick (cv2_imwrite quality) ;;
  if imwrite_ok W then
    write_file path
      (mkEncoded (arr_cols img) (arr_rows img) (arr_channels img)
                 JPEG (Some quality) false false) ;;
    ret true
  else ret false.

Definition cvtColor (src : ndarray) : M ndarray :=
  tick cv2_cvtColor ;; ret src.

Definition array_of_image (img : image) : M ndarray :=
  tick np_array ;;
  ret (mkArray (im_height img) (im_width img) (mode_channels (im_mode img))).

Definition copy (a : ndarray) : M ndarray :=
  tick np_copy ;; ret a.

Definition fromarray (a : ndarray) : M image :=
  tick Image_fromarray ;;
  if (arr_channels a =? 1)%Z then ret (mkImage (arr_cols a) (arr_rows a) ModeL)
  else if (arr_channels a =? 3)%Z then ret (mkImage (arr_cols a) (arr_rows a) ModeRGB)
  else if (arr_channels a =? 4)%Z then ret (mkImage (arr_cols a) (arr_rows a) ModeRGBA)
  else raise ValueError.

(** [Image.open(path)] *)
Definition open (path : string) : M image :=
  tick Image_open ;;
  match disk W path with
  | Some f => if df_pil f then ret (df_image f) else raise OSError
  | None => raise OSError
  end.

Definition new (m : pil_mode) (size : Z * Z) : M image :=
  tick Image_new ;; ret (mkImage (fst size) (snd size) m).

Definition convert (img : image) (m : pil_mode) : M image :=
  tick (Image_convert m) ;; ret (mkImage (im_width img) (im_height img) m).

Definition split (img : image) : M unit :=
  tick Image_split.

(** [background.paste(img, mask=...)]: the background keeps its size. *)
Definition paste (background img : image) (mask : bool) : M image :=
  tick Image_paste ;; ret background.

(** [img.resize((w, h), LANCZOS)]: height and width must be > 0. *)
Definition resize (img : image) (size : Z * Z) : M image :=
  let (w, h) := size in
  tick (Image_resize w h) ;;
  if (0 <? w)%Z && (0 <? h)%Z
  then ret (mkImage w h (im_mode img)) else raise ValueError.

(** [img.crop((left, top, right, bottom))] *)
Definition crop (img : image) (left top right bottom : Z) : M image :=
  tick (Image_crop left top right bottom) ;;
  if (right <? left)%Z || (bottom <? top)%Z then raise ValueError
  else ret (mkImage (right - left) (bottom - top) (im_mode img)).

(** [ImageEnhance.Sharpness(img).enhance(factor)]: the constructor filters
    the image, which palette images refuse, and [enhance] blends the
    filtered image with the image, which takes 8-bit channels only and no
    bilevel image. *)
Definition sharpen (img : image) (factor : Q) : M image :=
  tick (Sharpness_enhance factor) ;;
  if mode_in (im_mode img) [Mode1; ModeP; ModeI; ModeF]
  then raise ValueError else ret img.

(** The layouts that the three known encoders take. *)
Definition encoder_accepts (fmt : format) (m : pil_mode) : bool :=
  match fmt with
  | JPEG => mode_in m [Mode1; ModeL; ModeRGB; ModeCMYK]
  | PNG => mode_in m [Mode1; ModeL; ModeLA; ModeI; ModeP; ModeRGB; ModeRGBA]
  | WEBP => true
  | OtherFormat _ => false
  end.

(** The longest side that a format can hold: 65500 pixels for JPEG, 16383
    for WebP. *)
Definition max_side (fmt : format) : option Z :=
  match fmt with
  | JPEG => Some 65500%Z
  | WEBP => Some 16383%Z
  | PNG | OtherFormat _ => None
  end.

Definition size_fits (fmt : format) (width height : Z) : bool :=
  match max_side fmt with
  | Some side => (width <=? side)%Z && (height <=? side)%Z
  | None => true
  end.

(** [img.save(path, fmt, quality=..., optimize=..., progressive=...)]: a
    known encoder writes the image as it is, when it takes its layout and
    its size; any other format name is the world's. *)
Definition save (img : image) (path : string) (fmt : format)
  (quality : option Z) (optimize progressive : bool) : M unit :=
  tick (Image_save fmt quality) ;;
  match fmt with
  | OtherFormat name =>
      match other_encoder W name img with
      | inl written => write_file path written
      | inr e => raise e
      end
  | _ =>
      if encoder_accepts fmt (im_mode img)
         && size_fits fmt (im_width img) (im_height img)
      then
        write_file path
          (mkEncoded (im_width img) (im_height img)
                     (mode_channels (im_mode img))
                     fmt quality optimize progressive)
      else raise OSError
  end.

(** *** Output paths *)

Definition _get_output_path (input_path suffix : string) : string :=
  let base_name := fst (PyStr.splitext (PyStr.basename input_path)) in
  Config.TEMP_DIR ++ "/" ++ base_name ++ "_" ++ suffix ++ ".jpg".

(** *** Fallback and crop-resize *)

Definition _simple_resize (input_path : string) (target_size : Z * Z)
  (suffix : string) : M (option string) :=
  enter R_simple_resize ;;
  try_except
    (img <- open input_path ;;
     img <- (if mode_in (im_mode img) [ModeRGBA; ModeLA; ModeP]
             then convert img ModeRGB else ret img) ;;
     resized <- resize img target_size ;;
     sharpened <- sharpen resized (12 # 10) ;;
     let output_path := _get_output_path input_path suffix in
     save sharpened output_path JPEG (Some 95%Z) true false ;;
     ret (Some output_path))
    (fun _ => logger_error "Error in simple resize" ;; ret None).

Definition _smart_resize (input_path : string) (target_size : Z * Z)
  (suffix : string) : M (option string) :=
  enter R_smart_resize ;;
  try_except
    (img <- open input_path ;;
     let original_width := im_width img in
     let original_height := im_height img in
     let (target_width, target_height) := target_size in
     original_ratio <- truediv original_width original_height ;;
     target_ratio <- truediv target_width target_height ;;
     resized <-
       (if Qltb (Qabs (original_ratio - target_ratio)%Q) (1 # 100) then
          resize img target_size
        else
          img <-
            (if Qltb target_ratio original_ratio then
               let new_width := py_int (inject_Z original_height * target_ratio)%Q in
               let left := ((original_width - new_width) / 2)%Z in
               crop img left 0 (left + new_width) original_height
             else
               q <- fdiv (inject_Z original_width) target_ratio ;;
               let new_height := py_int q in
               let top := ((original_height - new_height) / 2)%Z in
               crop img 0 top original_width (top + new_height)) ;;
          resize img target_size) ;;
     enhanced <- sharpen resized (11 # 10) ;;
     let output_path := _get_output_path input_path suffix in
     save enhanced output_path JPEG (Some 95%Z) true false ;;
     ret (Some output_path))
    (fun _ => logger_error "Error in smart resize" ;; ret None).

(** *** HD *)

Definition _process_to_hd (input_path : string) : M (option string) :=
  enter R_process_to_hd ;;
  try_except
    (img_cv <- imread input_path ;;
     match img_cv with
     | None => _simple_resize input_path Config.HD_SIZE "HD"
     | Some img_cv =>
         let height := arr_rows img_cv in
         let width := arr_cols img_cv in
         let (target_width, target_height) := Config.HD_SIZE in
         if (target_width <=? width)%Z && (target_height <=? height)%Z then
           _smart_resize input_path Config.HD_SIZE "HD"
         else
           img_filtered <- bilateralFilter img_cv 9 ;;
           upscaled <- cv_resize img_filtered Config.HD_SIZE ;;
           sharpened <- filter2D upscaled ;;
           final_img <- addWeighted upscaled (3 # 10) sharpened (7 # 10) ;;
           let output_path := _get_output_path input_path "HD" in
           _ <- imwrite output_path final_img 95 ;;
           ret (Some output_path)
     end)
    (fun _ =>
       logger_error "Error in HD processing" ;;
       _simple_resize input_path Config.HD_SIZE "HD").

(** *** 4K *)

Record upscale_state : Type := mkUpscale
  { current_img : ndarray; current_width : Z; current_height : Z; step : Z }.

(** The [while current_width < target_width or current_height <
    target_height] loop.  [fuel] bounds the unfolding of the model only:
    [OutOfFuel] marks a run the fuel was too small for. *)
Inductive loop_result : Type :=
| Finished (u : upscale_state)
| OutOfFuel.

Fixpoint upscale_loop (fuel : nat) (target_width target_height : Z)
  (u : upscale_state) : M loop_result :=
  match fuel with
  | O => ret OutOfFuel
  | S fuel' =>
      if (current_width u <? target_width)%Z
         || (current_height u <? target_height)%Z then
        let step := (step u + 1)%Z in
        sx <- truediv target_width (current_width u) ;;
        sy <- truediv target_height (current_height u) ;;
        let scale_factor := py_min3 2 sx sy in
        let new_width := py_int (inject_Z (current_width u) * scale_factor)%Q in
        let new_height := py_int (inject_Z (current_height u) * scale_factor)%Q in
        img <- bilateralFilter (current_img u) 5 ;;
        img <- cv_resize img (new_width, new_height) ;;
        let u' := mkUpscale img new_width new_height step in
        if (5 <? step)%Z then
          logger_warning "Too many upscaling steps, breaking" ;;
          ret (Finished u')
        else upscale_loop fuel' target_width target_height u'
      else ret (Finished u)
  end.

(** Enough for every run (see [upscale_loop_total]). *)
Definition upscale_fuel : nat := 6.

Definition _process_to_4k (input_path : string) : M (option string) :=
  enter R_process_to_4k ;;
  try_except
    (img_cv <- imread input_path ;;
     match img_cv with
     | None =>
         logger_warning "Could not load image with OpenCV, using PIL fallback" ;;
         _simple_resize input_path Config.UHD_4K_SIZE "4K"
     | Some img_cv =>
         let height := arr_rows img_cv in
         let width := arr_cols img_cv in
         let (target_width, target_height) := Config.UHD_4K_SIZE in
         if (target_width <=? width)%Z && (target_height <=? height)%Z then
           _smart_resize input_path Config.UHD_4K_SIZE "4K"
         else
           scale_x <- truediv target_width width ;;
           scale_y <- truediv target_height height ;;
           let max_scale := py_max scale_x scale_y in
           if Qltb 8 max_scale then
             _simple_resize input_path Config.UHD_4K_SIZE "4K"
           else
             current <- copy img_cv ;;
             r <- upscale_loop upscale_fuel target_width target_height
                    (mkUpscale current width height 0) ;;
             match r with
             | OutOfFuel => ret None
             | Finished u =>
                 final_img <-
                   (if negb (current_width u =? target_width)%Z
                       || negb (current_height u =? target_height)%Z
                    then cv_resize (current_img u) Config.UHD_4K_SIZE
                    else ret (current_img u)) ;;
                 gaussian <- GaussianBlur final_img 1 ;;
                 sharpened <- addWeighted final_img (12 # 10) gaussian (- (2 # 10)) ;;
                 let output_path := _get_output_path input_path "4K" in
                 success <- imwrite output_path sharpened 95 ;;
                 if negb success then
                   logger_error "Failed to save 4K image with OpenCV" ;;
                   ret None
                 else ret (Some output_path)
             end
     end)
    (fun _ =>
       logger_error "Error in 4K processing" ;;
       _simple_resize input_path Config.UHD_4K_SIZE "4K").

(** *** 4K, compressed *)

(** The white-background flattening shared by the JPEG paths. *)
Definition flatten_on_white (img : image) : M image :=
  if mode_in (im_mode img) [ModeRGBA; ModeLA; ModeP] then
    background <- new ModeRGB (im_width img, im_height img) ;;
    img <- (if pil_mode_eqb (im_mode img) ModeP
            then convert img ModeRGBA else ret img) ;;
    mask <- (if pil_mode_eqb (im_mode img) ModeRGBA
             then split img ;; ret true else ret false) ;;
    paste background img mask
  else if negb (pil_mode_eqb (im_mode img) ModeRGB) then convert img ModeRGB
  else ret img.

Definition _process_to_4k_compressed (input_path : string) : M (option string) :=
  enter R_process_to_4k_compressed ;;
  try_except
    (img <- open input_path ;;
     img <- flatten_on_white img ;;
     let original_width := im_width img in
     let original_height := im_height img in
     let (target_width, target_height) := Config.UHD_4K_SIZE in
     scale_x <- truediv target_width original_width ;;
     scale_y <- truediv target_height original_height ;;
     let max_scale := py_max scale_x scale_y in
     img <-
       (if Qltb 10 max_scale then
          let intermediate_size :=
            (Z.min target_width (original_width * 4),
             Z.min target_height (original_height * 4)) in
          resize img intermediate_size
        else ret img) ;;
     resized <- resize img Config.UHD_4K_SIZE ;;
     enhanced <- sharpen resized (11 # 10) ;;
     let output_path := _get_output_path input_path "4K_compressed" in
     save enhanced output_path JPEG (Some 75%Z) true true ;;
     ret (Some output_path))
    (fun _ =>
       logger_error "Error in 4K compressed processing" ;;
       _simple_resize input_path Config.UHD_4K_SIZE "4K_compressed").

(** *** Optimize *)

Definition _optimize_image (input_path : string) : M (option string) :=
  enter R_optimize_image ;;
  try_except
    (img <- open input_path ;;
     img <- (if mode_in (im_mode img) [ModeRGBA; ModeLA; ModeP]
             then convert img ModeRGB else ret img) ;;
     let original_width := im_width img in
     let original_height := im_height img in
     let max_dimension := 2048%Z in
     img <-
       (if (max_dimension <? Z.max original_width original_height)%Z then
          if (original_height <? original_width)%Z then
            r <- truediv max_dimension original_width ;;
            let new_width := max_dimension in
            let new_height := py_int (inject_Z original_height * r)%Q in
            resize img (new_width, new_height)
          else
            r <- truediv max_dimension original_height ;;
            let new_height := max_dimension in
            let new_width := py_int (inject_Z original_width * r)%Q in
            resize img (new_width, new_height)
        else ret img) ;;
     img <- sharpen img (11 # 10) ;;
     let output_path := _get_output_path input_path "optimized" in
     save img output_path JPEG (Some 85%Z) true true ;;
     ret (Some output_path))
    (fun _ => logger_error "Error optimizing image" ;; ret None).

(** *** Format conversion *)

Definition _convert_format (input_path output_format : string)
  : M (option string) :=
  enter R_convert_format ;;
  try_except
    (img <- open input_path ;;
     let fmt := PyStr.upper output_format in
     img <-
       (if String.eqb fmt "JPEG" then flatten_on_white img
        else if String.eqb fmt "PNG" then
          if negb (mode_in (im_mode img) [ModeRGB; ModeRGBA; ModeL; ModeLA])
          then convert img ModeRGBA else ret img
        else if String.eqb fmt "WEBP" then
          if pil_mode_eqb (im_mode img) ModeP
          then convert img ModeRGBA else ret img
        else ret img) ;;
     let base_name := fst (PyStr.splitext (PyStr.basename input_path)) in
     let output_path :=
       Config.TEMP_DIR ++ "/" ++ base_name ++ "_converted."
         ++ PyStr.lower output_format in
     (if String.eqb fmt "JPEG" then
        save img output_path JPEG (Some 95%Z) true false
      else if String.eqb fmt "PNG" then
        save img output_path PNG None true false
      else if String.eqb fmt "WEBP" then
        save img output_path WEBP (Some 95%Z) true false
      else save img output_path (OtherFormat fmt) None false false) ;;
     ret (Some output_path))
    (fun _ => logger_error "Error converting format" ;; ret None).

(** *** Custom upscale *)

Definition _standard_upscale_image (img : image) (target_size : Z * Z)
  : M image :=
  enter R_standard_upscale_image ;;
  resize img target_size.

(** [for step in range(steps)], with [n] iterations still to run. *)
Fixpoint smart_steps (n : nat) (step steps : Z) (original_size target_size : Z * Z)
  (current_img : image) : M image :=
  match n with
  | O => ret current_img
  | S n' =>
      let intermediate_size :=
        if (step =? steps - 1)%Z then target_size
        else
          let current_scale := (2 ^ (step + 1))%Z in
          (Z.min (fst original_size * current_scale) (fst target_size),
           Z.min (snd original_size * current_scale) (snd target_size)) in
      current_img <- resize current_img intermediate_size ;;
      current_img <-
        (if (step <? steps - 1)%Z then sharpen current_img (105 # 100)
         else ret current_img) ;;
      smart_steps n' (step + 1) steps original_size target_size current_img
  end.

Definition _smart_upscale_image (img : image) (target_size : Z * Z)
  : M image :=
  enter R_smart_upscale_image ;;
  let original_size := (im_width img, im_height img) in
  let (target_width, target_height) := target_size in
  scale_x <- truediv target_width (fst original_size) ;;
  scale_y <- truediv target_height (snd original_size) ;;
  let max_scale := py_max scale_x scale_y in
  current_img <-
    (if Qltb 4 max_scale then
       let steps := (int_log2 max_scale + 1)%Z in
       smart_steps (Z.to_nat steps) 0 steps original_size target_size img
     else resize img target_size) ;;
  sharpen current_img (11 # 10).

Definition _max_quality_upscale_image (img : image) (target_size : Z * Z)
  : M image :=
  enter R_max_quality_upscale_image ;;
  try_except
    (img_array <- array_of_image img ;;
     if pil_mode_eqb (im_mode img) ModeRGB
        || pil_mode_eqb (im_mode img) ModeRGBA then
       img_cv <- cvtColor img_array ;;
       img_cv <- bilateralFilter img_cv 9 ;;
       upscaled_cv <- cv_resize img_cv target_size ;;
       gaussian <- GaussianBlur upscaled_cv 2 ;;
       upscaled_cv <- addWeighted upscaled_cv (15 # 10) gaussian (- (5 # 10)) ;;
       final_array <- cvtColor upscaled_cv ;;
       fromarray final_array
     else _smart_upscale_image img target_size)
    (fun _ =>
       logger_warning "OpenCV upscaling failed, falling back to smart upscale" ;;
       _smart_upscale_image img target_size).

Definition _custom_upscale (input_path : string) (scale_factor : Z)
  (mode : string) : M (option string) :=
  enter R_custom_upscale ;;
  try_except
    (img <- open input_path ;;
     img <-
       (if mode_in (im_mode img) [ModeRGBA; ModeLA; ModeP] then
          img <- (if pil_mode_eqb (im_mode img) ModeP
                  then convert img ModeRGBA else ret img) ;;
          if negb (pil_mode_eqb (im_mode img) ModeRGBA)
          then convert img ModeRGBA else ret img
        else if negb (pil_mode_eqb (im_mode img) ModeRGB)
        then convert img ModeRGB else ret img) ;;
     let original_width := im_width img in
     let original_height := im_height img in
     let new_width := (original_width * scale_factor)%Z in
     let new_height := (original_height * scale_factor)%Z in
     upscaled <-
       (if String.eqb mode "smart" then
          _smart_upscale_image img (new_width, new_height)
        else if String.eqb mode "max" then
          _max_quality_upscale_image img (new_width, new_height)
        else _standard_upscale_image img (new_width, new_height)) ;;
     let output_path :=
       _get_output_path input_path (PyStr.str_of_Z scale_factor ++ "x_" ++ mode) in
     if pil_mode_eqb (im_mode upscaled) ModeRGBA then
       let output_path := PyStr.replace_jpg_png output_path in
       save upscaled output_path PNG None true false ;;
       ret (Some output_path)
     else
       save upscaled output_path JPEG (Some 95%Z) true true ;;
       ret (Some output_path))
    (fun _ => logger_error "Error in custom upscale" ;; ret None).

(** *** Public entry points

    [await loop.run_in_executor(None, f, ...)] runs [f] to completion and
    hands back its result or its exception. *)

Definition run_in_executor {A} (f : M A) : M A := f.

Definition enhance_to_hd (input_path : string) : M (option string) :=
  try_except
    (result <- run_in_executor (_process_to_hd input_path) ;; ret result)
    (fun _ => logger_error "Error enhancing to HD" ;; ret None).

Definition enhance_to_4k (input_path : string) : M (option string) :=
  try_except
    (result <- run_in_executor (_process_to_4k input_path) ;; ret result)
    (fun _ => logger_error "Error enhancing to 4K" ;; ret None).

Definition enhance_to_4k_compressed (input_path : string) : M (option string) :=
  try_except
    (result <- run_in_executor (_process_to_4k_compressed input_path) ;;
     ret result)
    (fun _ => logger_error "Error enhancing to 4K compressed" ;; ret None).

Definition optimize_image (input_path : string) : M (option string) :=
  try_except
    (result <- run_in_executor (_optimize_image input_path) ;; ret result)
    (fun _ => logger_error "Error optimizing image" ;; ret None).

Definition convert_format (input_path output_format : string)
  : M (option string) :=
  try_except
    (result <- run_in_executor (_convert_format input_path output_format) ;;
     ret result)
    (fun _ => logger_error "Error converting format" ;; ret None).

Definition custom_upscale (input_path : string) (scale_factor : Z)
  (mode : string) : M (option string) :=
  try_except
    (result <-
       run_in_executor (_custom_upscale input_path scale_factor mode) ;;
     ret result)
    (fun _ => logger_error "Error in custom upscale" ;; ret None).

End Run.

End ImageProcessor.

(** * Specification vocabulary *)

(** [wp m Q E s]: run from [s], [m] either returns [a] in a state with
    [Q a], or raises [e] in a state with [E e]. *)
Definition wp {A} (m : M A) (Q : A -> state -> Prop) (E : exn -> state -> Prop)
  (s : state) : Prop :=
  match m s with
  | (Ret a, s') => Q a s'
  | (Raise e, s') => E e s'
  end.

(** The state after one more library call [c]. *)
Definition ticked (c : call) (s : state) : state :=
  mkState (S (calls s)) (trace s ++ [Prim c]) (files s).

(** The state after event [ev] that is not a library call. *)
Definition noted (ev : event) (s : state) : state :=
  mkState (calls s) (trace s ++ [ev]) (files s).

(** The state after [f] was written at [path]. *)
Definition wrote (path : string) (f : encoded) (s : state) : state :=
  mkState (calls s) (trace s) ((path, f) :: files s).

(** Every file on disk satisfies [phi]. *)
Definition files_ok (phi : encoded -> Prop) (s : state) : Prop :=
  forall p e, read_file s p = Some e -> phi e.

(** What the fixed-target operations may write: a JPEG of the target size
    at one of the listed qualities. *)
Definition jpeg_of_size (size : Z * Z) (qualities : list Z) (e : encoded) : Prop :=
  enc_width e = fst size /\ enc_height e = snd size
  /\ enc_format e = JPEG
  /\ exists q, enc_quality e = Some q /\ In q qualities.

(** What a custom upscale of [src] by [scale] may write: the scaled size,
    lossless when the source has an alpha channel or a palette. *)
Definition custom_output (src : image) (scale : Z) (e : encoded) : Prop :=
  enc_width e = im_width src * scale
  /\ enc_height e = im_height src * scale
  /\ if mode_in (im_mode src) [ModeRGBA; ModeLA; ModeP]
     then enc_format e = PNG /\ enc_quality e = None
     else enc_format e = JPEG /\ enc_quality e = Some 95.

(** A JPEG of quality [q], whatever its size. *)
Definition jpeg_quality (q : Z) (e : encoded) : Prop :=
  enc_format e = JPEG /\ enc_quality e = Some q.

(** A crop of a [w] by [h] image is centred: it keeps one axis whole and
    leaves on the other axis margins that differ by at most one pixel. *)
Definition centered_crop (w h : Z) (ev : event) : Prop :=
  match ev with
  | Prim (Image_crop x0 y0 x1 y1) =>
      (y0 = 0 /\ y1 = h /\ 0 <= (w - x1) - x0 <= 1)
      \/ (x0 = 0 /\ x1 = w /\ 0 <= (h - y1) - y0 <= 1)
  | _ => True
  end.

(** [maxScale = max(tw / w, th / h)] *)
Definition max_scale (tw th w h : Z) : Q :=
  py_max (inject_Z tw / inject_Z w) (inject_Z th / inject_Z h).

(** Counting events of a trace. *)
Definition count_events (p : event -> bool) (t : list event) : nat :=
  List.length (List.filter p t).

(** One step of the 4K loop: each iteration starts with its bilateral
    filter, and the 4K path filters nowhere else. *)
Definition is_upscale_step (ev : event) : bool :=
  match ev with
  | Prim (cv2_bilateralFilter _) => true
  | _ => false
  end.

(** One resampling of the Pillow pipeline. *)
Definition is_pil_resize (ev : event) : bool :=
  match ev with
  | Prim (Image_resize _ _) => true
  | _ => false
  end.


(** A crop. *)
Definition is_crop (ev : event) : bool :=
  match ev with
  | Prim (Image_crop _ _ _ _) => true
  | _ => false
  end.





(** What the compressed 4K operation leaves on disk: JPEG files, of
    quality 75 as long as its handler has not logged [msg], and of quality
    95 afterwards. *)
Definition compressed_ok (msg : string) (s : state) : Prop :=
  files_ok (fun e => enc_format e = JPEG
                     /\ (~ In (Log ERROR msg) (trace s) ->
                         enc_quality e = Some 75)
                     /\ (In (Log ERROR msg) (trace s) ->
                         enc_quality e = Some 95)) s.

(** The array of the 4K loop has the size the loop tracks. *)
Definition shape_ok (u : ImageProcessor.upscale_state) : Prop :=
  arr_cols (ImageProcessor.current_img u) = ImageProcessor.current_width u
  /\ arr_rows (ImageProcessor.current_img u) = ImageProcessor.current_height u.


(** [c in s] for a character. *)
Fixpoint str_has (c : ascii) (s : string) : bool :=
  match s with
  | EmptyString => false
  | String x r => Ascii.eqb x c || str_has c r
  end.


(** ** Sample worlds *)

Definition no_faults : nat -> bool := fun _ => false.

(** Only the [k]-th library call of the run raises. *)
Definition fault_at (k : nat) : nat -> bool := fun n => Nat.eqb n k.

Definition sample_path : string := "/tmp/bot_images/in.jpg".

Definition single_file (path : string) (f : disk_file) : string -> option disk_file :=
  fun p => if String.eqb p path then Some f else None.

(** One readable picture of the given size and layout at [sample_path]. *)
Definition sample_world (faults : nat -> bool) (w h : Z) (m : pil_mode) : world :=
  mkWorld faults
    (single_file sample_path (mkDiskFile (mkImage w h m) true true)) true
    (fun _ _ => inr KeyError).

(** One readable 1000 by 600 picture at [sample_path], in a world where
    OpenCV cannot write (a full disk, a temp directory that is gone):
    [cv2.imwrite] reports [False]. *)
Definition unwritable_world : world :=
  mkWorld no_faults
    (single_file sample_path (mkDiskFile (mkImage 1000 600 ModeRGB) true true))
    false
    (fun _ _ => inr KeyError).

(** The state of the compressed 4K operation before its handler caught
    anything: nothing is written and [msg] is not logged. *)
Definition unwritten (msg : string) (s : state) : Prop :=
  files s = [] /\ ~ In (Log ERROR msg) (trace s).

(** * More of the code: vocabulary *)

(** No library call of the run raises on its own. *)
Definition fault_free (W : world) : Prop := forall n, faults W n = false.

(** What [optimize] may write for a source of [w] by [h] pixels: a JPEG no
    larger than the source on either axis, with no side above 2048, the
    source size itself when that already fits, and a longest side of
    exactly 2048 when it does not. *)
Definition optimized_output (w h : Z) (e : encoded) : Prop :=
  enc_width e <= w /\ enc_height e <= h
  /\ enc_width e <= 2048 /\ enc_height e <= 2048
  /\ (w <= 2048 -> h <= 2048 -> enc_width e = w /\ enc_height e = h)
  /\ (2048 < Z.max w h -> Z.max (enc_width e) (enc_height e) = 2048).

(** The encoder that a format name (already in upper case) selects, for
    the three encoders of the model. *)
Definition format_named (fmt : string) : option format :=
  if String.eqb fmt "JPEG" then Some JPEG
  else if String.eqb fmt "PNG" then Some PNG
  else if String.eqb fmt "WEBP" then Some WEBP
  else None.

(** What a conversion of [src] to JPEG, PNG or WebP ([fmt], already in
    upper case) may write: the source size, the encoder the format names,
    three channels for JPEG (alpha and palette flattened on white), and for
    PNG the channel layout of the source when that is RGB, RGBA, L or
    LA. *)
Definition converted_output (src : image) (fmt : string) (e : encoded) : Prop :=
  enc_width e = im_width src
  /\ enc_height e = im_height src
  /\ format_named fmt = Some (enc_format e)
  /\ (fmt = "JPEG"%string -> enc_channels e = 3)
  /\ (fmt = "PNG"%string ->
      enc_channels e =
        if mode_in (im_mode src) [ModeRGB; ModeRGBA; ModeL; ModeLA]
        then mode_channels (im_mode src) else 4).

(** ** [src/utils/file_utils.py], the size formatter *)

Module FileSize.

Local Open Scope string_scope.

Definition size_names : list string := ["B"; "KB"; "MB"; "GB"].

(** [float(n)] for an integer [n]: the nearest number with a significand of
    53 bits, ties to the even significand; [None] stands for
    [OverflowError] (the nearest one would be 2^1024 or beyond).  Below 2^53
    in absolute value the float is the integer. *)
Definition float_of_int (n : Z) : option Q :=
  let a := Z.abs n in
  if (a <? 2 ^ 53)%Z then Some (inject_Z n)
  else
    let shift := (Z.log2 a - 52)%Z in
    let q := Z.shiftr a shift in
    let r := (a - Z.shiftl q shift)%Z in
    let half := Z.shiftl 1 (shift - 1) in
    let q' := if (half <? r)%Z || ((r =? half)%Z && Z.odd q)
              then (q + 1)%Z else q in
    let m := Z.shiftl q' shift in
    if (2 ^ 1024 <=? m)%Z then None else Some (inject_Z (Z.sgn n * m)).

(** Rounding to the nearest integer, ties to even. *)
Definition round_half_even (x : Q) : Z :=
  let t := Qfloor x in
  let frac := (x - inject_Z t)%Q in
  if Qltb frac (1 # 2) then t
  else if Qltb (1 # 2) frac then (t + 1)%Z
  else if Z.even t then t else (t + 1)%Z.

(** [f"{x:.1f}"]: one decimal, correctly rounded.  The value is that of a
    float divided by powers of 1024, which a float holds exactly, so the
    rounding is that of the exact value. *)
Definition format_1f (x : Q) : string :=
  let tenths := round_half_even (Qabs x * 10)%Q in
  (if Qltb x 0 then "-" else "")
  ++ PyStr.str_of_Z (tenths / 10) ++ "." ++ PyStr.str_of_Z (tenths mod 10).

(** The [while size_value >= 1024 and size_index < len(size_names) - 1]
    loop; [None] marks a run the fuel was too small for. *)
Fixpoint size_loop (fuel : nat) (size_value : Q) (size_index : Z)
  : option (Q * Z) :=
  match fuel with
  | O => None
  | S fuel' =>
      if Qle_bool 1024 size_value
         && (size_index <? Z.of_nat (List.length size_names) - 1)%Z
      then size_loop fuel' (size_value / 1024)%Q (size_index + 1)%Z
      else Some (size_value, size_index)
  end.

Inductive size_text : Type :=
| Formatted (text : string)
| OverflowError
| OutOfFuel.

Definition format_file_size (size_bytes : Z) : size_text :=
  if (size_bytes =? 0)%Z then Formatted "0 B"
  else
    match float_of_int size_bytes with
    | None => OverflowError
    | Some size_value =>
        match size_loop 4 size_value 0 with
        | None => OutOfFuel
        | Some (size_value, size_index) =>
            let name := nth (Z.to_nat size_index) size_names "" in
            if (size_index =? 0)%Z
            then Formatted (PyStr.str_of_Z (py_int size_value) ++ " " ++ name)
            else Formatted (format_1f size_value ++ " " ++ name)
        end
    end.

End FileSize.

(** ** More of [str] *)

Module PyText.

Local Open Scope string_scope.

(** [s.startswith(prefix)] *)
Fixpoint startswith (s prefix : string) {struct prefix} : bool :=
  match prefix, s with
  | EmptyString, _ => true
  | String a p, String b r => Ascii.eqb a b && startswith r p
  | String _ _, EmptyString => false
  end.

(** [s.split(sep)] for a one-character separator, and [s.split(sep, n)]
    with [maxsplit = Some n]. *)
Fixpoint split (maxsplit : option nat) (sep : ascii) (s : string) : list string :=
  match s with
  | EmptyString => [EmptyString]
  | String x r =>
      let more := match maxsplit with Some O => false | _ => true end in
      if Ascii.eqb x sep && more then
        EmptyString :: split (option_map Nat.pred maxsplit) sep r
      else
        match split maxsplit sep r with
        | h :: t => String x h :: t
        | [] => [String x EmptyString]
        end
  end.

(** [s[:-1]] *)
Fixpoint drop_last (s : string) : string :=
  match s with
  | EmptyString => EmptyString
  | String x EmptyString => EmptyString
  | String x r => String x (drop_last r)
  end.

Definition is_digit (c : ascii) : bool :=
  let n := nat_of_ascii c in (48 <=? n)%nat && (n <=? 57)%nat.

Fixpoint digits_value (acc : Z) (s : string) : option Z :=
  match s with
  | EmptyString => Some acc
  | String x r =>
      if is_digit x
      then digits_value (10 * acc + Z.of_nat (nat_of_ascii x - 48)) r
      else None
  end.

(** [int(s)] on a string of decimal digits; [None] stands for
    [ValueError].  (Python also takes blanks around the digits, a sign and
    single underscores between digits; the one call site passes a member of
    a fixed list without its last character.) *)
Definition int_of_str (s : string) : option Z :=
  match s with
  | EmptyString => None
  | _ => digits_value 0 s
  end.

Definition is_cased (c : ascii) : bool :=
  let n := nat_of_ascii c in
  ((65 <=? n)%nat && (n <=? 90)%nat) || ((97 <=? n)%nat && (n <=? 122)%nat).

(** [s.title()] on ASCII text: a letter that follows a letter is put in
    lower case, any other letter in upper case. *)
Fixpoint title_from (previous_is_cased : bool) (s : string) : string :=
  match s with
  | EmptyString => EmptyString
  | String x r =>
      String (if is_cased x
              then if previous_is_cased then PyStr.lower_ascii x
                   else PyStr.upper_ascii x
              else x)
             (title_from (is_cased x) r)
  end.

Definition title (s : string) : string := title_from false s.

End PyText.

(** ** [src/bot/keyboards.py]

    A keyboard is given by the rows of its buttons, a button by its
    [callback_data] (the labels are left out). *)

Module Keyboards.

Local Open Scope string_scope.

Definition get_processing_keyboard : list (list string) :=
  [ ["enhance_hd"; "enhance_4k"];
    ["enhance_4k_compressed"; "custom_upscale"];
    ["optimize"; "convert_format"] ].

Definition get_format_keyboard : list (list string) :=
  [ ["format_jpeg"; "format_png"];
    ["format_webp"; "format_bmp"];
    ["back_to_main"] ].

Definition get_quality_keyboard : list (list string) :=
  [ ["quality_max"; "quality_balanced"];
    ["quality_compressed"; "back_to_main"] ].

Definition get_upscale_keyboard : list (list string) :=
  [ ["upscale_2x"; "upscale_3x"];
    ["upscale_4x"; "upscale_8x"];
    ["upscale_smart"; "upscale_max"];
    ["back_to_main"] ].

End Keyboards.

(** ** [src/bot/handlers.py]

    [handle_callback], from the test of [callback_data] to the value of
    [result_path]: which operation of the image processor a button runs,
    and with which arguments.  The Telegram calls around it (answering the
    query, sending the document) are not part of the model; a message the
    handler sends before it returns early is the value of the dispatch, by
    its text without the leading pictograph. *)

Module BotHandlers.

Inductive keyboard : Type := format_keyboard | upscale_keyboard.

Inductive dispatched : Type :=
| Menu (text : string) (reply_markup : keyboard)
| Refused (text : string)
| Processed (result_path : option string) (quality_text : option string).

(** [if result_path:] *)
Definition truthy (result_path : option string) : bool :=
  match result_path with
  | Some p => negb (String.eqb p "")
  | None => false
  end.

Section Run.

Variable W : world.

Local Open Scope string_scope.

(** [IndexError], which the model's [exn] does not tell from the other
    [LookupError]. *)
Definition IndexError : exn := KeyError.

(** [l[i]] *)
Definition item (l : list string) (i : nat) : M string :=
  match nth_error l i with
  | Some x => ret x
  | None => raise IndexError
  end.

(** [int(s)] *)
Definition int (s : string) : M Z :=
  match PyText.int_of_str s with
  | Some n => ret n
  | None => raise ValueError
  end.

(** The scale factor and the mode of an [upscale_] button. *)
Definition upscale_request (upscale_type : string) : M (Z * string) :=
  if PyStr.mem upscale_type ["2x"; "3x"; "4x"; "8x"] then
    scale_factor <- int (PyText.drop_last upscale_type) ;;
    ret (scale_factor, "standard")
  else if String.eqb upscale_type "smart" then ret (2%Z, "smart")
  else if String.eqb upscale_type "max" then ret (4%Z, "max")
  else ret (2%Z, "standard").

Definition dispatch (file_path callback_data : string) : M dispatched :=
  if String.eqb callback_data "enhance_hd" then
    result_path <- ImageProcessor.enhance_to_hd W file_path ;;
    ret (Processed result_path (Some "HD (1920x1080)"))
  else if String.eqb callback_data "enhance_4k" then
    result_path <- ImageProcessor.enhance_to_4k W file_path ;;
    if truthy result_path then
      ret (Processed result_path (Some "4K (3840x2160)"))
    else
      logger_error "4K enhancement failed - result_path is None" ;;
      ret (Refused "4K processing failed. The image might be too large or there was a processing error. Please try HD quality instead.")
  else if String.eqb callback_data "enhance_4k_compressed" then
    result_path <- ImageProcessor.enhance_to_4k_compressed W file_path ;;
    if truthy result_path then
      ret (Processed result_path (Some "4K Compressed (3840x2160)"))
    else
      logger_error "4K compressed enhancement failed - result_path is None" ;;
      ret (Refused "4K compressed processing failed. Please try HD quality instead.")
  else if String.eqb callback_data "optimize" then
    result_path <- ImageProcessor.optimize_image W file_path ;;
    ret (Processed result_path (Some "Optimized"))
  else if String.eqb callback_data "convert_format" then
    ret (Menu "Choose output format:" format_keyboard)
  else if String.eqb callback_data "custom_upscale" then
    ret (Menu "Choose upscaling option:" upscale_keyboard)
  else if PyText.startswith callback_data "format_" then
    field <- item (PyText.split None "_" callback_data) 1 ;;
    let format_type := PyStr.upper field in
    result_path <- ImageProcessor.convert_format W file_path format_type ;;
    ret (Processed result_path (Some ("Converted to " ++ format_type)))
  else if PyText.startswith callback_data "upscale_" then
    upscale_type <- item (PyText.split (Some 1%nat) "_" callback_data) 1 ;;
    request <- upscale_request upscale_type ;;
    let scale_factor := fst request in
    let mode := snd request in
    result_path <-
      ImageProcessor.custom_upscale W file_path scale_factor mode ;;
    ret (Processed result_path
           (Some (PyStr.str_of_Z scale_factor ++ "x Upscale ("
                  ++ PyText.title mode ++ ")")))
  else ret (Processed None None).

End Run.

End BotHandlers.

(** What the handler asks of the image processor for an [upscale_]
    button. *)
Definition upscale_requests : list (Z * string) :=
  [(2, "standard"%string); (3, "standard"%string); (4, "standard"%string);
   (8, "standard"%string); (2, "smart"%string); (4, "max"%string)].

(** ** [src/utils/file_utils.py], the clean-up of the temp directory

    The file system is a map from paths to what [os.stat] reports there;
    the collaborators the code cannot see are in [os_world]: what
    [os.listdir] returns (or that it raises) and which removals the system
    refuses. *)

Module FileCleanup.

Local Open Scope string_scope.

Record stat : Type := mkStat
  { st_regular : bool; st_size : Z; st_mtime : Q }.

Record os_world : Type := mkOsWorld
  { listdir : string -> option (list string);
    remove_denied : string -> bool }.

(** [errors]: the [logger.error] calls, by the constant part of the
    message. *)
Record os_state : Type := mkOs
  { nodes : string -> option stat;
    errors : list string }.

Fixpoint endswith_char (s : string) (c : ascii) : bool :=
  match s with
  | EmptyString => false
  | String x EmptyString => Ascii.eqb x c
  | String _ r => endswith_char r c
  end.

(** [os.path.join(a, b)] (posix). *)
Definition path_join (a b : string) : string :=
  if PyText.startswith b "/" then b
  else if String.eqb a "" || endswith_char a "/" then a ++ b
  else a ++ "/" ++ b.

Section Run.

Variable W : os_world.

Definition path_exists (st : os_state) (path : string) : bool :=
  match nodes st path with Some _ => true | None => false end.

Definition isfile (st : os_state) (path : string) : bool :=
  match nodes st path with Some n => st_regular n | None => false end.

(** [os.path.getmtime(path)]; [None] stands for [OSError]. *)
Definition getmtime (st : os_state) (path : string) : option Q :=
  match nodes st path with Some n => Some (st_mtime n) | None => None end.

(** [os.remove(path)]; [None] stands for [OSError]: nothing there, a
    directory, or a removal the system refuses. *)
Definition remove (path : string) (st : os_state) : option os_state :=
  match nodes st path with
  | Some n =>
      if st_regular n && negb (remove_denied W path) then
        Some (mkOs (fun q => if String.eqb q path then None else nodes st q)
                   (errors st))
      else None
  | None => None
  end.

Definition log_error (msg : string) (st : os_state) : os_state :=
  mkOs (nodes st) (errors st ++ [msg]).

Definition cleanup_file (file_path : string) (st : os_state)
  : bool * os_state :=
  if path_exists st file_path then
    match remove file_path st with
    | Some st' => (true, st')
    | None => (false, log_error "Error cleaning up file" st)
    end
  else (false, st).

(** The [for] loop of [cleanup_old_files]; the first component tells
    whether it ran to its end ([false]: an [OSError] left it). *)
Fixpoint old_files_loop (directory : string) (max_age_seconds current_time : Q)
  (names : list string) (cleaned_count : Z) (st : os_state)
  : bool * Z * os_state :=
  match names with
  | [] => (true, cleaned_count, st)
  | filename :: rest =>
      let file_path := path_join directory filename in
      if isfile st file_path then
        match getmtime st file_path with
        | None => (false, cleaned_count, st)
        | Some mtime =>
            let file_age := (current_time - mtime)%Q in
            if Qltb max_age_seconds file_age then
              let (removed, st') := cleanup_file file_path st in
              old_files_loop directory max_age_seconds current_time rest
                (if removed then cleaned_count + 1 else cleaned_count)%Z st'
            else
              old_files_loop directory max_age_seconds current_time rest
                cleaned_count st
        end
      else
        old_files_loop directory max_age_seconds current_time rest
          cleaned_count st
  end.

(** [current_time] is what [time.time()] returns. *)
Definition cleanup_old_files (directory : string) (max_age_hours : Z)
  (current_time : Q) (st : os_state) : Z * os_state :=
  let cleaned_count := 0%Z in
  let max_age_seconds := inject_Z (max_age_hours * 3600) in
  match listdir W directory with
  | None => (cleaned_count, log_error "Error cleaning up old files" st)
  | Some names =>
      match old_files_loop directory max_age_seconds current_time names
              cleaned_count st with
      | (true, cleaned_count, st') => (cleaned_count, st')
      | (false, cleaned_count, st') =>
          (cleaned_count, log_error "Error cleaning up old files" st')
      end
  end.

End Run.

(** A regular file that [cleanup_old_files] takes for old. *)
Definition old_file (max_age_hours : Z) (current_time : Q) (n : stat) : bool :=
  st_regular n
  && Qltb (inject_Z (max_age_hours * 3600)) (current_time - st_mtime n)%Q.

End FileCleanup.

(** A temp directory with an old file, a fresh file and a
    subdirectory, two hours after the old file was written. *)
Definition sample_os_world : FileCleanup.os_world :=
  FileCleanup.mkOsWorld
    (fun d => if String.eqb d "/tmp/bot_images"
              then Some ["old.jpg"; "new.jpg"; "sub"]%string else None)
    (fun _ => false).

Definition sample_os_state : FileCleanup.os_state :=
  FileCleanup.mkOs
    (fun p =>
       if String.eqb p "/tmp/bot_images/old.jpg"
       then Some (FileCleanup.mkStat true 1000 0)
       else if String.eqb p "/tmp/bot_images/new.jpg"
       then Some (FileCleanup.mkStat true 1000 7000)
       else if String.eqb p "/tmp/bot_images/sub"
       then Some (FileCleanup.mkStat false 4096 0)
       else None)
    [].

(** ** [src/webhook_server.py], the statistics

    The module-level dictionary [stats] is a record that the functions
    pass on; [timestamp] is what [datetime.now().isoformat()] returns at
    the call. *)

Module WebhookServer.

Local Open Scope string_scope.

Record activity : Type := mkActivity
  { action : string; details : string; type : string; timestamp : string }.

(** [active_users] is a set of user ids: a list without repetition. *)
Record stats : Type := mkStats
  { images_processed : Z;
    active_users : list Z;
    recent_activities : list activity }.

Definition add_activity (action details activity_type timestamp : string)
  (st : stats) : stats :=
  let activity := mkActivity action details activity_type timestamp in
  let inserted := activity :: recent_activities st in
  mkStats (images_processed st) (active_users st) (firstn 50 inserted).

Definition increment_processed_images (st : stats) : stats :=
  mkStats (images_processed st + 1) (active_users st) (recent_activities st).

Definition add_active_user (user_id : Z) (st : stats) : stats :=
  mkStats (images_processed st)
          (if existsb (Z.eqb user_id) (active_users st)
           then active_users st else user_id :: active_users st)
          (recent_activities st).

End WebhookServer.

(** ** [src/bot_integration.py]

    [EnhancedBotHandlers.handle_callback] around the handler of the base
    class, which does not touch the statistics: [parent_returned] tells
    whether [super().handle_callback] came back or raised, and the two time
    stamps are those of the two activities. *)

Module EnhancedBotHandlers.

Local Open Scope string_scope.

Definition processing_types : list (string * string) :=
  [ ("enhance_hd", "HD Enhancement");
    ("enhance_4k", "4K Enhancement");
    ("enhance_4k_compressed", "4K Compressed Enhancement");
    ("optimize", "Image Optimization");
    ("convert_format", "Format Conversion") ].

(** [d.get(key, default)] *)
Fixpoint dict_get (d : list (string * string)) (key default : string) : string :=
  match d with
  | [] => default
  | (k, v) :: r => if String.eqb key k then v else dict_get r key default
  end.

(** [key in d] *)
Definition dict_mem (key : string) (d : list (string * string)) : bool :=
  PyStr.mem key (map fst d).

(** The result is the statistics and whether the handler returned. *)
Definition handle_callback (user_id : Z) (username callback_data : string)
  (started completed : string) (parent_returned : bool)
  (st : WebhookServer.stats) : WebhookServer.stats * bool :=
  let st := WebhookServer.add_active_user user_id st in
  let processing_type := dict_get processing_types callback_data callback_data in
  let st :=
    WebhookServer.add_activity "Processing Started"
      ("User @" ++ username ++ " started " ++ processing_type) "info" started st in
  if parent_returned then
    if dict_mem callback_data processing_types then
      let st := WebhookServer.increment_processed_images st in
      (WebhookServer.add_activity "Processing Completed"
         (processing_type ++ " completed for @" ++ username) "success"
         completed st, true)
    else (st, true)
  else (st, false).

End EnhancedBotHandlers.

(** The activities of a list, logged one after the other. *)
Definition log_all (l : list WebhookServer.activity) (st : WebhookServer.stats)
  : WebhookServer.stats :=
  fold_left
    (fun st a =>
       WebhookServer.add_activity (WebhookServer.action a)
         (WebhookServer.details a) (WebhookServer.type a)
         (WebhookServer.timestamp a) st)
    l st.
(** * Reasoning about runs *)

Section WpRules.

Context {A B : Type}.
Variables (Q : A -> state -> Prop) (E : exn -> state -> Prop).

Lemma wp_ret (a : A) s : Q a s -> wp (ret a) Q E s.
Proof. exact (fun H => H). Qed.

Lemma wp_raise (e : exn) s : E e s -> wp (raise e) Q E s.
Proof. exact (fun H => H). Qed.

Lemma wp_bind (m : M B) (k : B -> M A) s :
  wp m (fun b s1 => wp (k b) Q E s1) E s -> wp (bind m k) Q E s.
Proof.
  unfold wp, bind. destruct (m s) as [[b|e] s1]; auto.
Qed.

Lemma wp_try (m : M A) (h : exn -> M A) s :
  wp m Q (fun e s1 => wp (h e) Q E s1) s -> wp (try_except m h) Q E s.
Proof.
  unfold wp, try_except. destruct (m s) as [[a|e] s1]; auto.
Qed.

Lemma wp_mono (m : M A) (Q' : A -> state -> Prop) (E' : exn -> state -> Prop) s :
  wp m Q' E' s ->
  (forall a s', Q' a s' -> Q a s') ->
  (forall e s', E' e s' -> E e s') ->
  wp m Q E s.
Proof.
  unfold wp. destruct (m s) as [[a|e] s1]; auto.
Qed.

Lemma wp_run (m : M A) s r s' :
  wp m Q E s -> m s = (r, s') ->
  match r with Ret a => Q a s' | Raise e => E e s' end.
Proof.
  unfold wp. intros H Hr. rewrite Hr in H. destruct r; exact H.
Qed.

End WpRules.

Section WpEffects.

Variable W : world.
Variables (Q : unit -> state -> Prop) (E : exn -> state -> Prop).

Lemma wp_tick (c : call) s :
  (faults W (calls s) = false -> Q tt (ticked c s)) ->
  (faults W (calls s) = true -> E LibraryError (ticked c s)) ->
  wp (ImageProcessor.tick W c) Q E s.
Proof.
  unfold wp, ImageProcessor.tick, ticked.
  destruct (faults W (calls s)); auto.
Qed.

Lemma wp_enter (r : routine) s : Q tt (noted (Enter r) s) -> wp (enter r) Q E s.
Proof. exact (fun H => H). Qed.

Lemma wp_logger_error msg s :
  Q tt (noted (Log ERROR msg) s) -> wp (logger_error msg) Q E s.
Proof. exact (fun H => H). Qed.

Lemma wp_logger_warning msg s :
  Q tt (noted (Log WARNING msg) s) -> wp (logger_warning msg) Q E s.
Proof. exact (fun H => H). Qed.

Lemma wp_write_file path f s :
  Q tt (wrote path f s) -> wp (write_file path f) Q E s.
Proof. exact (fun H => H). Qed.

End WpEffects.

(** Symbolic execution of a routine, one construct at a time. *)
Ltac wp_prims :=
  unfold ImageProcessor.imread, ImageProcessor.bilateralFilter,
    ImageProcessor.cv_resize, ImageProcessor.filter2D,
    ImageProcessor.addWeighted, ImageProcessor.GaussianBlur,
    ImageProcessor.imwrite, ImageProcessor.cvtColor,
    ImageProcessor.array_of_image, ImageProcessor.copy,
    ImageProcessor.fromarray, ImageProcessor.open, ImageProcessor.new,
    ImageProcessor.convert, ImageProcessor.split, ImageProcessor.paste,
    ImageProcessor.resize, ImageProcessor.crop, ImageProcessor.sharpen,
    ImageProcessor.save,
    ImageProcessor._standard_upscale_image,
    ImageProcessor.run_in_executor, truediv, fdiv.

Ltac wp_step_with call :=
  lazymatch goal with
  | |- wp (bind _ _) _ _ _ => apply wp_bind
  | |- wp (ret _) _ _ _ => apply wp_ret
  | |- wp (raise _) _ _ _ => apply wp_raise
  | |- wp (try_except _ _) _ _ _ => apply wp_try
  | |- wp (ImageProcessor.tick _ _) _ _ _ =>
      apply wp_tick; intros ?
  | |- wp (enter _) _ _ _ => apply wp_enter
  | |- wp (logger_error _) _ _ _ => apply wp_logger_error
  | |- wp (logger_warning _) _ _ _ => apply wp_logger_warning
  | |- wp (write_file _ _) _ _ _ => apply wp_write_file
  | |- wp (if ?b then _ else _) _ _ _ => destruct b eqn:?
  | |- wp (match ?x with _ => _ end) _ _ _ => destruct x eqn:?
  | |- wp _ _ _ _ => first [ call | progress wp_prims ]
  end;
  cbv beta iota;
  cbn [im_width im_height im_mode arr_rows arr_cols arr_channels
       df_image df_pil df_cv fst snd pil_mode_eqb mode_in existsb
       orb andb negb mode_channels ImageProcessor.encoder_accepts
       Z.eqb Z.ltb Z.leb Z.compare Pos.compare Pos.compare_cont Pos.eqb
       ImageProcessor.current_img ImageProcessor.current_width
       ImageProcessor.current_height ImageProcessor.step].

Ltac wp_step := wp_step_with fail.
Ltac wp_go := repeat wp_step.
Ltac wp_go_with call := repeat (wp_step_with call).

(** Linear arithmetic, with the facts about rationals put aside. *)
Ltac zlia :=
  repeat match goal with
         | H : context [py_int _] |- _ => clear H
         | H : context [inject_Z _] |- _ => clear H
         end;
  lia.

(** * The file filter *)

Section Splitext.

Local Open Scope string_scope.
Local Open Scope Z_scope.

Lemma rfind_from_absent c s : forall i,
  str_has c s = false -> PyStr.rfind_from i c s = -1.
Proof.
  induction s as [|x r IH]; intros i H; cbn in *.
  - reflexivity.
  - apply orb_false_iff in H. destruct H as [Hx Hr].
    rewrite (IH (i + 1) Hr), Hx. reflexivity.
Qed.

(** The last dot of [stem ++ "." ++ t], when [t] has no dot. *)
Lemma rfind_dot_last stem t : forall i, 0 <= i ->
  str_has "." t = false ->
  PyStr.rfind_from i "." (stem ++ String "." t) = i + Z.of_nat (String.length stem).
Proof.
  induction stem as [|x r IH]; intros i Hi Ht.
  - cbn [String.append PyStr.rfind_from String.length].
    rewrite (rfind_from_absent _ _ _ Ht). cbn.
    destruct (0 <=? -1) eqn:H; [discriminate|]. lia.
  - cbn [String.append PyStr.rfind_from String.length].
    rewrite (IH (i + 1)) by (try lia; assumption).
    destruct (0 <=? i + 1 + Z.of_nat (String.length r)) eqn:H.
    + lia.
    + apply Z.leb_gt in H. lia.
Qed.

Lemma drop_app_length s t : PyStr.drop (String.length s) (s ++ t) = t.
Proof. induction s as [|x r IH]; cbn; [destruct t; reflexivity | exact IH]. Qed.

Lemma str_has_app c s t : str_has c (s ++ t) = str_has c s || str_has c t.
Proof.
  induction s as [|x r IH]; cbn; [reflexivity|].
  rewrite IH. apply orb_assoc.
Qed.

(** [splitext] on a name whose first character is neither a dot nor a
    slash, with no slash anywhere: the extension is what follows the last
    dot. *)
Lemma splitext_simple_name c r t :
  c <> "."%char -> Ascii.eqb c "/" = false ->
  str_has "/" r = false -> str_has "/" t = false -> str_has "." t = false ->
  snd (PyStr.splitext (String c r ++ String "." t)) = String "." t.
Proof.
  intros Hdot Hslash Hr Hts Htd.
  unfold PyStr.splitext, PyStr.rfind.
  rewrite rfind_dot_last by (try lia; assumption).
  rewrite rfind_from_absent.
  2:{ rewrite str_has_app. cbn. rewrite Hslash, Hr, Hts. reflexivity. }
  replace (0 + Z.of_nat (String.length (String c r)))
    with (Z.of_nat (String.length (String c r))) by lia.
  change (-1 + 1) with 0. rewrite Z.sub_0_r, Nat2Z.id.
  destruct (-1 <? Z.of_nat (String.length (String c r))) eqn:Hlt.
  2:{ apply Z.ltb_ge in Hlt. lia. }
  change (String.length (String c r)) with (S (String.length r)) at 1.
  cbn [PyStr.splitext_scan].
  destruct (0 <? Z.of_nat (String.length (String c r))) eqn:Hlt0.
  2:{ apply Z.ltb_ge in Hlt0. cbn [String.length] in Hlt0. lia. }
  assert (Hc : PyStr.char_at (String c r ++ String "." t) 0 = Some c)
    by reflexivity.
  rewrite Hc, Nat2Z.id.
  assert (Hsplit :
    snd (PyStr.take (String.length (String c r)) (String c r ++ String "." t),
         PyStr.drop (String.length (String c r)) (String c r ++ String "." t))
    = String "." t).
  { cbn [snd]. apply drop_app_length. }
  destruct c as [b0 b1 b2 b3 b4 b5 b6 b7].
  destruct b0, b1, b2, b3, b4, b5, b6, b7;
    first [ exact Hsplit | exfalso; apply Hdot; reflexivity ].
Qed.

End Splitext.

(** C10.  A file name ending in one of the seven listed extensions,
    [.gif] among them, passes [is_image_file] (the name starts with a
    character that is neither a dot nor a slash and has no directory part),
    although [GIF] is not one of [Config.SUPPORTED_FORMATS]. *)
Theorem is_image_file_accepts_gif (c : ascii) (r ext : string) :
  c <> "."%char -> c <> "/"%char -> str_has "/" r = false ->
  In ext FileUtils.image_extensions ->
  FileUtils.is_image_file (String c r ++ ext) = true
  /\ In ".gif"%string FileUtils.image_extensions
  /\ PyStr.mem "GIF" Config.SUPPORTED_FORMATS = false.
Proof.
  intros Hdot Hslash Hr Hext.
  assert (Hs : Ascii.eqb c "/" = false) by (apply Ascii.eqb_neq; exact Hslash).
  split; [| split; [cbn; tauto | reflexivity]].
  unfold FileUtils.is_image_file, FileUtils.get_file_extension.
  cbn in Hext.
  repeat (destruct Hext as [Hext | Hext]; [subst ext;
    rewrite splitext_simple_name by (assumption || reflexivity); reflexivity |]).
  contradiction.
Qed.

Lemma is_image_file_accepts_gif_witness :
  FileUtils.is_image_file "photo.gif" = true
  /\ In ".gif"%string FileUtils.image_extensions
  /\ PyStr.mem "GIF" Config.SUPPORTED_FORMATS = false.
Proof.
  apply (is_image_file_accepts_gif "p" "hoto" ".gif").
  - discriminate.
  - discriminate.
  - reflexivity.
  - cbn. tauto.
Defined.

(** * Loops and shared steps, under an invariant of the state *)

Section Stable.

Variable W : world.
Variable I : state -> Prop.
Hypothesis I_ticked : forall c s, I s -> I (ticked c s).
Hypothesis I_warned : forall m s, I s -> I (noted (Log WARNING m) s).

(** An invariant that library calls and warnings preserve holds after the
    loop, however it is left; the loop ends by its own tests, within six
    steps, and hands back an array of the size it tracked. *)
Lemma upscale_loop_inv : forall fuel tw th u s,
  I s -> shape_ok u -> 0 <= ImageProcessor.step u <= 5 ->
  6 - ImageProcessor.step u <= Z.of_nat fuel ->
  wp (ImageProcessor.upscale_loop W fuel tw th u)
     (fun r s' => I s' /\ exists u', r = ImageProcessor.Finished u'
                    /\ shape_ok u'
                    /\ ImageProcessor.step u <= ImageProcessor.step u' <= 6)
     (fun _ s' => I s') s.
Proof.
  induction fuel as [|fuel IH]; intros tw th u s HI Hu Hstep Hfuel.
  - exfalso. zlia.
  - cbn [ImageProcessor.upscale_loop].
    wp_go; auto 10.
    + split; [auto 10|]. eexists; split; [reflexivity|].
      split; [split; reflexivity|]. cbn [ImageProcessor.step].
      match goal with H : (5 <? _) = true |- _ => apply Z.ltb_lt in H end. zlia.
    + match goal with H : (5 <? _) = false |- _ => apply Z.ltb_ge in H end.
      eapply wp_mono.
      * apply IH; [auto 10 | split; reflexivity
                  | cbn [ImageProcessor.step]; zlia
                  | cbn [ImageProcessor.step]; zlia].
      * cbn [ImageProcessor.step]. intros r s' [HI' [u' [Hr [Hs Hb]]]]. split; [exact HI'|].
        exists u'. split; [exact Hr | split; [exact Hs | zlia]].
      * auto.
    + split; [exact HI|]. exists u.
      split; [reflexivity | split; [exact Hu | zlia]].
Qed.

(** The white-background flattening hands back an RGB image of the same
    size. *)
Lemma flatten_on_white_inv img s :
  I s ->
  wp (ImageProcessor.flatten_on_white W img)
     (fun r s' => I s' /\ im_width r = im_width img
                  /\ im_height r = im_height img /\ im_mode r = ModeRGB)
     (fun _ s' => I s') s.
Proof.
  intros HI. unfold ImageProcessor.flatten_on_white.
  destruct img as [w h m]. destruct m; cbn [im_mode mode_in existsb pil_mode_eqb orb negb];
    wp_go; cbn; auto 10.
Qed.

(** The progressive steps of the smart upscale keep the channel layout and,
    when at least one step runs, end on the target size. *)
Lemma smart_steps_inv : forall n step steps osz tsz img s,
  I s -> Z.of_nat n + step = steps ->
  wp (ImageProcessor.smart_steps W n step steps osz tsz img)
     (fun r s' => I s' /\ im_mode r = im_mode img
                  /\ ((1 <= n)%nat ->
                      im_width r = fst tsz /\ im_height r = snd tsz))
     (fun _ s' => I s') s.
Proof.
  induction n as [|n IH]; intros step steps osz tsz img s HI Hn.
  - cbn. split; [exact HI | split; [reflexivity | lia]].
  - cbn [ImageProcessor.smart_steps].
    destruct n as [|n].
    + replace (step =? steps - 1) with true by (symmetry; apply Z.eqb_eq; lia).
      destruct tsz as [tw th].
      wp_go; cbn; auto 10.
    + assert (Hlt : (step <? steps - 1) = true) by (apply Z.ltb_lt; lia).
      rewrite Hlt.
      match goal with
      | |- wp (bind (ImageProcessor.resize _ _ ?sz) _) _ _ _ =>
          destruct sz as [iw ih]
      end.
      wp_go; auto 10.
      eapply wp_mono.
      * apply IH; [auto 10 | lia].
      * cbn. intros r s' [HI' [Hm Hd]]. split; [exact HI'|].
        split; [exact Hm | intros _; apply Hd; lia].
      * auto.
Qed.

Lemma flatten_on_white_rgb img s :
  I s ->
  wp (ImageProcessor.flatten_on_white W img)
     (fun r s' => I s' /\ r = mkImage (im_width img) (im_height img) ModeRGB)
     (fun _ s' => I s') s.
Proof.
  intros HI. eapply wp_mono; [apply flatten_on_white_inv; exact HI | | auto].
  cbn. intros [w h m] s' [HI' [Hw [Hh Hm]]]. cbn in *. subst. auto.
Qed.

Lemma smart_steps_target n steps osz tsz img s :
  I s -> (1 <= n)%nat -> Z.of_nat n = steps ->
  wp (ImageProcessor.smart_steps W n 0 steps osz tsz img)
     (fun r s' => I s' /\ r = mkImage (fst tsz) (snd tsz) (im_mode img))
     (fun _ s' => I s') s.
Proof.
  intros HI Hn Hs.
  eapply wp_mono; [apply smart_steps_inv; [exact HI | lia] | | auto].
  cbn. intros [w h m] s' [HI' [Hm Hd]]. destruct (Hd Hn) as [Hw Hh].
  cbn in *. subst. auto.
Qed.

(** The number of progressive steps is at least one. *)
Lemma smart_step_count_pos q : (1 <= Z.to_nat (int_log2 q + 1))%nat.
Proof. unfold int_log2. pose proof (Z.log2_nonneg (Qfloor q)). lia. Qed.

Lemma smart_step_count_nat q : Z.of_nat (Z.to_nat (int_log2 q + 1)) = int_log2 q + 1.
Proof. unfold int_log2. pose proof (Z.log2_nonneg (Qfloor q)). lia. Qed.

Hypothesis I_smart : forall s, I s -> I (noted (Enter R_smart_upscale_image) s).

(** The smart upscale hands back an image of the target size with the
    channel layout it was given. *)
Lemma smart_upscale_image_inv img tsz s :
  I s ->
  wp (ImageProcessor._smart_upscale_image W img tsz)
     (fun r s' => I s' /\ r = mkImage (fst tsz) (snd tsz) (im_mode img))
     (fun _ s' => I s') s.
Proof.
  intros HI. unfold ImageProcessor._smart_upscale_image.
  destruct tsz as [tw th].
  wp_go_with ltac:(idtac;
    lazymatch goal with
    | |- wp (ImageProcessor.smart_steps _ _ _ _ _ _ _) _ _ _ =>
        eapply wp_mono;
        [ apply smart_steps_target;
          [ | apply smart_step_count_pos | apply smart_step_count_nat ]
        | cbv beta; intros ? ? [? ?]; subst
        | cbv beta; intros ? ? ? ]
    end); auto 10.
Qed.

End Stable.

Import ImageProcessor.

(** * Public entry points *)

Lemma try_except_log_returns {A} (m : M (option A)) msg s :
  exists r s', try_except m (fun _ => logger_error msg ;; ret None) s = (Ret r, s').
Proof.
  unfold try_except. destruct (m s) as [[a|e] s1]; do 2 eexists; reflexivity.
Qed.

(** C3.  Each of the six public entry points returns a result, a path or
    [None], and never raises, whatever the input, the parameters, the
    files on disk and the faults of the library calls; the loop of the 4K
    path ends by its own tests. *)
Theorem entry_points_never_raise (W : world) (input_path output_format mode : string)
  (scale_factor : Z) (s : state) :
  (exists r s', enhance_to_hd W input_path s = (Ret r, s'))
  /\ (exists r s', enhance_to_4k W input_path s = (Ret r, s'))
  /\ (exists r s', enhance_to_4k_compressed W input_path s = (Ret r, s'))
  /\ (exists r s', optimize_image W input_path s = (Ret r, s'))
  /\ (exists r s', convert_format W input_path output_format s = (Ret r, s'))
  /\ (exists r s', custom_upscale W input_path scale_factor mode s = (Ret r, s'))
  /\ (forall img tw th,
        fst (upscale_loop W upscale_fuel tw th
               (mkUpscale img (arr_cols img) (arr_rows img) 0) s)
        <> Ret OutOfFuel).
Proof.
  repeat split; try apply try_except_log_returns.
  intros img tw th.
  pose proof (upscale_loop_inv W (fun _ => True) (fun _ _ _ => Logic.I)
                (fun _ _ _ => Logic.I) upscale_fuel tw th
                (mkUpscale img (arr_cols img) (arr_rows img) 0) s) as H.
  unfold wp in H.
  destruct (upscale_loop W upscale_fuel tw th _ s) as [[r|e] s1]; cbn.
  - destruct H as [_ [u' [Hr _]]];
      [exact Logic.I | split; reflexivity | cbn; lia | cbn; lia |].
    subst r. discriminate.
  - discriminate.
Qed.

(** * Files written by the operations *)

Section Files.

Variable W : world.
Variable phi : encoded -> Prop.

Lemma files_ok_ticked c s : files_ok phi s -> files_ok phi (ticked c s).
Proof. exact (fun H => H). Qed.

Lemma files_ok_noted ev s : files_ok phi s -> files_ok phi (noted ev s).
Proof. exact (fun H => H). Qed.

Lemma files_ok_wrote path f s :
  phi f -> files_ok phi s -> files_ok phi (wrote path f s).
Proof.
  intros Hf H p e. unfold read_file, wrote. cbn.
  destruct (String.eqb p path); [intros [= <-]; exact Hf | apply H].
Qed.

Lemma read_file_wrote path f s : read_file (wrote path f s) path = Some f.
Proof. unfold read_file, wrote. cbn. rewrite String.eqb_refl. reflexivity. Qed.

End Files.

Lemma files_ok_init phi : files_ok phi init_state.
Proof. intros p e. discriminate. Qed.

(** Leaves of a symbolic execution that only concern the written files. *)
Ltac file_fact :=
  unfold jpeg_of_size, jpeg_quality, custom_output;
  cbn [enc_width enc_height enc_format enc_quality im_width im_height im_mode
       fst snd mode_in existsb pil_mode_eqb orb];
  repeat split;
  first [ reflexivity | eexists; split; [reflexivity | cbn; tauto] ].

Ltac files_inv :=
  subst;
  repeat first
    [ assumption
    | apply files_ok_ticked
    | apply files_ok_noted
    | apply files_ok_wrote; [ solve [file_fact] | ] ].

(** The path handed back holds a file (when a write was reported). *)
Ltac file_there :=
  let p := fresh "p" in
  let Hp := fresh "Hp" in
  intros p Hp; try discriminate Hp; intros;
  first [ congruence
        | injection Hp as <-;
          repeat first [ rewrite read_file_wrote; discriminate
                       | progress change (read_file (ticked ?c ?s)) with (read_file s)
                       | progress change (read_file (noted ?c ?s)) with (read_file s) ] ].

(** Calls into the steps that have a lemma of their own. *)
Ltac wp_use lem :=
  eapply wp_mono;
  [ eapply lem
  | cbv beta; intros ? ? ?; 
    repeat match goal with
           | H : _ /\ _ |- _ => destruct H
           | H : exists _, _ |- _ => destruct H
           end; subst
  | cbv beta; intros ? ? ?;
    repeat match goal with
           | H : _ /\ _ |- _ => destruct H
           end ].

Ltac files_call W phi :=
  idtac;
  lazymatch goal with
  | |- wp (ImageProcessor.flatten_on_white _ _) _ _ _ =>
      wp_use (flatten_on_white_rgb W (files_ok phi) (files_ok_ticked phi))
  | |- wp (ImageProcessor.upscale_loop _ _ _ _ _) _ _ _ =>
      wp_use (upscale_loop_inv W (files_ok phi) (files_ok_ticked phi)
                (fun m s => files_ok_noted phi (Log WARNING m) s))
  | |- wp (ImageProcessor._smart_upscale_image _ _ _) _ _ _ =>
      wp_use (smart_upscale_image_inv W (files_ok phi) (files_ok_ticked phi)
                (files_ok_noted phi (Enter R_smart_upscale_image)))
  end.

Ltac file_leaf := first [ split; [ solve [files_inv] | solve [file_there] ] | solve [files_inv] ].

Section FixedTargets.

Variable W : world.

Lemma simple_resize_files (qs : list Z) input size suffix s :
  In 95 qs ->
  files_ok (jpeg_of_size size qs) s ->
  wp (_simple_resize W input size suffix)
     (fun r s' => files_ok (jpeg_of_size size qs) s'
                  /\ forall p, r = Some p -> read_file s' p <> None)
     (fun _ _ => False) s.
Proof.
  intros Hq H. destruct size as [tw th]. unfold _simple_resize.
  wp_go; file_leaf.
Qed.

Lemma process_to_hd_files input s :
  files_ok (jpeg_of_size Config.HD_SIZE [95]) s ->
  wp (_process_to_hd W input)
     (fun r s' => files_ok (jpeg_of_size Config.HD_SIZE [95]) s'
                  /\ forall p, r = Some p -> imwrite_ok W = true ->
                               read_file s' p <> None)
     (fun _ _ => False) s.
Proof.
  intros H.
  unfold _process_to_hd, _simple_resize, _smart_resize, Config.HD_SIZE in *.
  wp_go; file_leaf.
Qed.

Lemma process_to_4k_compressed_files input s :
  files_ok (jpeg_of_size Config.UHD_4K_SIZE [75; 95]) s ->
  wp (_process_to_4k_compressed W input)
     (fun r s' => files_ok (jpeg_of_size Config.UHD_4K_SIZE [75; 95]) s'
                  /\ forall p, r = Some p -> read_file s' p <> None)
     (fun _ _ => False) s.
Proof.
  intros H.
  unfold _process_to_4k_compressed, _simple_resize, Config.UHD_4K_SIZE in *.
  wp_go_with ltac:(files_call W (jpeg_of_size (3840, 2160) [75; 95]));
    file_leaf.
Qed.

Lemma process_to_4k_files input s :
  files_ok (jpeg_of_size Config.UHD_4K_SIZE [95]) s ->
  wp (_process_to_4k W input)
     (fun r s' => files_ok (jpeg_of_size Config.UHD_4K_SIZE [95]) s'
                  /\ forall p, r = Some p -> read_file s' p <> None)
     (fun _ _ => False) s.
Proof.
  intros H.
  unfold _process_to_4k, _simple_resize, _smart_resize, Config.UHD_4K_SIZE,
    upscale_fuel in *.
  wp_go_with ltac:(files_call W (jpeg_of_size (3840, 2160) [95]));
    try solve [file_leaf]; try solve [split; reflexivity]; try (cbn; lia).
  all: unfold shape_ok in *.
  all: repeat match goal with
         | H : _ || _ = false |- _ => apply orb_false_iff in H; destruct H
         | H : negb _ = false |- _ => apply negb_false_iff in H
         | H : (_ =? _) = true |- _ => apply Z.eqb_eq in H
         | H : _ /\ _ |- _ => destruct H
         end.
  all: split; [| solve [file_there]].
  all: repeat first [ assumption | apply files_ok_ticked | apply files_ok_noted
                    | apply files_ok_wrote ].
  all: unfold jpeg_of_size; cbn; repeat split; try congruence.
  all: eexists; split; [reflexivity | cbn; tauto].
Qed.

Lemma custom_upscale_files input scale mode f s :
  disk W input = Some f ->
  files_ok (custom_output (df_image f) scale) s ->
  wp (_custom_upscale W input scale mode)
     (fun r s' => files_ok (custom_output (df_image f) scale) s'
                  /\ forall p, r = Some p -> read_file s' p <> None)
     (fun _ _ => False) s.
Proof.
  intros Hf H.
  unfold _custom_upscale, _max_quality_upscale_image.
  unfold ImageProcessor.open. rewrite Hf.
  destruct f as [[w h m] pil cv]. cbn [df_image df_pil] in *.
  remember (custom_output (mkImage w h m) scale) as phi eqn:Hphi.
  destruct m; cbn [im_mode im_width im_height mode_in existsb pil_mode_eqb orb negb].
  all: wp_go_with ltac:(files_call W phi).
  all: try solve [file_leaf].

Qed.

End FixedTargets.

Section PublicWrappers.

Variable W : world.

(** A worker that never raises gives its public wrapper its result. *)
Lemma public_wrapper (m : M (option string)) msg Q s :
  wp m Q (fun _ _ => False) s ->
  wp (try_except (result <- run_in_executor m ;; ret result)
                 (fun _ => logger_error msg ;; ret None))
     Q (fun _ _ => False) s.
Proof.
  intros H. apply wp_try, wp_bind. unfold run_in_executor.
  eapply wp_mono; [exact H | auto | contradiction].
Qed.

End PublicWrappers.

(** C1.  A custom upscale that succeeds on a source of [w] by [h] pixels
    leaves at the path it returns an image of exactly [w * scale_factor] by
    [h * scale_factor] pixels, for every scale factor (2, 3, 4 and 8 among
    them) and every mode string (standard, smart and max among them). *)
Theorem custom_upscale_output_size (W : world) (input_path mode : string)
  (scale_factor : Z) (f : disk_file) (p : string) (s' : state) :
  disk W input_path = Some f ->
  custom_upscale W input_path scale_factor mode init_state = (Ret (Some p), s') ->
  exists e, read_file s' p = Some e
            /\ enc_width e = im_width (df_image f) * scale_factor
            /\ enc_height e = im_height (df_image f) * scale_factor.
Proof.
  intros Hf Hrun.
  pose proof (public_wrapper (_custom_upscale W input_path scale_factor mode)
                "Error in custom upscale" _ init_state
                (custom_upscale_files W input_path scale_factor mode f init_state
                   Hf (files_ok_init _))) as H.
  apply (wp_run _ _ _ _ _ _ H) in Hrun. cbv beta iota in Hrun.
  destruct Hrun as [Hok Hthere].
  destruct (read_file s' p) as [e|] eqn:He.
  - exists e. destruct (Hok p e He) as [Hw [Hh _]]. auto.
  - exfalso. exact (Hthere p eq_refl He).
Qed.

Lemma custom_upscale_output_size_witness :
  exists e,
    read_file (snd (custom_upscale (sample_world no_faults 100 100 ModeRGB)
                      sample_path 4 "standard" init_state))
              "/tmp/bot_images/in_4x_standard.jpg" = Some e
    /\ enc_width e = 400 /\ enc_height e = 400.
Proof.
  apply (custom_upscale_output_size (sample_world no_faults 100 100 ModeRGB)
           sample_path "standard" 4
           (mkDiskFile (mkImage 100 100 ModeRGB) true true)).
  - reflexivity.
  - vm_compute. reflexivity.
Defined.

(** * Crop-resize *)

Section SmartResize.

Variable W : world.

Lemma smart_resize_files input size suffix s :
  files_ok (jpeg_of_size size [95]) s ->
  wp (_smart_resize W input size suffix)
     (fun r s' => files_ok (jpeg_of_size size [95]) s'
                  /\ forall p, r = Some p -> read_file s' p <> None)
     (fun _ _ => False) s.
Proof.
  intros H. destruct size as [tw th]. unfold _smart_resize.
  wp_go; file_leaf.
Qed.

Lemma centered_margin (a n : Z) : 0 <= a - ((a - n) / 2 + n) - (a - n) / 2 <= 1.
Proof.
  pose proof (Z.div_mod (a - n) 2 ltac:(lia)) as Hd.
  pose proof (Z.mod_pos_bound (a - n) 2 ltac:(lia)) as Hm.
  lia.
Qed.

Lemma smart_resize_crops input size suffix f s :
  disk W input = Some f ->
  Forall (centered_crop (im_width (df_image f)) (im_height (df_image f))) (trace s) ->
  Forall (centered_crop (im_width (df_image f)) (im_height (df_image f)))
         (trace (snd (_smart_resize W input size suffix s))).
Proof.
  intros Hf H.
  assert (Hwp : wp (_smart_resize W input size suffix)
            (fun _ s' => Forall (centered_crop (im_width (df_image f))
                                   (im_height (df_image f))) (trace s'))
            (fun _ _ => False) s).
  { destruct size as [tw th]. unfold _smart_resize, ImageProcessor.open.
    rewrite Hf.
    wp_go; cbn [trace ticked noted];
      repeat (apply Forall_app; split); try assumption;
      (apply Forall_cons; [| apply Forall_nil]);
      first [ exact Logic.I
            | left; split; [reflexivity | split; [reflexivity | apply centered_margin]]
            | right; split; [reflexivity | split; [reflexivity | apply centered_margin]] ]. }
  unfold wp in Hwp.
  destruct (_smart_resize W input size suffix s) as [[r|e] s1];
    [exact Hwp | contradiction].
Qed.

End SmartResize.

(** * Strategy selection *)

Section Selection.

Variable W : world.

Lemma try_except_total {A} (m : M A) (h : exn -> M A) :
  (forall e s, exists r s', h e s = (Ret r, s')) ->
  forall s, exists r s', try_except m h s = (Ret r, s').
Proof.
  intros Hh s. unfold try_except. destruct (m s) as [[a|e] s1]; eauto.
Qed.

Lemma simple_resize_returns input size suffix s :
  exists r s', _simple_resize W input size suffix s = (Ret r, s').
Proof.
  unfold _simple_resize, bind at 1, enter. apply try_except_log_returns.
Qed.

Lemma smart_resize_returns input size suffix s :
  exists r s', _smart_resize W input size suffix s = (Ret r, s').
Proof.
  unfold _smart_resize, bind at 1, enter. apply try_except_log_returns.
Qed.

(** A public wrapper around a worker that returns is that worker. *)
Lemma public_wrapper_eq (m : M (option string)) msg s :
  (exists r s', m s = (Ret r, s')) ->
  try_except (result <- run_in_executor m ;; ret result)
             (fun _ => logger_error msg ;; ret None) s = m s.
Proof.
  intros [r [s' H]]. unfold try_except, bind, run_in_executor, ret.
  rewrite H. reflexivity.
Qed.

Lemma try_except_returned {A} (m : M A) (h : exn -> M A) s :
  (exists r s', m s = (Ret r, s')) -> try_except m h s = m s.
Proof.
  intros [r [s' H]]. unfold try_except. rewrite H. reflexivity.
Qed.

Lemma hd_large_is_smart_resize input f s :
  disk W input = Some f -> df_cv f = true -> faults W (calls s) = false ->
  1920 <= im_width (df_image f) -> 1080 <= im_height (df_image f) ->
  _process_to_hd W input s
  = _smart_resize W input Config.HD_SIZE "HD"
      (ticked cv2_imread (noted (Enter R_process_to_hd) s)).
Proof.
  intros Hf Hcv Hfault Hw Hh.
  unfold _process_to_hd, bind at 1, enter.
  change (mkState (calls s) (trace s ++ [Enter R_process_to_hd]) (files s))
    with (noted (Enter R_process_to_hd) s).
  assert (Hbody : forall k : option ndarray -> M (option string),
            bind (imread W input) k (noted (Enter R_process_to_hd) s)
            = k (Some (mkArray (im_height (df_image f)) (im_width (df_image f)) 3))
                (ticked cv2_imread (noted (Enter R_process_to_hd) s))).
  { intros k. unfold imread, bind, tick. cbn [calls noted].
    rewrite Hfault, Hf, Hcv. reflexivity. }
  unfold try_except. rewrite Hbody.
  unfold Config.HD_SIZE. cbn [arr_rows arr_cols].
  replace (1920 <=? im_width (df_image f)) with true
    by (symmetry; apply Z.leb_le; exact Hw).
  replace (1080 <=? im_height (df_image f)) with true
    by (symmetry; apply Z.leb_le; exact Hh).
  cbn [andb].
  destruct (smart_resize_returns input (1920, 1080) "HD"
              (ticked cv2_imread (noted (Enter R_process_to_hd) s)))
    as [r [s' Hr]].
  rewrite Hr. reflexivity.
Qed.

Lemma uhd_body_after_imread input f s (k : option ndarray -> M (option string)) :
  disk W input = Some f -> df_cv f = true -> faults W (calls s) = false ->
  bind (imread W input) k (noted (Enter R_process_to_4k) s)
  = k (Some (mkArray (im_height (df_image f)) (im_width (df_image f)) 3))
      (ticked cv2_imread (noted (Enter R_process_to_4k) s)).
Proof.
  intros Hf Hcv Hfault. unfold imread, bind, tick. cbn [calls noted].
  rewrite Hfault, Hf, Hcv. reflexivity.
Qed.

Lemma uhd_large_is_smart_resize input f s :
  disk W input = Some f -> df_cv f = true -> faults W (calls s) = false ->
  3840 <= im_width (df_image f) -> 2160 <= im_height (df_image f) ->
  _process_to_4k W input s
  = _smart_resize W input Config.UHD_4K_SIZE "4K"
      (ticked cv2_imread (noted (Enter R_process_to_4k) s)).
Proof.
  intros Hf Hcv Hfault Hw Hh.
  unfold _process_to_4k, bind at 1, enter.
  change (mkState (calls s) (trace s ++ [Enter R_process_to_4k]) (files s))
    with (noted (Enter R_process_to_4k) s).
  unfold try_except. rewrite (uhd_body_after_imread input f s _ Hf Hcv Hfault).
  unfold Config.UHD_4K_SIZE. cbn [arr_rows arr_cols].
  replace (3840 <=? im_width (df_image f)) with true
    by (symmetry; apply Z.leb_le; exact Hw).
  replace (2160 <=? im_height (df_image f)) with true
    by (symmetry; apply Z.leb_le; exact Hh).
  cbn [andb].
  destruct (smart_resize_returns input (3840, 2160) "4K"
              (ticked cv2_imread (noted (Enter R_process_to_4k) s)))
    as [r [s' Hr]].
  rewrite Hr. reflexivity.
Qed.


End Selection.

(** * Events of a run *)

Lemma count_events_snoc p t ev :
  count_events p (t ++ [ev]) = (count_events p t + (if p ev then 1 else 0))%nat.
Proof.
  unfold count_events. rewrite filter_app, length_app. cbn.
  destruct (p ev); reflexivity.
Qed.

(** Leaves about which events a trace holds. *)
Ltac in_trace :=
  cbn [trace ticked noted wrote];
  repeat first [ assumption
               | solve [apply in_or_app; right; left; reflexivity]
               | apply in_or_app; left ].

Ltac not_in_trace :=
  cbn [trace ticked noted wrote];
  let H := fresh "Hin" in
  intro H;
  repeat (apply in_app_or in H; destruct H as [H | [H | []]];
          [ | discriminate H ]);
  first [ contradiction | auto ].

(** Leaves about how many events of a kind a trace holds. *)
Ltac count_trace :=
  cbn [trace ticked noted wrote];
  repeat rewrite count_events_snoc;
  cbn [is_upscale_step is_pil_resize]; lia.

Section Events.

Variable W : world.





End Events.

Section Workers.

Variable W : world.

Lemma process_to_hd_returns input s :
  exists r s', _process_to_hd W input s = (Ret r, s').
Proof.
  unfold _process_to_hd, bind at 1, enter. apply try_except_total.
  intros e s0. unfold bind, logger_error. apply simple_resize_returns.
Qed.

Lemma process_to_4k_returns input s :
  exists r s', _process_to_4k W input s = (Ret r, s').
Proof.
  unfold _process_to_4k, bind at 1, enter. apply try_except_total.
  intros e s0. unfold bind, logger_error. apply simple_resize_returns.
Qed.

Lemma process_to_4k_compressed_returns input s :
  exists r s', _process_to_4k_compressed W input s = (Ret r, s').
Proof.
  unfold _process_to_4k_compressed, bind at 1, enter. apply try_except_total.
  intros e s0. unfold bind, logger_error. apply simple_resize_returns.
Qed.

Lemma enhance_to_hd_eq input s : enhance_to_hd W input s = _process_to_hd W input s.
Proof. apply public_wrapper_eq, process_to_hd_returns. Qed.

Lemma enhance_to_4k_eq input s : enhance_to_4k W input s = _process_to_4k W input s.
Proof. apply public_wrapper_eq, process_to_4k_returns. Qed.

Lemma enhance_to_4k_compressed_eq input s :
  enhance_to_4k_compressed W input s = _process_to_4k_compressed W input s.
Proof. apply public_wrapper_eq, process_to_4k_compressed_returns. Qed.

End Workers.







(** * Iteration counts *)

Section Iterations.

Variable W : world.

(** From step count [step u] on, the 4K loop runs at most [6 - step u]
    further iterations, however it ends. *)
Lemma upscale_loop_steps : forall fuel tw th u s n,
  0 <= step u <= 5 ->
  (count_events is_upscale_step (trace s) + Z.to_nat (6 - step u) <= n)%nat ->
  wp (upscale_loop W fuel tw th u)
     (fun _ s' => (count_events is_upscale_step (trace s') <= n)%nat)
     (fun _ s' => (count_events is_upscale_step (trace s') <= n)%nat) s.
Proof.
  induction fuel as [|fuel IH]; intros tw th u s n Hstep Hn.
  - cbn. lia.
  - cbn [upscale_loop].
    wp_go; try solve [count_trace].
    match goal with H : (5 <? _) = false |- _ => apply Z.ltb_ge in H end.
    apply IH; cbn [step]; [zlia|].
    cbn [trace ticked noted]. rewrite !count_events_snoc.
    cbn [is_upscale_step]. zlia.
Qed.

Lemma process_to_4k_steps input s :
  (count_events is_upscale_step (trace (snd (_process_to_4k W input s)))
   <= count_events is_upscale_step (trace s) + 6)%nat.
Proof.
  assert (Hwp : wp (_process_to_4k W input)
            (fun _ s' => (count_events is_upscale_step (trace s')
                          <= count_events is_upscale_step (trace s) + 6)%nat)
            (fun _ _ => False) s).
  { unfold _process_to_4k, _simple_resize, _smart_resize, Config.UHD_4K_SIZE,
      upscale_fuel.
    wp_go_with ltac:(idtac;
      lazymatch goal with
      | |- wp (upscale_loop _ _ _ _ _) _ _ _ =>
          eapply wp_mono;
          [ apply (upscale_loop_steps 6 3840 2160 _ _
                     (count_events is_upscale_step (trace s) + 6)%nat);
            [ cbn [step]; lia | cbn [step]; count_trace ]
          | cbv beta; intros ? ? ?
          | cbv beta; intros ? ? ? ]
      end); count_trace. }
  unfold wp in Hwp.
  destruct (_process_to_4k W input s) as [[r|e] s1];
    [exact Hwp | contradiction].
Qed.

End Iterations.

Section SmartIterations.

Variable W : world.

Lemma scaled_ratio (w k : Z) :
  w <> 0 -> (inject_Z (w * k) / inject_Z w == inject_Z k)%Q.
Proof.
  intros Hw. rewrite inject_Z_mult, Qmult_comm. apply Qdiv_mult_l.
  unfold Qeq. cbn. lia.
Qed.

(** [maxScale] of a custom upscale is its scale factor. *)
Lemma scaled_max_scale (w h k : Z) :
  w <> 0 -> h <> 0 -> (max_scale (w * k) (h * k) w h == inject_Z k)%Q.
Proof.
  intros Hw Hh. unfold max_scale, py_max.
  destruct (Qltb _ _); apply scaled_ratio; assumption.
Qed.

Lemma Qltb_comp (a x y : Q) : (x == y)%Q -> Qltb a x = Qltb a y.
Proof.
  intros H. unfold Qltb. f_equal. apply Qleb_comp; [exact H | reflexivity].
Qed.

Lemma int_log2_comp (x y : Q) : (x == y)%Q -> int_log2 x = int_log2 y.
Proof. intros H. unfold int_log2. f_equal. apply Qfloor_comp. exact H. Qed.

(** [n] progressive steps resample [n] times at most. *)
Lemma smart_steps_resizes : forall n step steps osz tsz img s m,
  (count_events is_pil_resize (trace s) + n <= m)%nat ->
  wp (smart_steps W n step steps osz tsz img)
     (fun _ s' => (count_events is_pil_resize (trace s') <= m)%nat)
     (fun _ s' => (count_events is_pil_resize (trace s') <= m)%nat) s.
Proof.
  induction n as [|n IH]; intros step steps osz tsz img s m Hm.
  - cbn. lia.
  - cbn [smart_steps].
    match goal with
    | |- wp (bind (ImageProcessor.resize _ _ ?sz) _) _ _ _ =>
        destruct sz as [iw ih]
    end.
    wp_go; try solve [count_trace]; apply IH; count_trace.
Qed.

(** The smart upscale of an image by one of the offered factors resamples
    four times at most (four times at factor 8, once below). *)
Lemma smart_upscale_scaled_resizes img k s m :
  In k [2; 3; 4; 8] ->
  (count_events is_pil_resize (trace s) + 4 <= m)%nat ->
  wp (_smart_upscale_image W img (im_width img * k, im_height img * k))
     (fun _ s' => (count_events is_pil_resize (trace s') <= m)%nat)
     (fun _ s' => (count_events is_pil_resize (trace s') <= m)%nat) s.
Proof.
  intros Hk Hm. unfold _smart_upscale_image.
  apply wp_bind, wp_enter. unfold truediv. cbn [fst snd].
  apply wp_bind.
  destruct (im_width img =? 0) eqn:Hw; [apply wp_raise; count_trace|].
  apply wp_ret, wp_bind.
  destruct (im_height img =? 0) eqn:Hh; [apply wp_raise; count_trace|].
  apply wp_ret. cbv beta.
  apply Z.eqb_neq in Hw, Hh.
  pose proof (scaled_max_scale (im_width img) (im_height img) k Hw Hh) as Hq.
  unfold max_scale in Hq.
  rewrite (Qltb_comp 4 _ _ Hq), (int_log2_comp _ _ Hq).
  cbn in Hk.
  destruct Hk as [<- | [<- | [<- | [<- | []]]]];
    match goal with
    | |- context [Qltb 4 (inject_Z ?c)] =>
        let b := eval vm_compute in (Qltb 4 (inject_Z c)) in
        change (Qltb 4 (inject_Z c)) with b
    end; cbv iota.
  1-3: wp_go; count_trace.
  change (Z.to_nat (int_log2 (inject_Z 8) + 1)) with 4%nat.
  apply wp_bind.
  eapply wp_mono;
    [ apply (smart_steps_resizes 4 _ _ _ _ _ _ m); count_trace
    | cbv beta; intros ? ? ?; wp_go; count_trace
    | cbv beta; intros ? ? ?; assumption ].
Qed.

Lemma custom_upscale_returns input scale mode s :
  exists r s', _custom_upscale W input scale mode s = (Ret r, s').
Proof.
  unfold _custom_upscale, bind at 1, enter. apply try_except_log_returns.
Qed.

Lemma custom_upscale_smart_resizes input k s :
  In k [2; 3; 4; 8] ->
  (count_events is_pil_resize (trace (snd (_custom_upscale W input k "smart" s)))
   <= count_events is_pil_resize (trace s) + 4)%nat.
Proof.
  intros Hk.
  assert (Hwp : wp (_custom_upscale W input k "smart")
            (fun _ s' => (count_events is_pil_resize (trace s')
                          <= count_events is_pil_resize (trace s) + 4)%nat)
            (fun _ _ => False) s).
  { unfold _custom_upscale.
    change (String.eqb "smart" "smart") with true. cbv iota.
    wp_go_with ltac:(idtac;
      lazymatch goal with
      | |- wp (_smart_upscale_image _ ?img _) _ _ _ =>
          eapply wp_mono;
          [ apply (smart_upscale_scaled_resizes img k _
                     (count_events is_pil_resize (trace s) + 4)%nat Hk);
            count_trace
          | cbv beta; intros ? ? ?
          | cbv beta; intros ? ? ? ]
      end); count_trace. }
  unfold wp in Hwp.
  destruct (_custom_upscale W input k "smart" s) as [[r|e] s1];
    [exact Hwp | contradiction].
Qed.

End SmartIterations.

(** C7, as the code has it.  The progressive loop of [to4K] runs at most
    six iterations (its guard [step > 5] is tested at the end of an
    iteration), whatever the source; the progressive loop of the smart
    custom upscale has no cap of its own and, at the offered scale factors
    2, 3, 4 and 8, resamples four times at most. *)
Theorem upscale_iteration_bounds (W : world) (input_path : string)
  (scale_factor : Z) (s : state) :
  (count_events is_upscale_step (trace (snd (enhance_to_4k W input_path s)))
   <= count_events is_upscale_step (trace s) + 6)%nat
  /\ (In scale_factor [2; 3; 4; 8] ->
      (count_events is_pil_resize
         (trace (snd (custom_upscale W input_path scale_factor "smart" s)))
       <= count_events is_pil_resize (trace s) + 4)%nat).
Proof.
  split.
  - rewrite enhance_to_4k_eq. apply process_to_4k_steps.
  - intros Hk. unfold custom_upscale.
    rewrite public_wrapper_eq by apply custom_upscale_returns.
    apply custom_upscale_smart_resizes. exact Hk.
Qed.

Lemma upscale_iteration_bounds_witness :
  (count_events is_upscale_step
     (trace (snd (enhance_to_4k (sample_world no_faults 480 270 ModeRGB)
                    sample_path init_state)))
   <= count_events is_upscale_step (trace init_state) + 6)%nat
  /\ (count_events is_pil_resize
        (trace (snd (custom_upscale (sample_world no_faults 100 100 ModeRGB)
                       sample_path 8 "smart" init_state)))
      <= count_events is_pil_resize (trace init_state) + 4)%nat.
Proof.
  split.
  - apply (upscale_iteration_bounds (sample_world no_faults 480 270 ModeRGB)
             sample_path 8 init_state).
  - apply (upscale_iteration_bounds (sample_world no_faults 100 100 ModeRGB)
             sample_path 8 init_state).
    cbn. tauto.
Defined.

(** C7 as stated fails for [to4K]: on a 3840 by 270 source ([maxScale]
    is 8.0, not above it) the scale of a step is [min(2.0, 1.0, 8.0)], the
    size never changes, and the loop runs six iterations before its guard
    stops it. *)
Lemma uhd_loop_runs_six_iterations :
  Qltb 8 (max_scale 3840 2160 3840 270) = false
  /\ fst (enhance_to_4k (sample_world no_faults 3840 270 ModeRGB) sample_path
            init_state) = Ret (Some "/tmp/bot_images/in_4K.jpg"%string)
  /\ count_events is_upscale_step
       (trace (snd (enhance_to_4k (sample_world no_faults 3840 270 ModeRGB)
                      sample_path init_state))) = 6%nat.
Proof.
  split; [reflexivity|]. split; reflexivity.
Qed.

(** The loop of the smart upscale is not capped: at a scale factor of 64
    it resamples seven times. *)
Example smart_upscale_is_not_capped :
  count_events is_pil_resize
    (trace (snd (custom_upscale (sample_world no_faults 100 100 ModeRGB)
                   sample_path 64 "smart" init_state))) = 7%nat.
Proof. reflexivity. Qed.

Section WorkersNoRetry.

Variable W : world.

Lemma optimize_image_eq input s :
  optimize_image W input s = _optimize_image W input s.
Proof.
  apply public_wrapper_eq.
  unfold _optimize_image, bind at 1, enter. apply try_except_log_returns.
Qed.

Lemma convert_format_eq input fmt s :
  convert_format W input fmt s = _convert_format W input fmt s.
Proof.
  apply public_wrapper_eq.
  unfold _convert_format, bind at 1, enter. apply try_except_log_returns.
Qed.

Lemma custom_upscale_eq input scale mode s :
  custom_upscale W input scale mode s = _custom_upscale W input scale mode s.
Proof. apply public_wrapper_eq, custom_upscale_returns. Qed.

End WorkersNoRetry.


(** * Encoding policy *)

Section Encoding.

Variable W : world.

Lemma optimize_image_files input s :
  files_ok (jpeg_quality 85) s ->
  wp (_optimize_image W input)
     (fun r s' => files_ok (jpeg_quality 85) s'
                  /\ forall p, r = Some p -> read_file s' p <> None)
     (fun _ _ => False) s.
Proof.
  intros H. unfold _optimize_image.
  wp_go; file_leaf.
Qed.

Lemma convert_to_jpeg_files input fmt s :
  PyStr.upper fmt = "JPEG"%string ->
  files_ok (jpeg_quality 95) s ->
  wp (_convert_format W input fmt)
     (fun r s' => files_ok (jpeg_quality 95) s'
                  /\ forall p, r = Some p -> read_file s' p <> None)
     (fun _ _ => False) s.
Proof.
  intros Hfmt H. unfold _convert_format. rewrite Hfmt.
  change (String.eqb "JPEG" "JPEG") with true. cbv iota.
  wp_go_with ltac:(files_call W (jpeg_quality 95)); file_leaf.
Qed.

End Encoding.

(** From the two facts of a run, "every file satisfies [phi]" and "the
    path handed back holds a file", the file at the path. *)
Lemma written_file (phi : encoded -> Prop) (s' : state) (p : string) :
  files_ok phi s' -> read_file s' p <> None ->
  exists e, read_file s' p = Some e /\ phi e.
Proof.
  intros Hok Hthere. destruct (read_file s' p) as [e|] eqn:He.
  - exists e. split; [reflexivity | exact (Hok p e He)].
  - contradiction.
Qed.

(** C8 as stated fails for a palette source: the custom upscale of a
    mode P image, which is not RGBA, is written as PNG. *)
Lemma custom_upscale_palette_source_is_png :
  pil_mode_eqb ModeP ModeRGBA = false
  /\ fst (custom_upscale (sample_world no_faults 100 100 ModeP) sample_path 2
            "standard" init_state)
     = Ret (Some "/tmp/bot_images/in_2x_standard.png"%string)
  /\ read_file (snd (custom_upscale (sample_world no_faults 100 100 ModeP)
                       sample_path 2 "standard" init_state))
               "/tmp/bot_images/in_2x_standard.png"
     = Some (mkEncoded 200 200 4 PNG None true false).
Proof.
  split; [reflexivity|]. split; reflexivity.
Qed.

(** The compressed 4K operation at quality 95: its own resize raises (second
    library call) and the simple resize writes the file. *)
Example uhd_compressed_fallback_quality :
  read_file (snd (enhance_to_4k_compressed
                    (sample_world (fault_at 1) 100 100 ModeRGB)
                    sample_path init_state))
            "/tmp/bot_images/in_4K_compressed.jpg"
  = Some (mkEncoded 3840 2160 3 JPEG (Some 95) true false).
Proof. reflexivity. Qed.

(** * Runs in which no library call raises on its own *)

Ltac bools_to_props :=
  repeat match goal with
         | H : (_ <? _) = true |- _ => apply Z.ltb_lt in H
         | H : (_ <? _) = false |- _ => apply Z.ltb_ge in H
         | H : (_ <=? _) = true |- _ => apply Z.leb_le in H
         | H : (_ <=? _) = false |- _ => apply Z.leb_gt in H
         | H : (_ =? _) = true |- _ => apply Z.eqb_eq in H
         | H : (_ =? _) = false |- _ => apply Z.eqb_neq in H
         | H : _ && _ = true |- _ => apply andb_true_iff in H; destruct H
         end.

Lemma wp_tick_ok (W : world) (Q : unit -> state -> Prop)
  (E : exn -> state -> Prop) (c : call) s :
  faults W (calls s) = false -> Q tt (ticked c s) -> wp (ImageProcessor.tick W c) Q E s.
Proof.
  intros Hf HQ. apply wp_tick; [intros _; exact HQ | congruence].
Qed.

Lemma same_shape_refl a : ImageProcessor.same_shape a a = true.
Proof.
  unfold ImageProcessor.same_shape. rewrite !Z.eqb_refl. reflexivity.
Qed.

(** Symbolic execution along the fault-free path. *)
Ltac wp_step_ok Hff call :=
  lazymatch goal with
  | |- wp (ImageProcessor.tick _ _) _ _ _ =>
      apply wp_tick_ok; [apply Hff | ]
  | |- wp (if ImageProcessor.same_shape ?a ?a then _ else _) _ _ _ =>
      rewrite (same_shape_refl a)
  | |- _ => wp_step_with call
  end.

Ltac wp_ok Hff call := repeat (wp_step_ok Hff call).

Ltac refute_checks :=
  exfalso; cbn [im_mode] in *;
  try match goal with
      | H : ImageProcessor.size_fits _ _ _ = false |- _ =>
          unfold ImageProcessor.size_fits, ImageProcessor.max_side in H;
          cbv beta iota in H
      end;
  bools_to_props;
  try match goal with
      | H : _ && _ = false |- _ =>
          apply andb_false_iff in H; destruct H; bools_to_props
      end;
  first [ congruence | lia | nia ].

Lemma wp_returned {A} (m : M A) (Q : A -> Prop) s :
  wp m (fun r _ => Q r) (fun _ _ => False) s ->
  exists r, fst (m s) = Ret r /\ Q r.
Proof.
  unfold wp. destruct (m s) as [[r|e] s1]; cbn; [eauto | contradiction].
Qed.

Lemma wp_both {A} (m : M A) (Q1 Q2 : A -> state -> Prop)
  (E1 E2 : exn -> state -> Prop) s :
  wp m Q1 E1 s -> wp m Q2 E2 s ->
  wp m (fun a s' => Q1 a s' /\ Q2 a s') (fun e s' => E1 e s' /\ E2 e s') s.
Proof.
  unfold wp. destruct (m s) as [[a|e] s1]; auto.
Qed.

(** The outcome of a run, as a postcondition. *)
Lemma wp_outcome {A} (m : M A) s :
  wp m (fun r s' => m s = (Ret r, s')) (fun e s' => m s = (Raise e, s')) s.
Proof.
  unfold wp. destruct (m s) as [[r|e] s1]; reflexivity.
Qed.

(** * The fixed targets *)

(** What holds of the fixed targets.  Whenever [to4K] or [to4KCompressed]
    succeeds, the image at the path it returns has exactly the target size,
    3840 by 2160; so has the image at the path [toHD] returns, 1920 by 1080,
    when [cv2.imwrite] wrote it. *)
Lemma fixed_target_sizes (W : world) (input_path : string)
  (p : string) (s' : state) :
  (imwrite_ok W = true ->
   enhance_to_hd W input_path init_state = (Ret (Some p), s') ->
     exists e, read_file s' p = Some e
               /\ enc_width e = 1920 /\ enc_height e = 1080)
  /\ (enhance_to_4k W input_path init_state = (Ret (Some p), s') ->
        exists e, read_file s' p = Some e
                  /\ enc_width e = 3840 /\ enc_height e = 2160)
  /\ (enhance_to_4k_compressed W input_path init_state = (Ret (Some p), s') ->
        exists e, read_file s' p = Some e
                  /\ enc_width e = 3840 /\ enc_height e = 2160).
Proof.
  split; [| split].
  - intros Hok Hrun.
    pose proof (public_wrapper (_process_to_hd W input_path)
                  "Error enhancing to HD" _ init_state
                  (process_to_hd_files W input_path init_state (files_ok_init _)))
      as H.
    apply (wp_run _ _ _ _ _ _ H) in Hrun. cbv beta iota in Hrun.
    destruct Hrun as [Hfiles Hthere].
    destruct (written_file _ s' p Hfiles (Hthere p eq_refl Hok))
      as [e [He [Hw [Hh _]]]].
    exists e. auto.
  - intros Hrun.
    pose proof (public_wrapper (_process_to_4k W input_path)
                  "Error enhancing to 4K" _ init_state
                  (process_to_4k_files W input_path init_state (files_ok_init _)))
      as H.
    apply (wp_run _ _ _ _ _ _ H) in Hrun. cbv beta iota in Hrun.
    destruct Hrun as [Hfiles Hthere].
    destruct (written_file _ s' p Hfiles (Hthere p eq_refl))
      as [e [He [Hw [Hh _]]]].
    exists e. auto.
  - intros Hrun.
    pose proof (public_wrapper (_process_to_4k_compressed W input_path)
                  "Error enhancing to 4K compressed" _ init_state
                  (process_to_4k_compressed_files W input_path init_state
                     (files_ok_init _))) as H.
    apply (wp_run _ _ _ _ _ _ H) in Hrun. cbv beta iota in Hrun.
    destruct Hrun as [Hfiles Hthere].
    destruct (written_file _ s' p Hfiles (Hthere p eq_refl))
      as [e [He [Hw [Hh _]]]].
    exists e. auto.
Qed.

(** C2, where the code departs from it.  When [cv2.imwrite] cannot write,
    [toHD] still reports success: it returns its output path although no
    image is there, of the target size or of any other.  [to4K], on the same
    picture in the same world, looks at what [cv2.imwrite] reports and
    returns the failure marker. *)
Theorem hd_success_without_output :
  fst (enhance_to_hd unwritable_world sample_path init_state)
  = Ret (Some "/tmp/bot_images/in_HD.jpg"%string)
  /\ read_file (snd (enhance_to_hd unwritable_world sample_path init_state))
       "/tmp/bot_images/in_HD.jpg" = None
  /\ files (snd (enhance_to_hd unwritable_world sample_path init_state)) = []
  /\ fst (enhance_to_4k unwritable_world sample_path init_state) = Ret None.
Proof.
  repeat split; reflexivity.
Qed.

(** * Truncated quotients *)

Section Rationals.

(** [int(a * (b / c))] on exact rationals is the truncated quotient. *)
Lemma py_int_scaled (a b c : Z) :
  0 < c -> py_int (inject_Z a * (inject_Z b / inject_Z c)) = Z.quot (a * b) c.
Proof.
  intros Hc. destruct c as [|p|p]; try lia.
  unfold py_int, Qdiv, Qinv, Qmult, inject_Z. cbn [Qnum Qden].
  rewrite Z.mul_1_r, !Pos.mul_1_l. reflexivity.
Qed.

Lemma quot_scaled_bounds (a b c : Z) :
  0 <= a -> 0 <= b -> b < c -> 0 <= Z.quot (a * b) c <= a.
Proof.
  intros Ha Hb Hc.
  rewrite Z.quot_div_nonneg by nia.
  split.
  - apply Z.div_pos; nia.
  - apply Z.div_le_upper_bound; nia.
Qed.

End Rationals.

(** * Fallback supervision *)


Section Supervision.

Variable W : world.























End Supervision.



(** * Encoding policy, continued *)

Section CompressedEncoding.

Variable W : world.

Lemma unwritten_ticked msg c s : unwritten msg s -> unwritten msg (ticked c s).
Proof. intros [H1 H2]. split; [exact H1 | not_in_trace]. Qed.

(** The files of a state that was unwritten before its last steps. *)
Ltac compressed_files :=
  unfold compressed_ok, files_ok, read_file;
  cbn [files wrote ticked noted];
  match goal with H : files _ = [] |- _ => rewrite H end;
  let p := fresh "p" in
  let e := fresh "e" in
  intros p e; cbn [lookup];
  first
    [ discriminate
    | destruct (String.eqb p _);
      [ intros [= <-]; cbn [enc_format enc_quality];
        split;
        [ reflexivity
        | split;
          [ first [ solve [intros _; reflexivity]
                  | let Hn := fresh "Hn" in
                    intros Hn; exfalso; apply Hn; in_trace ]
          | first [ solve [intros _; reflexivity]
                  | let Hl := fresh "Hl" in
                    intros Hl; exfalso; revert Hl; not_in_trace ] ] ]
      | discriminate ] ].

Lemma process_to_4k_compressed_encoding input s :
  unwritten "Error in 4K compressed processing" s ->
  wp (_process_to_4k_compressed W input)
     (fun r s' => compressed_ok "Error in 4K compressed processing" s'
                  /\ forall p, r = Some p -> read_file s' p <> None)
     (fun _ _ => False) s.
Proof.
  intros H.
  unfold _process_to_4k_compressed, _simple_resize, Config.UHD_4K_SIZE.
  wp_go_with ltac:(idtac;
    lazymatch goal with
    | |- wp (flatten_on_white _ _) _ _ _ =>
        wp_use (flatten_on_white_rgb W
                  (unwritten "Error in 4K compressed processing")
                  (unwritten_ticked "Error in 4K compressed processing"))
    end);
    repeat match goal with H : unwritten _ _ |- _ => destruct H end;
    first [ split; [ solve [compressed_files] | solve [file_there] ]
          | split; [ assumption | not_in_trace ] ].
Qed.

End CompressedEncoding.

(** C8, as the code has it.  A successful custom upscale encodes PNG
    exactly when the source has an alpha channel or a palette (modes RGBA,
    LA and P, all of which it turns into RGBA), and JPEG at quality 95
    otherwise.  4K and conversion to JPEG encode JPEG at quality 95, and so
    does HD where [cv2.imwrite] wrote the file; optimize encodes at 85; and
    compressed 4K at 75 when its own path wrote the file and at 95 when its
    handler caught an exception and the simple resize wrote it. *)
Theorem encoding_policy (W : world) (input_path output_format mode : string)
  (scale_factor : Z) (f : disk_file) (p : string) (s' : state) :
  disk W input_path = Some f ->
  (custom_upscale W input_path scale_factor mode init_state = (Ret (Some p), s') ->
   exists e, read_file s' p = Some e
     /\ if mode_in (im_mode (df_image f)) [ModeRGBA; ModeLA; ModeP]
        then enc_format e = PNG /\ enc_quality e = None
        else enc_format e = JPEG /\ enc_quality e = Some 95)
  /\ (imwrite_ok W = true ->
      enhance_to_hd W input_path init_state = (Ret (Some p), s') ->
      exists e, read_file s' p = Some e
                /\ enc_format e = JPEG /\ enc_quality e = Some 95)
  /\ (enhance_to_4k W input_path init_state = (Ret (Some p), s') ->
      exists e, read_file s' p = Some e
                /\ enc_format e = JPEG /\ enc_quality e = Some 95)
  /\ (PyStr.upper output_format = "JPEG"%string ->
      convert_format W input_path output_format init_state = (Ret (Some p), s') ->
      exists e, read_file s' p = Some e
                /\ enc_format e = JPEG /\ enc_quality e = Some 95)
  /\ (optimize_image W input_path init_state = (Ret (Some p), s') ->
      exists e, read_file s' p = Some e
                /\ enc_format e = JPEG /\ enc_quality e = Some 85)
  /\ (enhance_to_4k_compressed W input_path init_state = (Ret (Some p), s') ->
      exists e, read_file s' p = Some e
                /\ enc_format e = JPEG
                /\ (~ In (Log ERROR "Error in 4K compressed processing")
                         (trace s') ->
                    enc_quality e = Some 75)
                /\ (In (Log ERROR "Error in 4K compressed processing")
                       (trace s') ->
                    enc_quality e = Some 95)).
Proof.
  intros Hf. repeat apply conj.
  - intros Hrun. rewrite custom_upscale_eq in Hrun.
    pose proof (custom_upscale_files W input_path scale_factor mode f init_state
                  Hf (files_ok_init _)) as H.
    apply (wp_run _ _ _ _ _ _ H) in Hrun. cbv beta iota in Hrun.
    destruct Hrun as [Hok Hthere].
    destruct (written_file _ s' p Hok (Hthere p eq_refl)) as [e [He [_ [_ Hfmt]]]].
    exists e. split; [exact He | exact Hfmt].
  - intros Hwrite Hrun. rewrite enhance_to_hd_eq in Hrun.
    pose proof (process_to_hd_files W input_path init_state (files_ok_init _)) as H.
    apply (wp_run _ _ _ _ _ _ H) in Hrun. cbv beta iota in Hrun.
    destruct Hrun as [Hok Hthere].
    destruct (written_file _ s' p Hok (Hthere p eq_refl Hwrite))
      as [e [He [_ [_ [Hfm [q [Hq [<- | []]]]]]]]].
    exists e. auto.
  - intros Hrun. rewrite enhance_to_4k_eq in Hrun.
    pose proof (process_to_4k_files W input_path init_state (files_ok_init _)) as H.
    apply (wp_run _ _ _ _ _ _ H) in Hrun. cbv beta iota in Hrun.
    destruct Hrun as [Hok Hthere].
    destruct (written_file _ s' p Hok (Hthere p eq_refl))
      as [e [He [_ [_ [Hfm [q [Hq [<- | []]]]]]]]].
    exists e. auto.
  - intros Hfmt Hrun. rewrite convert_format_eq in Hrun.
    pose proof (convert_to_jpeg_files W input_path output_format init_state
                  Hfmt (files_ok_init _)) as H.
    apply (wp_run _ _ _ _ _ _ H) in Hrun. cbv beta iota in Hrun.
    destruct Hrun as [Hok Hthere].
    destruct (written_file _ s' p Hok (Hthere p eq_refl)) as [e [He [Hfm Hq]]].
    exists e. auto.
  - intros Hrun. rewrite optimize_image_eq in Hrun.
    pose proof (optimize_image_files W input_path init_state (files_ok_init _)) as H.
    apply (wp_run _ _ _ _ _ _ H) in Hrun. cbv beta iota in Hrun.
    destruct Hrun as [Hok Hthere].
    destruct (written_file _ s' p Hok (Hthere p eq_refl)) as [e [He [Hfm Hq]]].
    exists e. auto.
  - intros Hrun. rewrite enhance_to_4k_compressed_eq in Hrun.
    pose proof (process_to_4k_compressed_encoding W input_path init_state
                  (conj eq_refl (fun H => H))) as H.
    apply (wp_run _ _ _ _ _ _ H) in Hrun. cbv beta iota in Hrun.
    destruct Hrun as [Hok Hthere].
    destruct (written_file _ s' p Hok (Hthere p eq_refl))
      as [e [He [Hfm [H75 H95]]]].
    exists e. auto.
Qed.

(** A palette source written as PNG by the custom upscale, a small source
    written at quality 95 by HD, and the compressed 4K operation writing at
    quality 95 after its own resize raised (second library call). *)
Lemma encoding_policy_witness :
  (exists e,
     read_file (snd (custom_upscale (sample_world no_faults 100 100 ModeRGBA)
                       sample_path 2 "max" init_state))
               "/tmp/bot_images/in_2x_max.png" = Some e
     /\ enc_format e = PNG /\ enc_quality e = None)
  /\ (exists e,
     read_file (snd (enhance_to_hd (sample_world no_faults 100 100 ModeRGBA)
                       sample_path init_state))
               "/tmp/bot_images/in_HD.jpg" = Some e
     /\ enc_format e = JPEG /\ enc_quality e = Some 95)
  /\ (exists e,
     read_file (snd (enhance_to_4k_compressed
                       (sample_world (fault_at 1) 100 100 ModeRGBA)
                       sample_path init_state))
               "/tmp/bot_images/in_4K_compressed.jpg" = Some e
     /\ enc_quality e = Some 95).
Proof.
  split; [| split].
  - refine (proj1 (encoding_policy (sample_world no_faults 100 100 ModeRGBA)
             sample_path "JPEG" "max" 2
             (mkDiskFile (mkImage 100 100 ModeRGBA) true true)
             "/tmp/bot_images/in_2x_max.png" _ eq_refl) _).
    vm_compute. reflexivity.
  - refine (proj1 (proj2
             (encoding_policy (sample_world no_faults 100 100 ModeRGBA)
                sample_path "JPEG" "max" 2
                (mkDiskFile (mkImage 100 100 ModeRGBA) true true)
                "/tmp/bot_images/in_HD.jpg" _ eq_refl)) eq_refl _).
    vm_compute. reflexivity.
  - destruct (proj2 (proj2 (proj2 (proj2 (proj2
               (encoding_policy (sample_world (fault_at 1) 100 100 ModeRGBA)
                  sample_path "JPEG" "max" 2
                  (mkDiskFile (mkImage 100 100 ModeRGBA) true true)
                  "/tmp/bot_images/in_4K_compressed.jpg"
                  (snd (enhance_to_4k_compressed
                          (sample_world (fault_at 1) 100 100 ModeRGBA)
                          sample_path init_state))
                  eq_refl)))))
               ltac:(vm_compute; reflexivity))
      as [e [He [_ [_ H95]]]].
    exists e. split; [exact He |]. apply H95. vm_compute. tauto.
Defined.

(** * Crop-resize, continued *)

(** Leaves about how many crops a run made. *)
Ltac count_crop :=
  cbn [trace ticked noted wrote];
  repeat rewrite count_events_snoc;
  cbn [is_crop]; lia.

Lemma py_int_nonneg (x : Q) : (0 <= x)%Q -> 0 <= py_int x.
Proof.
  unfold Qle, py_int. cbn [Qnum Qden]. intros H.
  apply Z.quot_pos; lia.
Qed.

Section SmartResizeRuns.

Variable W : world.
Hypothesis Hff : fault_free W.

(** On a source that is at least as large as one of the two configured
    targets, in a layout that the sharpening and the JPEG encoder take, the
    crop-resize succeeds; it crops once when the aspect ratios differ by
    0.01 or more, and not at all otherwise. *)
Lemma smart_resize_ok input tw th suffix f s :
  disk W input = Some f -> df_pil f = true ->
  mode_in (im_mode (df_image f)) [ModeL; ModeRGB; ModeCMYK] = true ->
  In (tw, th) [Config.HD_SIZE; Config.UHD_4K_SIZE] ->
  tw <= im_width (df_image f) -> th <= im_height (df_image f) ->
  wp (_smart_resize W input (tw, th) suffix)
     (fun r s' =>
        r = Some (_get_output_path input suffix)
        /\ count_events is_crop (trace s')
           = (count_events is_crop (trace s)
              + if Qltb (Qabs (inject_Z (im_width (df_image f))
                               / inject_Z (im_height (df_image f))
                               - inject_Z tw / inject_Z th))
                        (1 # 100)
                then 0 else 1)%nat)
     (fun _ _ => False) s.
Proof.
  intros Hf Hpil Hm Hin Hw Hh.
  unfold _smart_resize, ImageProcessor.open. rewrite Hf, Hpil.
  destruct f as [[w h m] pil cv]. cbn [df_image im_width im_height im_mode] in *.
  unfold Config.HD_SIZE, Config.UHD_4K_SIZE in Hin. cbn [In] in Hin.
  assert (H0w : 0 <= w /\ 0 <= h).
  { destruct Hin as [Hin | [Hin | []]]; injection Hin as <- <-; lia. }
  destruct H0w as [H0w H0h].
  assert (Hnw : forall a b, 0 < a -> 0 < b ->
            0 <= py_int (inject_Z h * (inject_Z a / inject_Z b))).
  { intros a b Ha Hb. rewrite py_int_scaled by exact Hb.
    apply Z.quot_pos; nia. }
  assert (Hnh : forall a b, 0 < a -> 0 < b ->
            0 <= py_int (inject_Z w / (inject_Z a / inject_Z b))).
  { intros a b Ha Hb. apply py_int_nonneg.
    destruct a as [|a|a]; try lia. destruct b as [|b|b]; try lia.
    unfold Qle, Qdiv, Qmult, Qinv, inject_Z. cbn. nia. }
  pose proof (Hnw 1920 1080 ltac:(lia) ltac:(lia)) as Hnw1.
  pose proof (Hnw 3840 2160 ltac:(lia) ltac:(lia)) as Hnw2.
  pose proof (Hnh 1920 1080 ltac:(lia) ltac:(lia)) as Hnh1.
  pose proof (Hnh 3840 2160 ltac:(lia) ltac:(lia)) as Hnh2.
  clear Hnw Hnh.
  destruct Hin as [Hin | [Hin | []]]; injection Hin as <- <-.
  all: destruct m; try discriminate Hm;
       cbn [im_mode mode_in existsb pil_mode_eqb orb negb].
  all: wp_ok Hff fail.
  all: try solve [split; [reflexivity | count_crop]].
  all: try solve [exfalso; bools_to_props; lia].
  all: try solve [exfalso;
                  match goal with
                  | H : Qeq_bool _ _ = true |- _ => vm_compute in H; discriminate H
                  | H : size_fits _ _ _ = false |- _ =>
                      vm_compute in H; discriminate H
                  end].
  all: exfalso;
       match goal with
       | H : _ || _ = true |- _ =>
           apply orb_true_iff in H; destruct H; bools_to_props; lia
       end.
Qed.

End SmartResizeRuns.

(** C9.  A crop made by the crop-resize is centred: it keeps one axis of
    the source whole, and on the other axis the margins it leaves at the two
    opposite edges differ by at most one pixel; the image written on
    success has exactly the target size.  And the crop-resize does produce
    that image where the operations use it: when no library call raises on
    its own, the source is at least as large as the target (one of the two
    configured ones) and its layout is one that the sharpening and the JPEG
    encoder take, the run succeeds, with exactly one crop when the aspect
    ratios differ by 0.01 or more and with none when they differ by
    less. *)
Theorem smart_resize_crop_centered (W : world) (input_path suffix : string)
  (target_width target_height : Z) (f : disk_file)
  (r : outcome (option string)) (s' : state) :
  disk W input_path = Some f ->
  _smart_resize W input_path (target_width, target_height) suffix init_state
    = (r, s') ->
  (forall x0 y0 x1 y1, In (Prim (Image_crop x0 y0 x1 y1)) (trace s') ->
     (y0 = 0 /\ y1 = im_height (df_image f)
      /\ 0 <= (im_width (df_image f) - x1) - x0 <= 1)
     \/ (x0 = 0 /\ x1 = im_width (df_image f)
         /\ 0 <= (im_height (df_image f) - y1) - y0 <= 1))
  /\ (forall p, r = Ret (Some p) ->
        exists e, read_file s' p = Some e
                  /\ enc_width e = target_width /\ enc_height e = target_height)
  /\ (fault_free W -> df_pil f = true ->
      mode_in (im_mode (df_image f)) [ModeL; ModeRGB; ModeCMYK] = true ->
      In (target_width, target_height) [Config.HD_SIZE; Config.UHD_4K_SIZE] ->
      target_width <= im_width (df_image f) ->
      target_height <= im_height (df_image f) ->
      r = Ret (Some (_get_output_path input_path suffix))
      /\ ((1 # 100 <= Qabs (inject_Z (im_width (df_image f))
                            / inject_Z (im_height (df_image f))
                            - inject_Z target_width / inject_Z target_height))%Q ->
          count_events is_crop (trace s') = 1%nat)
      /\ ((Qabs (inject_Z (im_width (df_image f))
                 / inject_Z (im_height (df_image f))
                 - inject_Z target_width / inject_Z target_height) < 1 # 100)%Q ->
          count_events is_crop (trace s') = 0%nat)).
Proof.
  intros Hf Hrun. split; [| split].
  - intros x0 y0 x1 y1 Hin.
    pose proof (smart_resize_crops W input_path (target_width, target_height)
                  suffix f init_state Hf (Forall_nil _)) as H.
    rewrite Hrun in H. cbn [snd] in H.
    rewrite Forall_forall in H. exact (H _ Hin).
  - intros p ->.
    pose proof (smart_resize_files W input_path (target_width, target_height)
                  suffix init_state (files_ok_init _)) as H.
    apply (wp_run _ _ _ _ _ _ H) in Hrun. cbv beta iota in Hrun.
    destruct Hrun as [Hok Hthere].
    destruct (written_file _ s' p Hok (Hthere p eq_refl))
      as [e [He [Hw [Hh _]]]].
    exists e. auto.
  - intros Hff Hpil Hm Htarget Hw Hh.
    pose proof (smart_resize_ok W Hff input_path target_width target_height
                  suffix f init_state Hf Hpil Hm Htarget Hw Hh) as H.
    unfold wp in H. rewrite Hrun in H.
    destruct r as [r|e]; [| contradiction].
    destruct H as [-> Hcount]. split; [reflexivity |].
    unfold Qltb in Hcount. cbn [trace init_state count_events filter
                                List.length Nat.add] in Hcount.
    split.
    + intros Hdiff. apply Qle_bool_iff in Hdiff.
      rewrite Hdiff in Hcount. exact Hcount.
    + intros Hdiff.
      destruct (Qle_bool (1 # 100) _) eqn:Hb in Hcount.
      * apply Qle_bool_iff in Hb. exfalso. exact (Qlt_not_le _ _ Hdiff Hb).
      * exact Hcount.
Qed.

(** A 5000 by 3000 source brought to HD: the run succeeds, the file has
    the target size, and the one crop it makes keeps the width and leaves
    94 rows above and 94 below. *)
Lemma smart_resize_crop_centered_witness :
  fst (_smart_resize (sample_world no_faults 5000 3000 ModeRGB) sample_path
         (1920, 1080) "HD" init_state)
  = Ret (Some "/tmp/bot_images/in_HD.jpg"%string)
  /\ (exists e,
        read_file (snd (_smart_resize (sample_world no_faults 5000 3000 ModeRGB)
                          sample_path (1920, 1080) "HD" init_state))
                  "/tmp/bot_images/in_HD.jpg" = Some e
        /\ enc_width e = 1920 /\ enc_height e = 1080)
  /\ count_events is_crop
       (trace (snd (_smart_resize (sample_world no_faults 5000 3000 ModeRGB)
                      sample_path (1920, 1080) "HD" init_state))) = 1%nat
  /\ ((94 = 0 /\ 2906 = 3000 /\ 0 <= (5000 - 5000) - 0 <= 1)
      \/ (0 = 0 /\ 5000 = 5000 /\ 0 <= (3000 - 2906) - 94 <= 1)).
Proof.
  destruct (smart_resize_crop_centered
              (sample_world no_faults 5000 3000 ModeRGB) sample_path "HD"
              1920 1080 (mkDiskFile (mkImage 5000 3000 ModeRGB) true true)
              _ _ eq_refl (surjective_pairing _))
    as [Hcentred [Hfile Hruns]].
  destruct (Hruns (fun _ => eq_refl) eq_refl eq_refl (or_introl eq_refl)
              ltac:(cbn; lia) ltac:(cbn; lia))
    as [Hr [Hcrop _]].
  split; [exact Hr | split; [| split]].
  - apply Hfile. exact Hr.
  - apply Hcrop. vm_compute. discriminate.
  - apply (Hcentred 0 94 5000 2906). vm_compute. tauto.
Defined.

(** * Optimize *)


Lemma quot_scaled_le (a b c : Z) :
  0 <= a -> a <= c -> 0 <= b -> 0 < c -> Z.quot (a * b) c <= b.
Proof.
  intros Ha Hac Hb Hc.
  rewrite Z.quot_div_nonneg by nia.
  apply Z.div_le_upper_bound; nia.
Qed.


Section Optimize.

Variable W : world.

Lemma optimize_image_sizes input w h m pil cv s :
  disk W input = Some (mkDiskFile (mkImage w h m) pil cv) ->
  0 < w -> 0 < h ->
  files_ok (optimized_output w h) s ->
  wp (_optimize_image W input)
     (fun r s' => files_ok (optimized_output w h) s'
                  /\ forall p, r = Some p -> read_file s' p <> None)
     (fun _ _ => False) s.
Proof.
  intros Hf Hw Hh H.
  unfold _optimize_image, ImageProcessor.open. rewrite Hf.
  cbn [df_image df_pil].
  wp_go;
    (split;
     [ repeat first
         [ assumption
         | apply files_ok_ticked
         | apply files_ok_noted
         | apply files_ok_wrote ]
     | solve [file_there] ]).
  all: unfold optimized_output; cbn [enc_width enc_height].
  all: rewrite ?py_int_scaled in * by lia.
  all: bools_to_props.
  all: try (pose proof (quot_scaled_bounds h 2048 w ltac:(lia) ltac:(lia));
            pose proof (quot_scaled_le h 2048 w ltac:(lia)));
       try (pose proof (quot_scaled_bounds w 2048 h ltac:(lia) ltac:(lia));
            pose proof (quot_scaled_le w 2048 h ltac:(lia)));
       lia.
Qed.

End Optimize.

Section OptimizeThin.

Variable W : world.

Lemma optimize_image_thin input w h m pil cv s :
  disk W input = Some (mkDiskFile (mkImage w h m) pil cv) ->
  0 < w -> 0 < h -> 2048 * h < w \/ 2048 * w < h ->
  wp (_optimize_image W input) (fun r _ => r = None) (fun _ _ => False) s.
Proof.
  intros Hf Hw Hh Hthin.
  unfold _optimize_image, ImageProcessor.open. rewrite Hf.
  cbn [df_image df_pil].
  wp_go; try reflexivity; exfalso.
  all: rewrite ?py_int_scaled in * by lia.
  all: bools_to_props.
  all: try (rewrite Z.quot_small in * by lia); lia.
Qed.

End OptimizeThin.

(** X1.  [optimize] never enlarges: the image it writes is no larger than
    the source on either axis and has no side above 2048; a source that
    already fits is written at its own size, a larger one with its longest
    side at exactly 2048. *)
Theorem optimize_never_enlarges (W : world) (input_path : string)
  (f : disk_file) (p : string) (s' : state) :
  disk W input_path = Some f ->
  0 < im_width (df_image f) -> 0 < im_height (df_image f) ->
  optimize_image W input_path init_state = (Ret (Some p), s') ->
  exists e, read_file s' p = Some e
            /\ optimized_output (im_width (df_image f)) (im_height (df_image f)) e.
Proof.
  intros Hf Hw Hh Hrun. destruct f as [[w h m] pil cv]. cbn in Hw, Hh |- *.
  rewrite optimize_image_eq in Hrun.
  pose proof (optimize_image_sizes W input_path w h m pil cv init_state
                Hf Hw Hh (files_ok_init _)) as H.
  apply (wp_run _ _ _ _ _ _ H) in Hrun. cbv beta iota in Hrun.
  destruct Hrun as [Hok Hthere].
  exact (written_file _ s' p Hok (Hthere p eq_refl)).
Qed.

Lemma optimize_never_enlarges_witness :
  exists e,
    read_file (snd (optimize_image (sample_world no_faults 4096 1000 ModeRGB)
                      sample_path init_state))
              "/tmp/bot_images/in_optimized.jpg" = Some e
    /\ optimized_output 4096 1000 e.
Proof.
  apply (optimize_never_enlarges (sample_world no_faults 4096 1000 ModeRGB)
           sample_path (mkDiskFile (mkImage 4096 1000 ModeRGB) true true)).
  - reflexivity.
  - reflexivity.
  - reflexivity.
  - vm_compute. reflexivity.
Defined.

(** X2.  [optimize] fails on a very thin source: when one side is more than
    2048 times the other, the scaled short side truncates to zero, the
    resize raises and the result is the failure marker, whatever the
    library calls do. *)
Theorem optimize_fails_on_thin_source (W : world) (input_path : string)
  (f : disk_file) (s : state) :
  disk W input_path = Some f ->
  0 < im_width (df_image f) -> 0 < im_height (df_image f) ->
  2048 * im_height (df_image f) < im_width (df_image f)
  \/ 2048 * im_width (df_image f) < im_height (df_image f) ->
  fst (optimize_image W input_path s) = Ret None.
Proof.
  intros Hf Hw Hh Hthin. destruct f as [[w h m] pil cv]. cbn in Hw, Hh, Hthin.
  rewrite optimize_image_eq.
  pose proof (optimize_image_thin W input_path w h m pil cv s Hf Hw Hh Hthin) as H.
  unfold wp in H.
  destruct (_optimize_image W input_path s) as [[r|e] s1]; cbn;
    [subst r; reflexivity | contradiction].
Qed.

Lemma optimize_fails_on_thin_source_witness :
  fst (optimize_image (sample_world no_faults 5000 2 ModeRGB) sample_path
         init_state) = Ret None.
Proof.
  apply (optimize_fails_on_thin_source (sample_world no_faults 5000 2 ModeRGB)
           sample_path (mkDiskFile (mkImage 5000 2 ModeRGB) true true)).
  - reflexivity.
  - reflexivity.
  - reflexivity.
  - left. reflexivity.
Defined.

(** * Format conversion *)

Section Convert.

Variable W : world.

Lemma convert_format_files input fmt f s :
  disk W input = Some f ->
  In (PyStr.upper fmt) ["JPEG"; "PNG"; "WEBP"]%string ->
  files_ok (converted_output (df_image f) (PyStr.upper fmt)) s ->
  wp (_convert_format W input fmt)
     (fun r s' => files_ok (converted_output (df_image f) (PyStr.upper fmt)) s'
                  /\ forall p, r = Some p -> read_file s' p <> None)
     (fun _ _ => False) s.
Proof.
  intros Hf Hfmt H.
  unfold _convert_format, ImageProcessor.open. rewrite Hf.
  destruct f as [[w h m] pil cv]. cbn [df_image df_pil] in *.
  cbn [In] in Hfmt.
  destruct Hfmt as [Hfmt | [Hfmt | [Hfmt | []]]]; rewrite <- Hfmt in *;
    cbn [String.eqb Ascii.eqb Bool.eqb].
  all: remember (converted_output (mkImage w h m) _) as phi eqn:Hphi.
  all: destruct m;
       cbn [im_mode im_width im_height mode_in existsb pil_mode_eqb orb negb].
  all: wp_go_with ltac:(files_call W phi).
  all: try solve [repeat first [ assumption | apply files_ok_ticked
                               | apply files_ok_noted ]].
  all: (split;
        [ repeat first
            [ assumption
            | apply files_ok_ticked
            | apply files_ok_noted
            | apply files_ok_wrote ]
        | solve [file_there] ]).
  all: try subst phi; unfold converted_output, format_named;
       cbn [enc_width enc_height enc_format enc_channels im_width im_height
            im_mode mode_in existsb pil_mode_eqb orb mode_channels
            String.eqb Ascii.eqb Bool.eqb].
  all: repeat split; try reflexivity; intros Heq; discriminate Heq.
Qed.

End Convert.

(** X3.  A successful conversion to JPEG, PNG or WebP (the format name is
    compared in upper case) keeps the size of the source and writes with
    the encoder the name selects; a JPEG result has three channels, alpha
    and palette flattened on white, and a PNG result keeps an RGB, RGBA, L
    or LA layout and is RGBA otherwise. *)
Theorem convert_format_keeps_size (W : world) (input_path output_format : string)
  (f : disk_file) (p : string) (s' : state) :
  disk W input_path = Some f ->
  In (PyStr.upper output_format) ["JPEG"; "PNG"; "WEBP"]%string ->
  convert_format W input_path output_format init_state = (Ret (Some p), s') ->
  exists e, read_file s' p = Some e
            /\ converted_output (df_image f) (PyStr.upper output_format) e.
Proof.
  intros Hf Hfmt Hrun. rewrite convert_format_eq in Hrun.
  pose proof (convert_format_files W input_path output_format f init_state
                Hf Hfmt (files_ok_init _)) as H.
  apply (wp_run _ _ _ _ _ _ H) in Hrun. cbv beta iota in Hrun.
  destruct Hrun as [Hok Hthere].
  exact (written_file _ s' p Hok (Hthere p eq_refl)).
Qed.

Lemma convert_format_keeps_size_witness :
  exists e,
    read_file (snd (convert_format (sample_world no_faults 640 480 ModeRGBA)
                      sample_path "jpeg" init_state))
              "/tmp/bot_images/in_converted.jpeg" = Some e
    /\ converted_output (mkImage 640 480 ModeRGBA) "JPEG" e.
Proof.
  apply (convert_format_keeps_size (sample_world no_faults 640 480 ModeRGBA)
           sample_path "jpeg" (mkDiskFile (mkImage 640 480 ModeRGBA) true true)).
  - reflexivity.
  - cbn. tauto.
  - vm_compute. reflexivity.
Defined.

(** * Sources the crop-resize cannot encode *)

Section SmartResizeModes.

Variable W : world.

Lemma smart_resize_rejects_mode input size suffix f s :
  disk W input = Some f ->
  mode_in (im_mode (df_image f)) [ModeRGBA; ModeLA; ModeP; ModeI; ModeF] = true ->
  fst (_smart_resize W input size suffix s) = Ret None.
Proof.
  intros Hf Hm.
  assert (Hwp : wp (_smart_resize W input size suffix)
            (fun r _ => r = None) (fun _ _ => False) s).
  { destruct size as [tw th]. unfold _smart_resize, ImageProcessor.open.
    rewrite Hf. destruct f as [[w h m] pil cv]. cbn [df_image df_pil] in *.
    destruct m; try discriminate Hm; wp_go; reflexivity. }
  unfold wp in Hwp.
  destruct (_smart_resize W input size suffix s) as [[r|e] s1]; cbn;
    [subst r; reflexivity | contradiction].
Qed.

End SmartResizeModes.

(** X4.  [toHD] and [to4K] fail on a source that is at least as large as
    the target and has an alpha channel, a palette or a 32-bit layout
    (modes RGBA, LA, P, I, F): the crop-resize they choose keeps the
    layout, which the JPEG encoder refuses, and has no retry.  (The simple
    resize, their fallback for smaller sources, converts to RGB first.) *)
Theorem large_alpha_source_fails (W : world) (input_path : string)
  (f : disk_file) (s : state) :
  disk W input_path = Some f -> df_cv f = true -> faults W (calls s) = false ->
  mode_in (im_mode (df_image f)) [ModeRGBA; ModeLA; ModeP; ModeI; ModeF] = true ->
  (1920 <= im_width (df_image f) -> 1080 <= im_height (df_image f) ->
   fst (enhance_to_hd W input_path s) = Ret None)
  /\ (3840 <= im_width (df_image f) -> 2160 <= im_height (df_image f) ->
      fst (enhance_to_4k W input_path s) = Ret None).
Proof.
  intros Hf Hcv Hfault Hm. split; intros Hw Hh.
  - rewrite enhance_to_hd_eq,
      (hd_large_is_smart_resize W input_path f s Hf Hcv Hfault Hw Hh).
    exact (smart_resize_rejects_mode W input_path _ _ f _ Hf Hm).
  - rewrite enhance_to_4k_eq,
      (uhd_large_is_smart_resize W input_path f s Hf Hcv Hfault Hw Hh).
    exact (smart_resize_rejects_mode W input_path _ _ f _ Hf Hm).
Qed.

Lemma large_alpha_source_fails_witness :
  fst (enhance_to_hd (sample_world no_faults 5000 3000 ModeRGBA) sample_path
         init_state) = Ret None
  /\ fst (enhance_to_4k (sample_world no_faults 5000 3000 ModeRGBA) sample_path
            init_state) = Ret None.
Proof.
  destruct (large_alpha_source_fails (sample_world no_faults 5000 3000 ModeRGBA)
              sample_path (mkDiskFile (mkImage 5000 3000 ModeRGBA) true true)
              init_state eq_refl eq_refl eq_refl eq_refl) as [Hhd H4k].
  split; [apply Hhd | apply H4k]; cbn; lia.
Defined.

(** * Custom upscale by a factor that is not positive *)

Section NonPositiveScale.

Variable W : world.

Lemma Qltb_inject_Z (a k : Z) : Qltb (inject_Z a) (inject_Z k) = (a <? k).
Proof.
  unfold Qltb, Qle_bool, inject_Z. cbn [Qnum Qden].
  rewrite !Z.mul_1_r. rewrite Z.ltb_antisym. reflexivity.
Qed.

Lemma smart_upscale_nonpositive img k s :
  0 < im_width img -> 0 < im_height img -> k <= 0 ->
  wp (_smart_upscale_image W img (im_width img * k, im_height img * k))
     (fun _ _ => False) (fun _ _ => True) s.
Proof.
  intros Hw Hh Hk. unfold _smart_upscale_image.
  apply wp_bind, wp_enter. unfold truediv. cbn [fst snd].
  apply wp_bind.
  destruct (im_width img =? 0) eqn:Ew; [apply wp_raise; exact Logic.I|].
  apply wp_ret, wp_bind.
  destruct (im_height img =? 0) eqn:Eh; [apply wp_raise; exact Logic.I|].
  apply wp_ret. cbv beta.
  apply Z.eqb_neq in Ew, Eh.
  pose proof (scaled_max_scale (im_width img) (im_height img) k Ew Eh) as Hq.
  unfold max_scale in Hq.
  rewrite (Qltb_comp 4 _ _ Hq).
  change 4%Q with (inject_Z 4). rewrite Qltb_inject_Z.
  replace (4 <? k) with false by (symmetry; apply Z.ltb_ge; lia).
  wp_go; try exact Logic.I.
  bools_to_props. nia.
Qed.

Lemma custom_upscale_nonpositive input k mode f s :
  disk W input = Some f ->
  0 < im_width (df_image f) -> 0 < im_height (df_image f) -> k <= 0 ->
  wp (_custom_upscale W input k mode) (fun r _ => r = None) (fun _ _ => False) s.
Proof.
  intros Hf Hw Hh Hk.
  unfold _custom_upscale, _max_quality_upscale_image, ImageProcessor.open.
  rewrite Hf. destruct f as [[w h m] pil cv]. cbn [df_image df_pil] in *.
  cbn [im_width im_height] in Hw, Hh.
  destruct m; cbn [im_mode im_width im_height mode_in existsb pil_mode_eqb orb negb].
  all: wp_go_with ltac:(idtac;
         lazymatch goal with
         | |- wp (_smart_upscale_image _ ?img _) _ _ _ =>
             eapply wp_mono;
             [ apply (smart_upscale_nonpositive img k _ Hw Hh Hk)
             | cbv beta; intros ? ? []
             | cbv beta; intros ? ? _ ]
         end).
  all: try reflexivity.
  all: exfalso; bools_to_props; nia.
Qed.

End NonPositiveScale.

(** X5.  A custom upscale by a factor that is zero or negative returns the
    failure marker in every mode: the target size is empty and every
    resampler refuses it. *)
Theorem custom_upscale_rejects_nonpositive_factor (W : world)
  (input_path mode : string) (scale_factor : Z) (f : disk_file) (s : state) :
  disk W input_path = Some f ->
  0 < im_width (df_image f) -> 0 < im_height (df_image f) ->
  scale_factor <= 0 ->
  fst (custom_upscale W input_path scale_factor mode s) = Ret None.
Proof.
  intros Hf Hw Hh Hk. rewrite custom_upscale_eq.
  pose proof (custom_upscale_nonpositive W input_path scale_factor mode f s
                Hf Hw Hh Hk) as H.
  unfold wp in H.
  destruct (_custom_upscale W input_path scale_factor mode s) as [[r|e] s1]; cbn;
    [subst r; reflexivity | contradiction].
Qed.

Lemma custom_upscale_rejects_nonpositive_factor_witness :
  fst (custom_upscale (sample_world no_faults 100 100 ModeRGB) sample_path 0
         "max" init_state) = Ret None.
Proof.
  apply (custom_upscale_rejects_nonpositive_factor
           (sample_world no_faults 100 100 ModeRGB) sample_path "max" 0
           (mkDiskFile (mkImage 100 100 ModeRGB) true true)).
  - reflexivity.
  - reflexivity.
  - reflexivity.
  - lia.
Defined.

(** * Runs in which no library call raises on its own *)


Section FaultFree.

Variable W : world.
Hypothesis Hff : fault_free W.

Lemma flatten_on_white_ok img s :
  wp (flatten_on_white W img)
     (fun r _ => r = mkImage (im_width img) (im_height img) ModeRGB)
     (fun _ _ => False) s.
Proof.
  unfold flatten_on_white. destruct img as [w h m].
  destruct m; cbn [im_mode mode_in existsb pil_mode_eqb orb negb];
    wp_ok Hff fail; reflexivity.
Qed.

Lemma smart_steps_ok : forall n step steps ow oh tw th img s,
  0 <= step -> 0 < ow -> 0 < oh -> 0 < tw -> 0 < th ->
  mode_in (im_mode img) [Mode1; ModeP; ModeI; ModeF] = false ->
  wp (smart_steps W n step steps (ow, oh) (tw, th) img)
     (fun r _ => im_mode r = im_mode img
                 /\ (n = O -> r = img)
                 /\ ((1 <= n)%nat -> Z.of_nat n + step = steps ->
                     im_width r = tw /\ im_height r = th))
     (fun _ _ => False) s.
Proof.
  induction n as [|n IH]; intros step steps ow oh tw th img s
    Hstep How Hoh Htw Hth Hm.
  - cbn. split; [reflexivity | split; [reflexivity | lia]].
  - cbn [smart_steps fst snd].
    assert (Hpow : 0 < 2 ^ (step + 1)) by (apply Z.pow_pos_nonneg; lia).
    pose proof Hm as Hp. cbn [mode_in existsb] in Hp.
    destruct (step =? steps - 1) eqn:Elast;
      [apply Z.eqb_eq in Elast | apply Z.eqb_neq in Elast];
      wp_ok Hff fail;
      try solve [exfalso; congruence];
      try solve [exfalso; bools_to_props;
                 match goal with
                 | H : _ && _ = false |- _ =>
                     apply andb_false_iff in H; destruct H; bools_to_props; lia
                 end].
    all: (eapply wp_mono; [apply IH; auto; lia | | auto]).
    all: cbv beta; cbn [im_mode]; intros r s' [Hr [H0 Hd]];
         split; [exact Hr | split; [discriminate |]]; intros _ Hn.
    all: destruct n as [|n];
         [ rewrite (H0 eq_refl); cbn [im_width im_height]; try (split; reflexivity); lia
         | apply Hd; lia ].
Qed.

Lemma smart_upscale_image_ok img tw th s :
  0 < im_width img -> 0 < im_height img -> 0 < tw -> 0 < th ->
  mode_in (im_mode img) [Mode1; ModeP; ModeI; ModeF] = false ->
  wp (_smart_upscale_image W img (tw, th))
     (fun r _ => r = mkImage tw th (im_mode img))
     (fun _ _ => False) s.
Proof.
  intros Hw Hh Htw Hth Hm. unfold _smart_upscale_image.
  pose proof Hm as Hp. cbn [mode_in existsb] in Hp.
  wp_ok Hff ltac:(idtac;
    lazymatch goal with
    | |- wp (smart_steps _ _ _ _ _ _ _) _ _ _ =>
        eapply wp_mono;
        [ apply smart_steps_ok; auto; lia
        | cbv beta; intros [rw rh rm] ? [Hr [_ Hd]];
          destruct Hd as [Hdw Hdh];
          [ apply smart_step_count_pos
          | rewrite Z.add_0_r; apply smart_step_count_nat
          | cbn [im_width im_height im_mode] in Hr, Hdw, Hdh |- *; subst ]
        | cbv beta; intros ? ? [] ]
    end);
    try reflexivity;
    try solve [exfalso; cbn [im_mode] in *; congruence];
    try solve [exfalso; bools_to_props; lia];
    exfalso; bools_to_props;
    match goal with
    | H : _ && _ = false |- _ =>
        apply andb_false_iff in H; destruct H; bools_to_props; lia
    end.
Qed.

Lemma process_to_4k_compressed_ok input f s :
  disk W input = Some f -> df_pil f = true ->
  0 < im_width (df_image f) -> 0 < im_height (df_image f) ->
  wp (_process_to_4k_compressed W input)
     (fun r _ => r = Some (_get_output_path input "4K_compressed"))
     (fun _ _ => False) s.
Proof.
  intros Hf Hpil Hw Hh.
  unfold _process_to_4k_compressed, Config.UHD_4K_SIZE, ImageProcessor.open.
  rewrite Hf, Hpil.
  wp_ok Hff ltac:(idtac;
    lazymatch goal with
    | |- wp (flatten_on_white _ _) _ _ _ =>
        eapply wp_mono;
        [ apply flatten_on_white_ok
        | cbv beta; intros ? ? ->
        | cbv beta; intros ? ? [] ]
    end);
    try reflexivity;
    refute_checks.
Qed.


Lemma custom_upscale_ok input k mode f s :
  disk W input = Some f -> df_pil f = true ->
  0 < im_width (df_image f) -> 0 < im_height (df_image f) -> 1 <= k ->
  im_width (df_image f) * k <= 65500 ->
  im_height (df_image f) * k <= 65500 ->
  wp (_custom_upscale W input k mode)
     (fun r _ => r <> None) (fun _ _ => False) s.
Proof.
  intros Hf Hpil Hw Hh Hk Hsw Hsh.
  unfold _custom_upscale, _max_quality_upscale_image, ImageProcessor.open.
  rewrite Hf, Hpil. destruct f as [[w h m] pil cv]. cbn [df_image] in *.
  cbn [im_width im_height] in Hw, Hh, Hsw, Hsh.
  assert (Hwk : 0 < w * k) by nia. assert (Hhk : 0 < h * k) by nia.
  destruct m; cbn [im_mode im_width im_height mode_in existsb pil_mode_eqb orb negb].
  all: wp_ok Hff ltac:(idtac;
         lazymatch goal with
         | |- wp (_smart_upscale_image _ ?img _) _ _ _ =>
             eapply wp_mono;
             [ apply (smart_upscale_image_ok img (w * k) (h * k));
               cbn [im_width im_height im_mode];
               first [ assumption | reflexivity | discriminate ]
             | cbv beta; intros ? ? ->
             | cbv beta; intros ? ? [] ]
         end).
  all: try discriminate.
  all: refute_checks.
Qed.

Lemma process_to_hd_ok input f s :
  disk W input = Some f -> df_cv f = true ->
  im_width (df_image f) < 1920 \/ im_height (df_image f) < 1080 ->
  wp (_process_to_hd W input)
     (fun r _ => r = Some (_get_output_path input "HD"))
     (fun _ _ => False) s.
Proof.
  intros Hf Hcv Hsmall.
  assert (Hb : (1920 <=? im_width (df_image f))
               && (1080 <=? im_height (df_image f)) = false).
  { apply andb_false_iff.
    destruct Hsmall; [left | right]; apply Z.leb_gt; assumption. }
  unfold _process_to_hd, Config.HD_SIZE, imread. rewrite Hf, Hcv.
  apply wp_bind, wp_enter, wp_try, wp_bind, wp_bind, wp_tick_ok; [apply Hff|].
  apply wp_ret. cbv beta iota. cbn [arr_rows arr_cols]. rewrite Hb.
  wp_ok Hff fail; try reflexivity; refute_checks.
Qed.

Lemma process_to_4k_ok input f s :
  disk W input = Some f -> df_cv f = true -> df_pil f = true ->
  imwrite_ok W = true ->
  mode_in (im_mode (df_image f))
    [ModeL; ModeLA; ModeP; ModeRGB; ModeRGBA; ModeCMYK] = true ->
  0 < im_width (df_image f) -> 0 < im_height (df_image f) ->
  im_width (df_image f) < 3840 \/ im_height (df_image f) < 2160 ->
  wp (_process_to_4k W input)
     (fun r _ => r = Some (_get_output_path input "4K"))
     (fun _ _ => False) s.
Proof.
  intros Hf Hcv Hpil Hok Hm Hw Hh Hsmall.
  assert (Hb : (3840 <=? im_width (df_image f))
               && (2160 <=? im_height (df_image f)) = false).
  { apply andb_false_iff.
    destruct Hsmall; [left | right]; apply Z.leb_gt; assumption. }
  unfold _process_to_4k, _simple_resize, Config.UHD_4K_SIZE, upscale_fuel,
    imread, ImageProcessor.open, imwrite.
  rewrite Hf, Hcv, Hpil, Hok.
  destruct f as [[w h m] pil cv]. cbn [df_image] in *.
  cbn [im_width im_height im_mode] in *.
  apply wp_bind, wp_enter, wp_try, wp_bind, wp_bind, wp_tick_ok; [apply Hff|].
  apply wp_ret. cbv beta iota. cbn [arr_rows arr_cols]. rewrite Hb.
  destruct m; try discriminate Hm;
    cbn [im_mode mode_in existsb pil_mode_eqb orb negb].
  all: wp_ok Hff ltac:(idtac;
         lazymatch goal with
         | |- wp (upscale_loop _ _ _ _ _) _ _ _ =>
             eapply wp_mono;
             [ apply (upscale_loop_inv W (fun _ => True)
                        (fun _ _ _ => Logic.I) (fun _ _ _ => Logic.I));
               [ exact Logic.I | split; reflexivity | cbn [step]; lia
               | cbn [step]; lia ]
             | cbv beta; intros ? ? [_ [? [-> _]]]
             | cbv beta; intros ? ? _ ]
         end).
  all: try reflexivity.
  all: refute_checks.
Qed.

End FaultFree.


(** X6.  When no library call raises on its own, the fixed-target
    operations succeed on an ordinary source (readable by both decoders,
    at least 1 by 1, in one of the layouts L, LA, P, RGB, RGBA and CMYK,
    which the simple resize can sharpen and bring to JPEG):
    compressed 4K on every such source, HD and 4K on every one that is
    smaller than their target on some axis; each returns its own path in
    the temp directory. *)
Theorem fixed_target_operations_succeed (W : world) (input_path : string)
  (f : disk_file) (s : state) :
  fault_free W -> imwrite_ok W = true ->
  disk W input_path = Some f -> df_pil f = true -> df_cv f = true ->
  mode_in (im_mode (df_image f))
    [ModeL; ModeLA; ModeP; ModeRGB; ModeRGBA; ModeCMYK] = true ->
  0 < im_width (df_image f) -> 0 < im_height (df_image f) ->
  fst (enhance_to_4k_compressed W input_path s)
  = Ret (Some (_get_output_path input_path "4K_compressed"))
  /\ (im_width (df_image f) < 1920 \/ im_height (df_image f) < 1080 ->
      fst (enhance_to_hd W input_path s)
      = Ret (Some (_get_output_path input_path "HD")))
  /\ (im_width (df_image f) < 3840 \/ im_height (df_image f) < 2160 ->
      fst (enhance_to_4k W input_path s)
      = Ret (Some (_get_output_path input_path "4K"))).
Proof.
  intros Hff Hok Hf Hpil Hcv Hm Hw Hh. split; [| split].
  - rewrite enhance_to_4k_compressed_eq.
    destruct (wp_returned _ _ _
                (process_to_4k_compressed_ok W Hff input_path f s Hf Hpil Hw Hh))
      as [r [Hr ->]].
    exact Hr.
  - intros Hsmall. rewrite enhance_to_hd_eq.
    destruct (wp_returned _ _ _
                (process_to_hd_ok W Hff input_path f s Hf Hcv Hsmall))
      as [r [Hr ->]].
    exact Hr.
  - intros Hsmall. rewrite enhance_to_4k_eq.
    destruct (wp_returned _ _ _
                (process_to_4k_ok W Hff input_path f s Hf Hcv Hpil Hok Hm Hw Hh
                   Hsmall))
      as [r [Hr ->]].
    exact Hr.
Qed.

Lemma fixed_target_operations_succeed_witness :
  fst (enhance_to_4k_compressed (sample_world no_faults 800 600 ModeRGBA)
         sample_path init_state)
  = Ret (Some (_get_output_path sample_path "4K_compressed"))
  /\ fst (enhance_to_hd (sample_world no_faults 800 600 ModeRGBA)
            sample_path init_state)
     = Ret (Some (_get_output_path sample_path "HD"))
  /\ fst (enhance_to_4k (sample_world no_faults 800 600 ModeRGBA)
            sample_path init_state)
     = Ret (Some (_get_output_path sample_path "4K")).
Proof.
  destruct (fixed_target_operations_succeed
              (sample_world no_faults 800 600 ModeRGBA) sample_path
              (mkDiskFile (mkImage 800 600 ModeRGBA) true true) init_state
              (fun _ => eq_refl) eq_refl eq_refl eq_refl eq_refl eq_refl
              eq_refl eq_refl) as [Hc [Hhd H4k]].
  split; [exact Hc | split; [apply Hhd | apply H4k]]; left; reflexivity.
Defined.

(** X7.  When no library call raises on its own, a custom upscale of a
    readable source of at least 1 by 1 pixels by a factor of at least 1
    succeeds, in every mode and for every channel layout, provided the
    enlarged image has no side above 65500 pixels, the longest that a JPEG
    holds. *)
Theorem custom_upscale_succeeds (W : world) (input_path mode : string)
  (scale_factor : Z) (f : disk_file) (s : state) :
  fault_free W ->
  disk W input_path = Some f -> df_pil f = true ->
  0 < im_width (df_image f) -> 0 < im_height (df_image f) ->
  1 <= scale_factor ->
  im_width (df_image f) * scale_factor <= 65500 ->
  im_height (df_image f) * scale_factor <= 65500 ->
  exists p, fst (custom_upscale W input_path scale_factor mode s) = Ret (Some p).
Proof.
  intros Hff Hf Hpil Hw Hh Hk Hsw Hsh. rewrite custom_upscale_eq.
  destruct (wp_returned _ _ _
              (custom_upscale_ok W Hff input_path scale_factor mode f s
                 Hf Hpil Hw Hh Hk Hsw Hsh)) as [[p|] [Hr Hne]].
  - exists p. exact Hr.
  - contradiction.
Qed.

Lemma custom_upscale_succeeds_witness :
  exists p,
    fst (custom_upscale (sample_world no_faults 100 100 ModeLA) sample_path 3
           "smart" init_state) = Ret (Some p).
Proof.
  apply (custom_upscale_succeeds (sample_world no_faults 100 100 ModeLA)
           sample_path "smart" 3
           (mkDiskFile (mkImage 100 100 ModeLA) true true)).
  - intros n. reflexivity.
  - reflexivity.
  - reflexivity.
  - reflexivity.
  - reflexivity.
  - lia.
  - cbn. lia.
  - cbn. lia.
Defined.

(** * Output paths *)

Section Paths.

Local Open Scope string_scope.
Local Open Scope Z_scope.

Lemma str_length_app s t :
  String.length (s ++ t) = (String.length s + String.length t)%nat.
Proof. induction s as [|c s IH]; cbn; [reflexivity | rewrite IH; reflexivity]. Qed.

Lemma str_app_inj_l s a b : s ++ a = s ++ b -> a = b.
Proof.
  induction s as [|c s IH]; cbn; intros H; [exact H|].
  injection H as H. exact (IH H).
Qed.

Lemma str_app_inj_r t : forall a b, a ++ t = b ++ t -> a = b.
Proof.
  induction a as [|c a IH]; intros [|d b] H; cbn in H.
  - reflexivity.
  - exfalso. apply (f_equal String.length) in H.
    cbn in H. rewrite str_length_app in H. lia.
  - exfalso. apply (f_equal String.length) in H.
    cbn in H. rewrite str_length_app in H. lia.
  - injection H as -> H. f_equal. exact (IH b H).
Qed.

(** [rfind]: either the character is absent, or the index found is that
    of its last occurrence. *)
Lemma rfind_from_last c s : forall i, 0 <= i ->
  (PyStr.rfind_from i c s = -1 /\ str_has c s = false)
  \/ (exists k, PyStr.rfind_from i c s = i + Z.of_nat k
                /\ str_has c (PyStr.drop (S k) s) = false).
Proof.
  induction s as [|x r IH]; intros i Hi.
  - left. split; reflexivity.
  - cbn [PyStr.rfind_from str_has].
    destruct (IH (i + 1) ltac:(lia)) as [[Hk Hr] | [k [Hk Hr]]].
    + rewrite Hk. cbn [Z.leb Z.compare].
      destruct (Ascii.eqb x c) eqn:Hx.
      * right. exists O. split; [lia|]. cbn. destruct r; exact Hr.
      * left. split; [reflexivity | exact Hr].
    + right. rewrite Hk.
      destruct (0 <=? i + 1 + Z.of_nat k) eqn:Hle;
        [| apply Z.leb_gt in Hle; lia].
      exists (S k). split; [lia | exact Hr].
Qed.

Lemma basename_no_slash p : str_has "/" (PyStr.basename p) = false.
Proof.
  unfold PyStr.basename, PyStr.rfind.
  destruct (rfind_from_last "/" p 0 ltac:(lia)) as [[Hk Hr] | [k [Hk Hr]]];
    rewrite Hk.
  - cbn. destruct p; exact Hr.
  - replace (Z.to_nat (0 + Z.of_nat k + 1)) with (S k) by lia. exact Hr.
Qed.

Lemma take_keeps_absent c n : forall s,
  str_has c s = false -> str_has c (PyStr.take n s) = false.
Proof.
  induction n as [|n IH]; intros [|x r] H; cbn in *; try reflexivity.
  apply orb_false_iff in H. destruct H as [Hx Hr].
  rewrite Hx, (IH r Hr). reflexivity.
Qed.

Lemma splitext_scan_root_absent c n : forall p i d,
  str_has c p = false ->
  str_has c (fst (PyStr.splitext_scan n p i d)) = false.
Proof.
  induction n as [|n IH]; intros p i d H; cbn [PyStr.splitext_scan].
  - exact H.
  - destruct (i <? d); [| exact H].
    destruct (PyStr.char_at p i) as [a|];
      [| cbn [fst]; apply take_keeps_absent; exact H].
    destruct a as [b0 b1 b2 b3 b4 b5 b6 b7].
    destruct b0, b1, b2, b3, b4, b5, b6, b7;
      first [ apply IH; exact H
            | cbn [fst]; apply take_keeps_absent; exact H ].
Qed.

Lemma splitext_root_absent c p :
  str_has c p = false -> str_has c (fst (PyStr.splitext p)) = false.
Proof.
  intros H. unfold PyStr.splitext.
  destruct (_ <? _); [apply splitext_scan_root_absent; exact H | exact H].
Qed.

End Paths.

(** X8.  The output path of an operation is a direct child of the temp
    directory, whatever the input path: its file name holds no slash when
    the suffix holds none, so no input path makes an operation write
    elsewhere. *)
Theorem output_path_stays_in_temp_dir (input_path suffix : string) :
  str_has "/" suffix = false ->
  exists name,
    _get_output_path input_path suffix
    = (Config.TEMP_DIR ++ "/" ++ name)%string
    /\ str_has "/" name = false.
Proof.
  intros Hs. unfold _get_output_path.
  exists (fst (PyStr.splitext (PyStr.basename input_path)) ++ "_" ++ suffix ++ ".jpg")%string.
  split; [reflexivity|].
  rewrite !str_has_app, Hs.
  rewrite (splitext_root_absent "/" _ (basename_no_slash input_path)).
  reflexivity.
Qed.

Lemma output_path_stays_in_temp_dir_witness :
  exists name,
    _get_output_path "../../etc/passwd" "HD"
    = (Config.TEMP_DIR ++ "/" ++ name)%string
    /\ str_has "/" name = false.
Proof.
  apply (output_path_stays_in_temp_dir "../../etc/passwd" "HD"). reflexivity.
Defined.

(** X9.  For one input, operations with different suffixes write to
    different paths: the outputs of HD, 4K, compressed 4K and optimize of
    a picture never overwrite one another. *)
Theorem output_paths_differ (input_path suffix1 suffix2 : string) :
  suffix1 <> suffix2 ->
  _get_output_path input_path suffix1 <> _get_output_path input_path suffix2.
Proof.
  unfold _get_output_path. intros Hne H. apply Hne.
  apply str_app_inj_l in H. apply str_app_inj_l in H.
  apply str_app_inj_l in H. apply str_app_inj_l in H.
  exact (str_app_inj_r _ _ _ H).
Qed.

Lemma output_paths_differ_witness :
  _get_output_path sample_path "4K" <> _get_output_path sample_path "4K_compressed".
Proof.
  apply (output_paths_differ sample_path "4K" "4K_compressed"). discriminate.
Defined.

(** * The size formatter *)

Section FormatSize.

Lemma leb_eq_of_iff (a b c d : Z) : (a <= b <-> c <= d) -> (a <=? b) = (c <=? d).
Proof.
  intros H. destruct (Z.leb_spec a b), (Z.leb_spec c d); try reflexivity; lia.
Qed.

Lemma size_test_bytes n : Qle_bool 1024 (inject_Z n) = (1024 <=? n).
Proof.
  unfold Qle_bool, inject_Z. cbn [Qnum Qden]. apply leb_eq_of_iff. lia.
Qed.

Lemma size_test_kb n : Qle_bool 1024 (inject_Z n / 1024) = (1024 * 1024 <=? n).
Proof.
  unfold Qle_bool, Qdiv, Qmult, Qinv, inject_Z. cbn [Qnum Qden].
  apply leb_eq_of_iff. lia.
Qed.

Lemma size_test_mb n :
  Qle_bool 1024 (inject_Z n / 1024 / 1024) = (1024 * 1024 * 1024 <=? n).
Proof.
  unfold Qle_bool, Qdiv, Qmult, Qinv, inject_Z. cbn [Qnum Qden].
  apply leb_eq_of_iff. lia.
Qed.

Lemma float_of_int_exact n :
  Z.abs n < 2 ^ 53 -> FileSize.float_of_int n = Some (inject_Z n).
Proof.
  intros H. unfold FileSize.float_of_int.
  replace (Z.abs n <? 2 ^ 53) with true by (symmetry; apply Z.ltb_lt; exact H).
  reflexivity.
Qed.

Lemma py_int_inject_Z n : py_int (inject_Z n) = n.
Proof. unfold py_int, inject_Z. cbn [Qnum Qden]. apply Z.quot_1_r. Qed.

End FormatSize.

(** X10.  For a size that a float holds exactly (below 2^53 in absolute
    value, so every size a file system reports), [format_file_size]
    returns a text; it prints a size below 1024 (zero and negative values
    included) as whole bytes, and otherwise one decimal in the largest unit
    among KB, MB and GB that the size reaches: GB is the last unit, so a
    size of 1024 GB or more is still printed in GB. *)
Theorem format_file_size_units (size_bytes : Z) :
  Z.abs size_bytes < 2 ^ 53 ->
  FileSize.format_file_size size_bytes
  = FileSize.Formatted
      (if size_bytes <? 1024 then
         String.append (PyStr.str_of_Z size_bytes) " B"
       else if size_bytes <? 1024 * 1024 then
         String.append (FileSize.format_1f (inject_Z size_bytes / 1024)) " KB"
       else if size_bytes <? 1024 * 1024 * 1024 then
         String.append
           (FileSize.format_1f (inject_Z size_bytes / 1024 / 1024)) " MB"
       else
         String.append
           (FileSize.format_1f (inject_Z size_bytes / 1024 / 1024 / 1024))
           " GB").
Proof.
  intros Hexact. unfold FileSize.format_file_size.
  destruct (size_bytes =? 0) eqn:E0.
  - apply Z.eqb_eq in E0. subst. reflexivity.
  - rewrite (float_of_int_exact size_bytes Hexact).
    cbn [FileSize.size_loop FileSize.size_names List.length].
    change (Z.of_nat 4 - 1) with 3.
    rewrite size_test_bytes.
    destruct (Z.ltb_spec size_bytes 1024) as [H1|H1].
    + replace (1024 <=? size_bytes) with false by (symmetry; apply Z.leb_gt; lia).
      cbn [andb]. cbn [Z.eqb Z.to_nat nth]. rewrite py_int_inject_Z. reflexivity.
    + replace (1024 <=? size_bytes) with true by (symmetry; apply Z.leb_le; lia).
      cbn [andb Z.ltb Z.compare Pos.compare Pos.compare_cont Z.add].
      rewrite size_test_kb.
      destruct (Z.ltb_spec size_bytes (1024 * 1024)) as [H2|H2].
      * replace (1024 * 1024 <=? size_bytes) with false
          by (symmetry; apply Z.leb_gt; lia).
        reflexivity.
      * replace (1024 * 1024 <=? size_bytes) with true
          by (symmetry; apply Z.leb_le; lia).
        cbn [andb Z.ltb Z.compare Pos.compare Pos.compare_cont Z.add Pos.add
             Pos.succ].
        rewrite size_test_mb.
        destruct (Z.ltb_spec size_bytes (1024 * 1024 * 1024)) as [H3|H3].
        -- replace (1024 * 1024 * 1024 <=? size_bytes) with false
             by (symmetry; apply Z.leb_gt; lia).
           reflexivity.
        -- replace (1024 * 1024 * 1024 <=? size_bytes) with true
             by (symmetry; apply Z.leb_le; lia).
           cbn [andb Z.ltb Z.compare Pos.compare Pos.compare_cont Z.add Pos.add
                Pos.succ].
           rewrite Bool.andb_false_r. reflexivity.
Qed.

Lemma format_file_size_units_witness :
  Z.abs 1536 < 2 ^ 53
  /\ FileSize.format_file_size 1536 = FileSize.Formatted "1.5 KB"%string.
Proof.
  split; [reflexivity | ].
  exact (format_file_size_units 1536 eq_refl).
Defined.

(** A size one byte short of 1 MB is printed as 1024 KB, and 5 TB as
    5120 GB. *)
Example format_file_size_edges :
  FileSize.format_file_size (1024 * 1024 - 1)
  = FileSize.Formatted "1024.0 KB"%string
  /\ FileSize.format_file_size (5 * 1024 * 1024 * 1024 * 1024)
     = FileSize.Formatted "5120.0 GB"%string
  /\ FileSize.format_file_size 1536 = FileSize.Formatted "1.5 KB"%string.
Proof. repeat split; reflexivity. Qed.

(** Beyond 2^53 the conversion to a float rounds: 2^60 + 2^28 + 1 bytes are
    printed as 1073741824.2 GB, where the exact quotient rounds to
    1073741824.3; and an integer of 401 digits is no float at all. *)
Example format_file_size_beyond_floats :
  FileSize.format_file_size (2 ^ 60 + 2 ^ 28 + 1)
  = FileSize.Formatted "1073741824.2 GB"%string
  /\ FileSize.format_1f (inject_Z (2 ^ 60 + 2 ^ 28 + 1) / 1024 / 1024 / 1024)
     = "1073741824.3"%string
  /\ FileSize.format_file_size (10 ^ 400) = FileSize.OverflowError.
Proof. repeat split; vm_compute; reflexivity. Qed.

(** * The file filter, continued *)

Section Extensions.

Local Open Scope string_scope.
Local Open Scope Z_scope.

Lemma rfind_from_lower_bound c s : forall i, 0 <= i -> -1 <= PyStr.rfind_from i c s.
Proof.
  induction s as [|x r IH]; intros i Hi; cbn [PyStr.rfind_from].
  - lia.
  - specialize (IH (i + 1) ltac:(lia)).
    destruct (0 <=? PyStr.rfind_from (i + 1) c r); [lia|].
    destruct (Ascii.eqb x c); lia.
Qed.

Lemma mem_In x l : In x l -> PyStr.mem x l = true.
Proof.
  induction l as [|y r IH]; intros H; cbn in *; [contradiction|].
  destruct H as [H|H].
  - subst. rewrite String.eqb_refl. reflexivity.
  - rewrite (IH H). apply orb_true_r.
Qed.

Lemma lower_ascii_dot x : Ascii.eqb (PyStr.lower_ascii x) "." = Ascii.eqb x ".".
Proof.
  destruct x as [b0 b1 b2 b3 b4 b5 b6 b7].
  destruct b0, b1, b2, b3, b4, b5, b6, b7; reflexivity.
Qed.

Lemma lower_ascii_slash x : Ascii.eqb (PyStr.lower_ascii x) "/" = Ascii.eqb x "/".
Proof.
  destruct x as [b0 b1 b2 b3 b4 b5 b6 b7].
  destruct b0, b1, b2, b3, b4, b5, b6, b7; reflexivity.
Qed.

Lemma str_has_lower_dot s : str_has "." (PyStr.lower s) = str_has "." s.
Proof.
  induction s as [|x r IH]; cbn; [reflexivity|].
  rewrite IH, lower_ascii_dot. reflexivity.
Qed.

Lemma str_has_lower_slash s : str_has "/" (PyStr.lower s) = str_has "/" s.
Proof.
  induction s as [|x r IH]; cbn; [reflexivity|].
  rewrite IH, lower_ascii_slash. reflexivity.
Qed.

(** What the listed extensions have in common. *)
Lemma image_extension_shape e :
  In e FileUtils.image_extensions ->
  exists t, e = String "." t /\ str_has "." t = false /\ str_has "/" t = false.
Proof.
  intros H. cbn in H.
  repeat (destruct H as [H|H];
          [subst e; eexists; split; [reflexivity | split; reflexivity] |]).
  contradiction.
Qed.

End Extensions.

(** X11.  [is_image_file] rejects a name without an extension: a name
    with no dot at all, whatever directories it names, and the same name
    behind a single leading dot, such as [.png]. *)
Theorem is_image_file_needs_extension (name : string) :
  str_has "." name = false ->
  FileUtils.is_image_file name = false
  /\ FileUtils.is_image_file (String "." name) = false.
Proof.
  intros Hdot.
  unfold FileUtils.is_image_file, FileUtils.get_file_extension, PyStr.splitext,
    PyStr.rfind.
  split.
  - rewrite (rfind_from_absent "." name 0 Hdot).
    pose proof (rfind_from_lower_bound "/" name 0 ltac:(lia)) as Hlow.
    destruct (PyStr.rfind_from 0 "/" name <? -1) eqn:E.
    + apply Z.ltb_lt in E. lia.
    + reflexivity.
  - pose proof (rfind_from_lower_bound "/" (String "." name) 0 ltac:(lia))
      as Hlow.
    assert (Hd : PyStr.rfind_from 0 "." (String "." name) = 0).
    { cbn [PyStr.rfind_from].
      rewrite (rfind_from_absent "." name (0 + 1) Hdot). reflexivity. }
    rewrite Hd.
    destruct (PyStr.rfind_from 0 "/" (String "." name) <? 0) eqn:E.
    + apply Z.ltb_lt in E.
      replace (PyStr.rfind_from 0 "/" (String "." name)) with (-1) by lia.
      reflexivity.
    + reflexivity.
Qed.

Lemma is_image_file_needs_extension_witness :
  FileUtils.is_image_file "png" = false
  /\ FileUtils.is_image_file ".png" = false.
Proof.
  apply (is_image_file_needs_extension "png"). reflexivity.
Defined.

(** X12.  [is_image_file] compares the extension without regard to letter
    case: a plain file name whose extension, put in lower case, is one of
    the seven listed ones is accepted, so [PHOTO.JPG] and [scan.Tiff] pass as
    [photo.jpg] does. *)
Theorem is_image_file_ignores_case (c : ascii) (r ext : string) :
  c <> "."%char -> c <> "/"%char -> str_has "/" r = false ->
  In (PyStr.lower ext) FileUtils.image_extensions ->
  FileUtils.is_image_file (String c r ++ ext) = true.
Proof.
  intros Hdot Hslash Hr Hext.
  assert (Hs : Ascii.eqb c "/" = false) by (apply Ascii.eqb_neq; exact Hslash).
  destruct (image_extension_shape _ Hext) as (t & Ht & Htd & Hts).
  destruct ext as [|x u]; [discriminate|].
  cbn [PyStr.lower] in Ht. injection Ht as Hx Hu.
  assert (x = "."%char) as ->.
  { apply Ascii.eqb_eq. rewrite <- lower_ascii_dot. apply Ascii.eqb_eq. exact Hx. }
  subst t. rewrite str_has_lower_dot in Htd. rewrite str_has_lower_slash in Hts.
  unfold FileUtils.is_image_file, FileUtils.get_file_extension.
  rewrite splitext_simple_name by assumption.
  apply mem_In. exact Hext.
Qed.

Lemma is_image_file_ignores_case_witness :
  FileUtils.is_image_file "PHOTO.JPG" = true.
Proof.
  apply (is_image_file_ignores_case "P" "HOTO" ".JPG").
  - discriminate.
  - discriminate.
  - reflexivity.
  - cbn. tauto.
Defined.

(** * The callback handler *)

Section Dispatch.

Variable W : world.

Local Open Scope string_scope.
Local Open Scope Z_scope.

Lemma split_exhausted sep s : PyText.split (Some 0%nat) sep s = [s].
Proof.
  induction s as [|x r IH]; cbn [PyText.split]; [reflexivity|].
  rewrite andb_false_r, IH. reflexivity.
Qed.

Lemma In_mem x l : PyStr.mem x l = true -> In x l.
Proof.
  induction l as [|y r IH]; cbn; [discriminate|].
  intros H. apply orb_true_iff in H. destruct H as [H|H].
  - left. symmetry. apply String.eqb_eq. exact H.
  - right. exact (IH H).
Qed.

Lemma upscale_request_returns upscale_type :
  exists scale_factor mode,
    BotHandlers.upscale_request upscale_type = ret (scale_factor, mode)
    /\ In (scale_factor, mode) upscale_requests
    /\ (~ In upscale_type ["2x"; "3x"; "4x"; "8x"; "smart"; "max"] ->
        (scale_factor, mode) = (2, "standard")).
Proof.
  unfold BotHandlers.upscale_request.
  destruct (PyStr.mem upscale_type ["2x"; "3x"; "4x"; "8x"]) eqn:Hmem.
  - apply In_mem in Hmem. cbn in Hmem.
    destruct Hmem as [<- | [<- | [<- | [<- | []]]]].
    + exists 2, "standard". split; [reflexivity | split; [cbn; tauto |]].
      intros H. exfalso. apply H. cbn. tauto.
    + exists 3, "standard". split; [reflexivity | split; [cbn; tauto |]].
      intros H. exfalso. apply H. cbn. tauto.
    + exists 4, "standard". split; [reflexivity | split; [cbn; tauto |]].
      intros H. exfalso. apply H. cbn. tauto.
    + exists 8, "standard". split; [reflexivity | split; [cbn; tauto |]].
      intros H. exfalso. apply H. cbn. tauto.
  - destruct (String.eqb upscale_type "smart") eqn:Hsmart.
    { apply String.eqb_eq in Hsmart. subst.
      exists 2, "smart". split; [reflexivity | split; [cbn; tauto |]].
      intros H. exfalso. apply H. cbn. tauto. }
    destruct (String.eqb upscale_type "max") eqn:Hmax.
    { apply String.eqb_eq in Hmax. subst.
      exists 4, "max". split; [reflexivity | split; [cbn; tauto |]].
      intros H. exfalso. apply H. cbn. tauto. }
    exists 2, "standard". split; [reflexivity | split; [cbn; tauto |]].
    reflexivity.
Qed.

Lemma dispatch_upscale file_path upscale_type :
  BotHandlers.dispatch W file_path ("upscale_" ++ upscale_type)
  = (request <- BotHandlers.upscale_request upscale_type ;;
     result_path <-
       custom_upscale W file_path (fst request) (snd request) ;;
     ret (BotHandlers.Processed result_path
            (Some (PyStr.str_of_Z (fst request) ++ "x Upscale ("
                   ++ PyText.title (snd request) ++ ")")))).
Proof.
  unfold BotHandlers.dispatch.
  cbn [String.append String.eqb Ascii.eqb Bool.eqb PyText.startswith andb
       PyText.split option_map Nat.pred].
  rewrite split_exhausted. reflexivity.
Qed.

(** Below the factor at which it starts to step, the smart upscale
    resamples once. *)
Lemma smart_upscale_single_resize img k s m :
  In k [2; 3; 4] ->
  (count_events is_pil_resize (trace s) + 1 <= m)%nat ->
  wp (_smart_upscale_image W img (im_width img * k, im_height img * k))
     (fun _ s' => (count_events is_pil_resize (trace s') <= m)%nat)
     (fun _ s' => (count_events is_pil_resize (trace s') <= m)%nat) s.
Proof.
  intros Hk Hm. unfold _smart_upscale_image.
  apply wp_bind, wp_enter. unfold truediv. cbn [fst snd].
  apply wp_bind.
  destruct (im_width img =? 0) eqn:Hw; [apply wp_raise; count_trace|].
  apply wp_ret, wp_bind.
  destruct (im_height img =? 0) eqn:Hh; [apply wp_raise; count_trace|].
  apply wp_ret. cbv beta.
  apply Z.eqb_neq in Hw, Hh.
  pose proof (scaled_max_scale (im_width img) (im_height img) k Hw Hh) as Hq.
  unfold max_scale in Hq.
  rewrite (Qltb_comp 4 _ _ Hq).
  cbn in Hk.
  destruct Hk as [<- | [<- | [<- | []]]];
    match goal with
    | |- context [Qltb 4 (inject_Z ?c)] =>
        let b := eval vm_compute in (Qltb 4 (inject_Z c)) in
        change (Qltb 4 (inject_Z c)) with b
    end; cbv iota.
  all: wp_go; count_trace.
Qed.

Lemma custom_upscale_menu_resizes input k mode s :
  In (k, mode) upscale_requests ->
  wp (_custom_upscale W input k mode)
     (fun _ s' => (count_events is_pil_resize (trace s')
                   <= count_events is_pil_resize (trace s) + 1)%nat)
     (fun _ _ => False) s.
Proof.
  intros Hreq. unfold upscale_requests in Hreq. cbn [In] in Hreq.
  unfold _custom_upscale, _max_quality_upscale_image, ImageProcessor.open.
  destruct (disk W input) as [[[w h m] pil cv]|].
  2:{ wp_go; count_trace. }
  cbn [df_image df_pil].
  destruct Hreq as [Hr | [Hr | [Hr | [Hr | [Hr | [Hr | []]]]]]];
    injection Hr as <- <-;
    cbn [String.eqb Ascii.eqb Bool.eqb];
    destruct m.
  all: wp_go_with ltac:(idtac;
         lazymatch goal with
         | |- wp (_smart_upscale_image _ ?img (_ * ?c, _)) _ _ _ =>
             eapply wp_mono;
             [ apply (smart_upscale_single_resize img c _
                        (count_events is_pil_resize (trace s) + 1)%nat);
               [ cbn; tauto | count_trace ]
             | cbv beta; intros ? ? ?
             | cbv beta; intros ? ? ? ]
         end); count_trace.
Qed.

End Dispatch.


(** X13.  Whatever follows [upscale_] in the callback data, the handler
    runs one custom upscale, by one of six requests: factor 2, 3, 4 or 8 in
    standard mode, factor 2 in smart mode, factor 4 in max mode.  Reading
    the factor never fails, and a kind that is not on the keyboard (say
    [upscale_16x]) is served as factor 2 in standard mode. *)
Theorem upscale_button_request (W : world) (file_path upscale_type : string) :
  exists scale_factor mode,
    In (scale_factor, mode) upscale_requests
    /\ (~ In upscale_type ["2x"; "3x"; "4x"; "8x"; "smart"; "max"]%string ->
        (scale_factor, mode) = (2, "standard"%string))
    /\ BotHandlers.dispatch W file_path ("upscale_" ++ upscale_type)
       = (result_path <- custom_upscale W file_path scale_factor mode ;;
          ret (BotHandlers.Processed result_path
                 (Some (PyStr.str_of_Z scale_factor ++ "x Upscale ("
                        ++ PyText.title mode ++ ")")%string))).
Proof.
  destruct (upscale_request_returns upscale_type)
    as (scale_factor & mode & Heq & Hin & Hdefault).
  exists scale_factor, mode.
  split; [exact Hin | split; [exact Hdefault |]].
  rewrite dispatch_upscale, Heq. reflexivity.
Qed.

(** X14.  A custom upscale asked for through the handler resamples with
    Pillow once at most, whatever the button, the source and the failures
    of library calls: the stepwise loop of the smart upscale, which starts
    above factor 4, is out of reach of the handler's requests. *)
Theorem menu_upscale_resamples_once (W : world)
  (file_path upscale_type : string) (s : state) :
  (count_events is_pil_resize
     (trace (snd (BotHandlers.dispatch W file_path
                    ("upscale_" ++ upscale_type) s)))
   <= count_events is_pil_resize (trace s) + 1)%nat.
Proof.
  destruct (upscale_request_returns upscale_type)
    as (scale_factor & mode & Heq & Hin & _).
  rewrite dispatch_upscale, Heq.
  pose proof (custom_upscale_menu_resizes W file_path scale_factor mode s Hin)
    as H.
  unfold bind, ret. cbn [fst snd]. rewrite custom_upscale_eq.
  unfold wp in H.
  destruct (_custom_upscale W file_path scale_factor mode s) as [[r|e] s1];
    [exact H | contradiction].
Qed.

(** X15.  When no library call raises on its own, every [upscale_] button
    succeeds on a readable source of at least 1 by 1 pixels whose sides,
    enlarged eight times, stay within the 65500 pixels that a JPEG holds
    (so on every source of at most 8187 by 8187 pixels): the handler gets a
    result path, and the file there is the source enlarged by 2, 3, 4 or 8
    on both axes. *)
Theorem menu_upscale_succeeds (W : world) (file_path upscale_type : string)
  (f : disk_file) :
  fault_free W ->
  disk W file_path = Some f -> df_pil f = true ->
  0 < im_width (df_image f) -> 0 < im_height (df_image f) ->
  im_width (df_image f) * 8 <= 65500 ->
  im_height (df_image f) * 8 <= 65500 ->
  exists p text s' e scale_factor,
    BotHandlers.dispatch W file_path ("upscale_" ++ upscale_type) init_state
    = (Ret (BotHandlers.Processed (Some p) (Some text)), s')
    /\ read_file s' p = Some e
    /\ In scale_factor [2; 3; 4; 8]
    /\ enc_width e = im_width (df_image f) * scale_factor
    /\ enc_height e = im_height (df_image f) * scale_factor.
Proof.
  intros Hff Hf Hpil Hw Hh Hsw Hsh.
  destruct (upscale_request_returns upscale_type)
    as (scale_factor & mode & Heq & Hin & _).
  assert (Hk : In scale_factor [2; 3; 4; 8]).
  { unfold upscale_requests in Hin. cbn [In] in Hin. cbn [In].
    destruct Hin as [H | [H | [H | [H | [H | [H | []]]]]]];
      injection H as <- _; tauto. }
  assert (Hpos : 1 <= scale_factor <= 8).
  { cbn [In] in Hk. lia. }
  pose proof (wp_both _ _ _ _ _ _
                (custom_upscale_ok W Hff file_path scale_factor mode f
                   init_state Hf Hpil Hw Hh (proj1 Hpos)
                   ltac:(nia) ltac:(nia))
                (custom_upscale_files W file_path scale_factor mode f
                   init_state Hf (files_ok_init _))) as H.
  rewrite dispatch_upscale, Heq.
  unfold bind, ret. cbn [fst snd]. rewrite custom_upscale_eq.
  unfold wp in H.
  destruct (_custom_upscale W file_path scale_factor mode init_state)
    as [[[p|] | e] s1].
  - destruct H as [_ [Hok Hthere]].
    destruct (written_file _ s1 p Hok (Hthere p eq_refl))
      as (e & He & Hwidth & Hheight & _).
    exists p. eexists. exists s1, e, scale_factor.
    split; [reflexivity |]. auto.
  - destruct H as [Hne _]. contradiction.
  - destruct H as [[] _].
Qed.

Lemma menu_upscale_succeeds_witness :
  exists p text s' e scale_factor,
    BotHandlers.dispatch (sample_world no_faults 100 100 ModeP) sample_path
      "upscale_max" init_state
    = (Ret (BotHandlers.Processed (Some p) (Some text)), s')
    /\ read_file s' p = Some e
    /\ In scale_factor [2; 3; 4; 8]
    /\ enc_width e = 100 * scale_factor
    /\ enc_height e = 100 * scale_factor.
Proof.
  apply (menu_upscale_succeeds (sample_world no_faults 100 100 ModeP)
           sample_path "max" (mkDiskFile (mkImage 100 100 ModeP) true true)).
  - intros n. reflexivity.
  - reflexivity.
  - reflexivity.
  - reflexivity.
  - reflexivity.
  - cbn. lia.
  - cbn. lia.
Defined.

Lemma bind_ret_not {A} (m : M A) (k : A -> BotHandlers.dispatched) s r :
  (forall a, k a <> BotHandlers.Processed None None) ->
  (a <- m ;; ret (k a)) s <> (Ret (BotHandlers.Processed None None), r).
Proof.
  intros Hk. unfold bind, ret.
  destruct (m s) as [[a|e] s1]; intros H; [|discriminate].
  injection H as H _. exact (Hk a H).
Qed.

Lemma bind_checked_not (m : M (option string)) (text msg reply : string) s r :
  (result_path <- m ;;
   if BotHandlers.truthy result_path
   then ret (BotHandlers.Processed result_path (Some text))
   else logger_error msg ;; ret (BotHandlers.Refused reply)) s
  <> (Ret (BotHandlers.Processed None None), r).
Proof.
  unfold bind, ret, logger_error.
  destruct (m s) as [[a|e] s1]; [|discriminate].
  destruct (BotHandlers.truthy a); discriminate.
Qed.

(** X16.  Of the buttons that the four keyboards define, the handler
    leaves out exactly [back_to_main] and the three [quality_] buttons:
    these, and no other button, fall through every test of the callback
    data, so that nothing is run, nothing changes and there is no result
    path (nor a quality text). *)
Theorem unhandled_buttons (W : world) (file_path callback_data : string)
  (s : state) :
  In callback_data
     (List.concat (Keyboards.get_processing_keyboard
                   ++ Keyboards.get_format_keyboard
                   ++ Keyboards.get_quality_keyboard
                   ++ Keyboards.get_upscale_keyboard)%list) ->
  BotHandlers.dispatch W file_path callback_data s
  = (Ret (BotHandlers.Processed None None), s)
  <-> In callback_data
        ["back_to_main"; "quality_max"; "quality_balanced";
         "quality_compressed"]%string.
Proof.
  intros Hin. cbn in Hin.
  repeat (destruct Hin as [<- | Hin]); try contradiction.
  all: first
    [ (* left out *)
      split; [intros _; cbn; tauto | intros _; reflexivity]
    | (* dispatched *)
      split;
      [ intros H; exfalso; revert H;
        unfold BotHandlers.dispatch;
        cbn [String.eqb Ascii.eqb Bool.eqb PyText.startswith andb
             PyText.split option_map Nat.pred BotHandlers.item nth_error];
        first [ discriminate
              | apply bind_checked_not
              | apply (bind_ret_not _ (fun a => BotHandlers.Processed a _));
                discriminate
              | idtac ]
      | intros H; cbn in H; exfalso;
        repeat (destruct H as [H | H]; [discriminate|]); exact H ] ].
Qed.

Lemma unhandled_buttons_witness :
  BotHandlers.dispatch (sample_world no_faults 100 100 ModeRGB) sample_path
    "back_to_main" init_state
  = (Ret (BotHandlers.Processed None None), init_state)
  <-> In "back_to_main"%string
        ["back_to_main"; "quality_max"; "quality_balanced";
         "quality_compressed"]%string.
Proof.
  apply (unhandled_buttons (sample_world no_faults 100 100 ModeRGB)
           sample_path "back_to_main" init_state).
  cbn. tauto.
Defined.

(** * The clean-up of the temp directory *)

Section Cleanup.

Import FileCleanup.

Variable W : os_world.
Variable directory : string.
Variables max_age_seconds current_time : Q.

Local Open Scope string_scope.
Local Open Scope Z_scope.

(** What one name of the listing does to the loop state: nothing to the
    file system, or the removal of its path, which then held an old regular
    file that the system let go. *)
Lemma old_files_loop_step filename rest cleaned_count st :
  let file_path := path_join directory filename in
  exists c1 st1,
    old_files_loop W directory max_age_seconds current_time (filename :: rest)
      cleaned_count st
    = old_files_loop W directory max_age_seconds current_time rest c1 st1
    /\ ((c1 = cleaned_count /\ nodes st1 = nodes st
         /\ (forall n, nodes st file_path = Some n -> st_regular n = true ->
                       Qltb max_age_seconds (current_time - st_mtime n) = true ->
                       remove_denied W file_path = true)
         /\ (remove_denied W file_path = false -> errors st1 = errors st))
        \/ (c1 = cleaned_count + 1 /\ errors st1 = errors st
            /\ (forall q, nodes st1 q
                          = if String.eqb q file_path then None else nodes st q)
            /\ exists n, nodes st file_path = Some n /\ st_regular n = true
                 /\ Qltb max_age_seconds (current_time - st_mtime n) = true
                 /\ remove_denied W file_path = false)).
Proof.
  intros file_path. cbn [old_files_loop]. fold file_path.
  unfold isfile, getmtime, cleanup_file, path_exists, remove.
  destruct (nodes st file_path) as [n|] eqn:Hn.
  2:{ exists cleaned_count, st. split; [reflexivity|]. left.
      repeat split; try reflexivity. intros n H. discriminate. }
  destruct (st_regular n) eqn:Hreg.
  2:{ exists cleaned_count, st. split; [reflexivity|]. left.
      repeat split; try reflexivity.
      intros n' H Hr. injection H as <-. congruence. }
  destruct (Qltb max_age_seconds (current_time - st_mtime n)) eqn:Hold.
  2:{ exists cleaned_count, st. split; [reflexivity|]. left.
      repeat split; try reflexivity.
      intros n' H _ Ho. injection H as <-. congruence. }
  destruct (remove_denied W file_path) eqn:Hden; cbn [andb negb].
  - eexists. eexists. split; [reflexivity|]. left.
    repeat split; try reflexivity. intros H. discriminate.
  - eexists. eexists. split; [reflexivity|]. right.
    repeat split; try reflexivity. exists n. auto.
Qed.

(** The loop runs to its end: a path that [isfile] accepts has a
    modification time. *)
Lemma old_files_loop_completes : forall names cleaned_count st,
  fst (fst (old_files_loop W directory max_age_seconds current_time names
              cleaned_count st)) = true.
Proof.
  induction names as [|filename rest IH]; intros c st; [reflexivity|].
  destruct (old_files_loop_step filename rest c st) as (c1 & st1 & -> & _).
  apply IH.
Qed.

(** Only listed paths that hold an old regular file are touched, and they
    are removed. *)
Lemma old_files_loop_spares : forall names cleaned_count st p,
  let st' := snd (old_files_loop W directory max_age_seconds current_time names
                    cleaned_count st) in
  nodes st' p = nodes st p
  \/ (nodes st' p = None
      /\ exists filename n,
           In filename names /\ p = path_join directory filename
           /\ nodes st p = Some n /\ st_regular n = true
           /\ Qltb max_age_seconds (current_time - st_mtime n) = true
           /\ remove_denied W p = false).
Proof.
  induction names as [|filename rest IH]; intros c st p; [left; reflexivity|].
  destruct (old_files_loop_step filename rest c st)
    as (c1 & st1 & Heq & Hstep).
  cbv zeta. rewrite Heq.
  specialize (IH c1 st1 p). cbv zeta in IH.
  destruct Hstep as [(_ & Hnodes & _) | (_ & _ & Hnodes & n & Hn & Hreg & Hold & Hden)].
  - rewrite Hnodes in IH.
    destruct IH as [IH | (Hgone & f & n & Hin & Hp & Hrest)]; [left; exact IH|].
    right. split; [exact Hgone|]. exists f, n. split; [right; exact Hin | auto].
  - rewrite (Hnodes p) in IH.
    destruct (String.eqb p (path_join directory filename)) eqn:Hp.
    + apply String.eqb_eq in Hp.
      right. split.
      * destruct IH as [IH | [IH _]]; exact IH.
      * exists filename, n. subst p. split; [left; reflexivity | auto].
    + destruct IH as [IH | (Hgone & f & n' & Hin & Hp' & Hrest)];
        [left; exact IH|].
      right. split; [exact Hgone|]. exists f, n'.
      split; [right; exact Hin | auto].
Qed.

(** Nothing comes back. *)
Lemma old_files_loop_gone names cleaned_count st p :
  nodes st p = None ->
  nodes (snd (old_files_loop W directory max_age_seconds current_time names
                cleaned_count st)) p = None.
Proof.
  intros Hp.
  destruct (old_files_loop_spares names cleaned_count st p) as [H | [H _]].
  - rewrite H. exact Hp.
  - exact H.
Qed.

(** The counter counts the paths removed. *)
Lemma old_files_loop_counts : forall names cleaned_count st,
  let run := old_files_loop W directory max_age_seconds current_time names
               cleaned_count st in
  exists removed,
    NoDup removed
    /\ snd (fst run) = cleaned_count + Z.of_nat (List.length removed)
    /\ forall p, In p removed
                 <-> nodes st p <> None /\ nodes (snd run) p = None.
Proof.
  induction names as [|filename rest IH]; intros c st; cbv zeta.
  - exists []. split; [constructor | split; [cbn; lia |]].
    intros p. cbn. split; [contradiction | intros [H1 H2]; contradiction].
  - destruct (old_files_loop_step filename rest c st)
      as (c1 & st1 & Heq & Hstep).
    rewrite Heq.
    destruct (IH c1 st1) as (removed & Hnd & Hcount & Hremoved).
    cbv zeta in Hcount, Hremoved.
    destruct Hstep as [(-> & Hnodes & _) | (-> & _ & Hnodes & n & Hn & _)].
    + exists removed. rewrite <- Hnodes.
      split; [exact Hnd | split; [exact Hcount | exact Hremoved]].
    + set (file_path := path_join directory filename) in *.
      assert (Hgone : nodes st1 file_path = None).
      { rewrite Hnodes, String.eqb_refl. reflexivity. }
      exists (file_path :: removed). split; [|split].
      * constructor; [|exact Hnd].
        intros Hin. apply Hremoved in Hin. destruct Hin as [Hin _].
        contradiction.
      * rewrite Hcount. cbn [List.length]. lia.
      * intros p. cbn [In]. rewrite Hremoved. rewrite (Hnodes p).
        destruct (String.eqb p file_path) eqn:Hp.
        -- apply String.eqb_eq in Hp. subst p. split.
           ++ intros _. split; [congruence|].
              apply old_files_loop_gone. exact Hgone.
           ++ intros _. left. reflexivity.
        -- apply String.eqb_neq in Hp. split.
           ++ intros [H | H]; [congruence | exact H].
           ++ intros H. right. exact H.
Qed.

(** When the system refuses no removal, the loop leaves exactly the paths
    that are not listed or do not hold an old regular file, and logs
    nothing. *)
Lemma old_files_loop_exact : forall names cleaned_count st,
  (forall p, remove_denied W p = false) ->
  let st' := snd (old_files_loop W directory max_age_seconds current_time names
                    cleaned_count st) in
  errors st' = errors st
  /\ forall p,
       nodes st' p
       = match nodes st p with
         | Some n =>
             if PyStr.mem p (map (path_join directory) names)
                && (st_regular n
                    && Qltb max_age_seconds (current_time - st_mtime n))
             then None else Some n
         | None => None
         end.
Proof.
  intros names c st Hallowed.
  revert c st.
  induction names as [|filename rest IH]; intros c st; cbv zeta.
  - split; [reflexivity|]. intros p. cbn. destruct (nodes st p); reflexivity.
  - destruct (old_files_loop_step filename rest c st)
      as (c1 & st1 & Heq & Hstep).
    rewrite Heq.
    destruct (IH c1 st1) as [Herr Hexact]. cbv zeta in Herr, Hexact.
    set (file_path := path_join directory filename) in *.
    destruct Hstep as [(_ & Hnodes & Hskip & Herr1)
                      | (_ & Herr1 & Hnodes & n & Hn & Hreg & Hold & _)].
    + split; [rewrite Herr; apply Herr1, Hallowed|].
      intros p. rewrite Hexact, Hnodes.
      destruct (nodes st p) as [n|] eqn:Hp; [|reflexivity].
      cbn [map PyStr.mem]. fold file_path.
      destruct (String.eqb p file_path) eqn:Hpf; [|reflexivity].
      apply String.eqb_eq in Hpf. subst p. cbn [orb].
      destruct (st_regular n) eqn:Hreg; cbn [andb];
        [|rewrite andb_false_r; reflexivity].
      destruct (Qltb max_age_seconds (current_time - st_mtime n)) eqn:Hold;
        [|rewrite andb_false_r; reflexivity].
      pose proof (Hskip n Hp Hreg Hold) as Hden.
      rewrite Hallowed in Hden. discriminate.
    + split; [rewrite Herr; exact Herr1|].
      intros p. rewrite Hexact, (Hnodes p).
      cbn [map PyStr.mem]. fold file_path.
      destruct (String.eqb p file_path) eqn:Hpf.
      * apply String.eqb_eq in Hpf. subst p. rewrite Hn, Hreg, Hold.
        reflexivity.
      * reflexivity.
Qed.

End Cleanup.

(** X17.  [cleanup_old_files] deletes nothing but old regular files of the
    directory it is given: a path whose entry changes is the join of the
    directory and a listed name, held a regular file older than the limit,
    and is gone afterwards.  Directories, fresh files and every other path
    are as they were. *)
Theorem cleanup_old_files_spares (W : FileCleanup.os_world) (directory : string)
  (max_age_hours : Z) (current_time : Q) (st : FileCleanup.os_state)
  (p : string) :
  let st' := snd (FileCleanup.cleanup_old_files W directory max_age_hours
                    current_time st) in
  FileCleanup.nodes st' p = FileCleanup.nodes st p
  \/ (FileCleanup.nodes st' p = None
      /\ exists names filename n,
           FileCleanup.listdir W directory = Some names
           /\ In filename names
           /\ p = FileCleanup.path_join directory filename
           /\ FileCleanup.nodes st p = Some n
           /\ FileCleanup.old_file max_age_hours current_time n = true
           /\ FileCleanup.remove_denied W p = false).
Proof.
  cbv zeta. unfold FileCleanup.cleanup_old_files.
  destruct (FileCleanup.listdir W directory) as [names|];
    [|left; reflexivity].
  pose proof (old_files_loop_spares W directory
                (inject_Z (max_age_hours * 3600)) current_time names 0 st p)
    as H.
  cbv zeta in H.
  destruct (FileCleanup.old_files_loop W directory _ current_time names 0 st)
    as [[[|] c] st1]; cbn [snd FileCleanup.log_error FileCleanup.nodes] in *.
  all: destruct H as [H | (Hgone & f & n & Hin & Hp & Hn & Hreg & Hold & Hden)];
    [left; exact H|].
  all: right; split; [exact Hgone|]; exists names, f, n;
    unfold FileCleanup.old_file; rewrite Hreg, Hold;
    repeat (split; [solve [auto] |]); exact Hden.
Qed.

(** X18.  The number that [cleanup_old_files] returns is the number of
    paths it deleted: the paths that were there before and are not there
    afterwards, each counted once. *)
Theorem cleanup_old_files_counts (W : FileCleanup.os_world) (directory : string)
  (max_age_hours : Z) (current_time : Q) (st : FileCleanup.os_state) :
  let run := FileCleanup.cleanup_old_files W directory max_age_hours
               current_time st in
  exists removed,
    NoDup removed
    /\ fst run = Z.of_nat (List.length removed)
    /\ forall p, In p removed
                 <-> FileCleanup.nodes st p <> None
                     /\ FileCleanup.nodes (snd run) p = None.
Proof.
  cbv zeta. unfold FileCleanup.cleanup_old_files.
  destruct (FileCleanup.listdir W directory) as [names|].
  2:{ exists []. split; [constructor | split; [reflexivity|]].
      intros p. cbn. split; [contradiction | intros [H1 H2]; contradiction]. }
  destruct (old_files_loop_counts W directory
              (inject_Z (max_age_hours * 3600)) current_time names 0 st)
    as (removed & Hnd & Hcount & Hremoved).
  cbv zeta in Hcount, Hremoved.
  exists removed.
  destruct (FileCleanup.old_files_loop W directory _ current_time names 0 st)
    as [[[|] c] st1]; cbn [fst snd FileCleanup.log_error FileCleanup.nodes] in *.
  all: split; [exact Hnd | split; [lia | exact Hremoved]].
Qed.

(** X19.  When the directory can be listed and the system refuses no
    removal, [cleanup_old_files] leaves no old regular file behind under a
    listed name: afterwards a path is gone exactly when it was listed and
    held a regular file older than the limit, and no error is logged. *)
Theorem cleanup_old_files_exact (W : FileCleanup.os_world) (directory : string)
  (max_age_hours : Z) (current_time : Q) (st : FileCleanup.os_state)
  (names : list string) :
  FileCleanup.listdir W directory = Some names ->
  (forall p, FileCleanup.remove_denied W p = false) ->
  let st' := snd (FileCleanup.cleanup_old_files W directory max_age_hours
                    current_time st) in
  FileCleanup.errors st' = FileCleanup.errors st
  /\ forall p,
       FileCleanup.nodes st' p
       = match FileCleanup.nodes st p with
         | Some n =>
             if PyStr.mem p (map (FileCleanup.path_join directory) names)
                && FileCleanup.old_file max_age_hours current_time n
             then None else Some n
         | None => None
         end.
Proof.
  intros Hlist Hallowed. cbv zeta. unfold FileCleanup.cleanup_old_files.
  rewrite Hlist.
  pose proof (old_files_loop_completes W directory
                (inject_Z (max_age_hours * 3600)) current_time names 0 st)
    as Hdone.
  pose proof (old_files_loop_exact W directory
                (inject_Z (max_age_hours * 3600)) current_time names 0 st
                Hallowed) as H.
  cbv zeta in H.
  destruct (FileCleanup.old_files_loop W directory _ current_time names 0 st)
    as [[done c] st1]. cbn [fst snd] in *. subst done. cbn [snd].
  exact H.
Qed.

Lemma cleanup_old_files_exact_witness :
  FileCleanup.nodes
    (snd (FileCleanup.cleanup_old_files sample_os_world "/tmp/bot_images" 1
            7200 sample_os_state))
    "/tmp/bot_images/old.jpg" = None
  /\ FileCleanup.nodes
       (snd (FileCleanup.cleanup_old_files sample_os_world "/tmp/bot_images" 1
               7200 sample_os_state))
       "/tmp/bot_images/new.jpg" = Some (FileCleanup.mkStat true 1000 7000).
Proof.
  pose proof (cleanup_old_files_exact sample_os_world "/tmp/bot_images" 1 7200
                sample_os_state ["old.jpg"; "new.jpg"; "sub"]%string
                eq_refl (fun _ => eq_refl)) as H.
  split; [exact (proj2 H "/tmp/bot_images/old.jpg"%string)
         | exact (proj2 H "/tmp/bot_images/new.jpg"%string)].
Defined.

(** * Output paths and the source *)

Section SourceKept.

Local Open Scope string_scope.
Local Open Scope Z_scope.

(** The last occurrence of [c] in [stem ++ c ++ t], when [t] has none. *)
Lemma rfind_char_last c stem t : forall i, 0 <= i ->
  str_has c t = false ->
  PyStr.rfind_from i c (stem ++ String c t) = i + Z.of_nat (String.length stem).
Proof.
  induction stem as [|x r IH]; intros i Hi Ht.
  - cbn [String.append PyStr.rfind_from String.length].
    rewrite (rfind_from_absent _ _ _ Ht), Ascii.eqb_refl.
    cbn [Z.leb Z.compare Z.of_nat]. lia.
  - cbn [String.append PyStr.rfind_from String.length].
    rewrite (IH (i + 1)) by (try lia; assumption).
    destruct (0 <=? i + 1 + Z.of_nat (String.length r)) eqn:H.
    + lia.
    + apply Z.leb_gt in H. lia.
Qed.

Lemma str_app_assoc (a b c : string) : (a ++ b) ++ c = a ++ b ++ c.
Proof. induction a as [|x a IH]; cbn; [reflexivity | rewrite IH; reflexivity]. Qed.

Lemma basename_child dir name :
  str_has "/" name = false -> PyStr.basename (dir ++ "/" ++ name) = name.
Proof.
  intros Hname. unfold PyStr.basename, PyStr.rfind.
  change (dir ++ "/" ++ name) with (dir ++ String "/" name).
  rewrite rfind_char_last by (try lia; assumption).
  replace (Z.to_nat (0 + Z.of_nat (String.length dir) + 1))
    with (String.length (dir ++ "/")).
  2:{ rewrite str_length_app. cbn [String.length]. lia. }
  change (dir ++ String "/" name) with (dir ++ "/" ++ name).
  rewrite <- str_app_assoc. apply drop_app_length.
Qed.

Lemma take_drop n : forall s, PyStr.take n s ++ PyStr.drop n s = s.
Proof.
  induction n as [|n IH]; intros [|x r]; cbn; try reflexivity.
  rewrite IH. reflexivity.
Qed.

(** The two parts of [splitext_scan] make up the path, and the second is
    empty or what the path holds from [dotIndex] on. *)
Lemma splitext_scan_parts n : forall p i d,
  let r := PyStr.splitext_scan n p i d in
  fst r ++ snd r = p
  /\ (snd r = "" \/ snd r = PyStr.drop (Z.to_nat d) p).
Proof.
  assert (Hwhole : forall p : string, p ++ "" = p).
  { induction p as [|x p IH]; cbn; [reflexivity | rewrite IH; reflexivity]. }
  induction n as [|n IH]; intros p i d; cbv zeta; cbn [PyStr.splitext_scan].
  - split; [apply Hwhole | left; reflexivity].
  - destruct (i <? d); [| split; [apply Hwhole | left; reflexivity]].
    destruct (PyStr.char_at p i) as [a|];
      [| cbn [fst snd]; split; [apply take_drop | right; reflexivity]].
    destruct a as [b0 b1 b2 b3 b4 b5 b6 b7].
    destruct b0, b1, b2, b3, b4, b5, b6, b7;
      first [ apply IH
            | cbn [fst snd]; split; [apply take_drop | right; reflexivity] ].
Qed.

(** An index that [rfind] returns holds the character looked for. *)
Lemma rfind_from_hit c s : forall i, 0 <= i ->
  PyStr.rfind_from i c s = -1
  \/ exists k t, PyStr.rfind_from i c s = i + Z.of_nat k
                 /\ PyStr.drop k s = String c t.
Proof.
  induction s as [|x r IH]; intros i Hi; cbn [PyStr.rfind_from].
  - left. reflexivity.
  - destruct (IH (i + 1) ltac:(lia)) as [Hk | (k & t & Hk & Ht)]; rewrite Hk.
    + cbn [Z.leb Z.compare].
      destruct (Ascii.eqb x c) eqn:Hx; [|left; reflexivity].
      apply Ascii.eqb_eq in Hx. subst x.
      right. exists O, r. split; [lia | reflexivity].
    + destruct (0 <=? i + 1 + Z.of_nat k) eqn:Hle;
        [| apply Z.leb_gt in Hle; lia].
      right. exists (S k), t. split; [lia | exact Ht].
Qed.

(** [os.path.splitext]: root and extension make up the path, and the
    extension is empty or starts with a dot. *)
Lemma splitext_parts p :
  fst (PyStr.splitext p) ++ snd (PyStr.splitext p) = p
  /\ (snd (PyStr.splitext p) = "" \/ exists t, snd (PyStr.splitext p) = String "." t).
Proof.
  unfold PyStr.splitext, PyStr.rfind.
  destruct (PyStr.rfind_from 0 "/" p <? PyStr.rfind_from 0 "." p) eqn:Hlt.
  - destruct (splitext_scan_parts
                (Z.to_nat (PyStr.rfind_from 0 "." p
                           - (PyStr.rfind_from 0 "/" p + 1)))
                p (PyStr.rfind_from 0 "/" p + 1) (PyStr.rfind_from 0 "." p))
      as [Hparts Hext].
    cbv zeta in Hparts, Hext. split; [exact Hparts|].
    destruct Hext as [Hext | Hext]; [left; exact Hext|].
    right. rewrite Hext.
    apply Z.ltb_lt in Hlt.
    pose proof (rfind_from_lower_bound "/" p 0 ltac:(lia)) as Hsep.
    destruct (rfind_from_hit "." p 0 ltac:(lia)) as [Hk | (k & t & Hk & Ht)].
    + lia.
    + exists t. rewrite Hk.
      replace (Z.to_nat (0 + Z.of_nat k)) with k by lia. exact Ht.
  - split; [|left; reflexivity].
    cbn [fst snd]. induction p as [|x p IH]; cbn; [reflexivity|].
    clear IH Hlt. f_equal.
    induction p as [|y p IH]; cbn; [reflexivity | rewrite IH; reflexivity].
Qed.

End SourceKept.

(** X20.  The output path is never the input path: whatever the input,
    [_get_output_path] with a suffix that holds no slash returns another
    path, so an operation that writes there does not write over its
    source. *)
Theorem output_path_is_not_the_source (input_path suffix : string) :
  str_has "/" suffix = false ->
  _get_output_path input_path suffix <> input_path.
Proof.
  intros Hs Heq.
  pose proof (f_equal PyStr.basename Heq) as Hbase.
  unfold _get_output_path in Hbase.
  destruct (splitext_parts (PyStr.basename input_path)) as [Hparts Hext].
  set (base_name := fst (PyStr.splitext (PyStr.basename input_path))) in *.
  set (ext := snd (PyStr.splitext (PyStr.basename input_path))) in *.
  rewrite basename_child in Hbase.
  2:{ rewrite !str_has_app, Hs. unfold base_name.
      rewrite (splitext_root_absent "/" _ (basename_no_slash input_path)).
      reflexivity. }
  rewrite <- Hparts in Hbase. apply str_app_inj_l in Hbase.
  destruct Hext as [Hext | [t Hext]]; rewrite Hext in Hbase; discriminate.
Qed.

Lemma output_path_is_not_the_source_witness :
  _get_output_path "/tmp/bot_images/in_HD.jpg" "HD" <> "/tmp/bot_images/in_HD.jpg"%string.
Proof.
  apply (output_path_is_not_the_source "/tmp/bot_images/in_HD.jpg" "HD").
  reflexivity.
Defined.

(** * The statistics *)

Section Statistics.

Import WebhookServer.

Lemma firstn_app_firstn {A} (n : nat) (x y : list A) :
  firstn n (x ++ firstn n y) = firstn n (x ++ y).
Proof.
  rewrite !firstn_app, firstn_firstn.
  replace (Nat.min (n - List.length x) n) with (n - List.length x)%nat by lia.
  reflexivity.
Qed.

Lemma log_all_recent : forall l st,
  (List.length (recent_activities st) <= 50)%nat ->
  recent_activities (log_all l st) = firstn 50 (rev l ++ recent_activities st).
Proof.
  induction l as [|a l IH]; intros st Hlen.
  - cbn [log_all fold_left rev List.app]. symmetry. apply firstn_all2. exact Hlen.
  - change (log_all (a :: l) st)
      with (log_all l (add_activity (action a) (details a) (type a)
                         (timestamp a) st)).
    rewrite IH by (cbn [add_activity recent_activities]; apply firstn_le_length).
    cbn [add_activity recent_activities rev].
    destruct a as [act det ty ts]. cbn [action details type timestamp].
    rewrite firstn_app_firstn, <- app_assoc. reflexivity.
Qed.

Lemma log_all_counters : forall l st,
  images_processed (log_all l st) = images_processed st
  /\ active_users (log_all l st) = active_users st.
Proof.
  induction l as [|a l IH]; intros st; [split; reflexivity|].
  change (log_all (a :: l) st)
    with (log_all l (add_activity (action a) (details a) (type a)
                       (timestamp a) st)).
  destruct (IH (add_activity (action a) (details a) (type a) (timestamp a) st))
    as [H1 H2].
  rewrite H1, H2. split; reflexivity.
Qed.

End Statistics.

(** X21.  The activity log is a window on the last 50 activities, newest
    first: after any number of [add_activity] calls on a log of at most 50
    entries it holds the 50 most recent of the old and new entries, never
    more, and the counters of the statistics are untouched. *)
Theorem activity_log_window (l : list WebhookServer.activity)
  (st : WebhookServer.stats) :
  (List.length (WebhookServer.recent_activities st) <= 50)%nat ->
  WebhookServer.recent_activities (log_all l st)
  = firstn 50 (rev l ++ WebhookServer.recent_activities st)
  /\ (List.length (WebhookServer.recent_activities (log_all l st)) <= 50)%nat
  /\ WebhookServer.images_processed (log_all l st)
     = WebhookServer.images_processed st
  /\ WebhookServer.active_users (log_all l st) = WebhookServer.active_users st.
Proof.
  intros Hlen. rewrite (log_all_recent l st Hlen).
  split; [reflexivity | split; [apply firstn_le_length |]].
  apply log_all_counters.
Qed.

Lemma activity_log_window_witness :
  let a := WebhookServer.mkActivity "Image Uploaded" "User @u uploaded a photo"
             "info" "2024-01-01T00:00:00" in
  let b := WebhookServer.mkActivity "Processing Started"
             "User @u started HD Enhancement" "info" "2024-01-01T00:00:05" in
  let st := WebhookServer.mkStats 0 [] [] in
  WebhookServer.recent_activities (log_all [a; b] st) = [b; a].
Proof.
  cbv zeta.
  refine (proj1 (activity_log_window
                   [WebhookServer.mkActivity "Image Uploaded"
                      "User @u uploaded a photo" "info" "2024-01-01T00:00:00";
                    WebhookServer.mkActivity "Processing Started"
                      "User @u started HD Enhancement" "info"
                      "2024-01-01T00:00:05"]
                   (WebhookServer.mkStats 0 [] []) _)).
  cbn. lia.
Defined.

(** X22.  The counter of processed images follows the button, not the
    work done: a callback that returns adds one exactly when its data is one
    of the five keys of [processing_types].  So opening the format menu
    ([convert_format], for which the handler only shows a keyboard) is
    counted as a processed image, and no conversion ([format_...]) and no
    custom upscale ([upscale_...]) ever is. *)
Theorem processed_counter_follows_button (W : world) (user_id : Z)
  (file_path username callback_data started completed rest : string)
  (st : WebhookServer.stats) (s : state) :
  let counted cb :=
    WebhookServer.images_processed
      (fst (EnhancedBotHandlers.handle_callback user_id username cb started
              completed true st))
    - WebhookServer.images_processed st in
  counted callback_data
  = (if PyStr.mem callback_data
          ["enhance_hd"; "enhance_4k"; "enhance_4k_compressed"; "optimize";
           "convert_format"]%string
     then 1 else 0)
  /\ (counted "convert_format"%string = 1
      /\ BotHandlers.dispatch W file_path "convert_format" s
         = (Ret (BotHandlers.Menu "Choose output format:"
                   BotHandlers.format_keyboard), s))
  /\ counted ("format_" ++ rest)%string = 0
  /\ counted ("upscale_" ++ rest)%string = 0.
Proof.
  cbv zeta.
  assert (Hgen : forall cb,
            WebhookServer.images_processed
              (fst (EnhancedBotHandlers.handle_callback user_id username cb
                      started completed true st))
            - WebhookServer.images_processed st
            = if PyStr.mem cb
                   ["enhance_hd"; "enhance_4k"; "enhance_4k_compressed";
                    "optimize"; "convert_format"]%string
              then 1 else 0).
  { intros cb. unfold EnhancedBotHandlers.handle_callback,
      EnhancedBotHandlers.dict_mem.
    change (map fst EnhancedBotHandlers.processing_types)
      with ["enhance_hd"; "enhance_4k"; "enhance_4k_compressed"; "optimize";
            "convert_format"]%string.
    destruct (PyStr.mem cb _);
      cbn [fst WebhookServer.images_processed WebhookServer.add_activity
           WebhookServer.increment_processed_images
           WebhookServer.add_active_user]; lia. }
  split; [apply Hgen|].
  split; [split; [rewrite Hgen; reflexivity | reflexivity]|].
  split; rewrite Hgen; reflexivity.
Qed.
